(** * go-trump: a shallow embedding of [main.go]

    The program is a linear run: pick a prompt from the start-up date, ask a
    text-generation service for a post, authenticate against Bluesky and
    publish the post.  The embedding keeps that shape.  The Go standard
    library pieces the program calls ([time], [fmt], [encoding/json],
    [net/http], [os], [log]) and [godotenv] are modelled in their own
    modules; the functions of [main.go] are transcribed on top of them in
    a small state-and-exit monad that records every observable action. *)

From Stdlib Require Import ZArith String Ascii List Lia Bool.
From stdpp Require Import base gmap strings list.

Local Open Scope string_scope.
Local Open Scope list_scope.
Local Open Scope Z_scope.
Set Warnings "-register-all".

(** ** Strings and decimal numbers ([fmt], [strconv]) *)

Module Str.

Definition digit (d : Z) : ascii := ascii_of_N (Z.to_N (48 + d)).

(** Decimal digits of a non-negative number, most significant first.
    The fuel bounds the number of digits. *)
Fixpoint digits_go (fuel : nat) (n : Z) (acc : string) : string :=
  let acc' := String (digit (n mod 10)) acc in
  match fuel with
  | O => acc'
  | S fuel' => if n <? 10 then acc' else digits_go fuel' (n / 10) acc'
  end.

Definition digits (n : Z) : string :=
  digits_go (Z.to_nat (Z.log2 n)) n EmptyString.

(** [%d] of [fmt] and [strconv.Itoa]. *)
Definition itoa (n : Z) : string :=
  if n <? 0 then String "-" (digits (- n)) else digits n.

Fixpoint repeat0 (n : nat) (s : string) : string :=
  match n with
  | O => s
  | S n' => String "0" (repeat0 n' s)
  end.

(** [s] occurs in [t] at position 0. *)
Fixpoint prefixb (s t : string) : bool :=
  match s, t with
  | EmptyString, _ => true
  | String a s', String b t' => if ascii_dec a b then prefixb s' t' else false
  | String _ _, EmptyString => false
  end.

(** [strings.Contains t s]. *)
Fixpoint contains (t s : string) : bool :=
  prefixb s t ||
  match t with
  | EmptyString => false
  | String _ t' => contains t' s
  end.

End Str.

(** ** Model of Go's [time] package

    A [Time] is an instant (seconds and nanoseconds since the Unix epoch)
    together with the offset east of UTC, in seconds, that its location
    has at that instant.  Comparisons look at the instant only; formatting
    looks at the instant shifted by the offset. *)

Module time.

Inductive Month :=
| January | February | March | April | May | June
| July | August | September | October | November | December.

Definition month_number (m : Month) : Z :=
  match m with
  | January => 1 | February => 2 | March => 3 | April => 4
  | May => 5 | June => 6 | July => 7 | August => 8
  | September => 9 | October => 10 | November => 11 | December => 12
  end.

Definition month_of_number (n : Z) : Month :=
  match n with
  | 1 => January | 2 => February | 3 => March | 4 => April
  | 5 => May | 6 => June | 7 => July | 8 => August
  | 9 => September | 10 => October | 11 => November | _ => December
  end.

(** [Month.String]. *)
Definition month_name (m : Month) : string :=
  match m with
  | January => "January" | February => "February" | March => "March"
  | April => "April" | May => "May" | June => "June"
  | July => "July" | August => "August" | September => "September"
  | October => "October" | November => "November" | December => "December"
  end.

Record Time := mkTime {
  unix_sec : Z;      (* seconds since 1970-01-01T00:00:00Z *)
  nsec : Z;          (* nanoseconds within the second *)
  zone_offset : Z    (* seconds east of UTC of the time's location *)
}.

(** The location argument of [time.Date]; only [time.UTC] is used. *)
Inductive Location := UTC_loc.

(** Days from 1970-01-01 to the given proleptic Gregorian date. *)
Definition days_from_civil (y m d : Z) : Z :=
  let y' := if m <=? 2 then y - 1 else y in
  let era := y' / 400 in
  let yoe := y' - era * 400 in
  let mp := if 2 <? m then m - 3 else m + 9 in
  let doy := (153 * mp + 2) / 5 + d - 1 in
  let doe := yoe * 365 + yoe / 4 - yoe / 100 + doy in
  era * 146097 + doe - 719468.

(** The proleptic Gregorian date (year, month, day) of a day number. *)
Definition civil_from_days (z : Z) : Z * Z * Z :=
  let z' := z + 719468 in
  let era := z' / 146097 in
  let doe := z' - era * 146097 in
  let yoe := (doe - doe / 1460 + doe / 36524 - doe / 146096) / 365 in
  let doy := doe - (365 * yoe + yoe / 4 - yoe / 100) in
  let mp := (5 * doy + 2) / 153 in
  let d := doy - (153 * mp + 2) / 5 + 1 in
  let m := if mp <? 10 then mp + 3 else mp - 9 in
  let y := yoe + era * 400 in
  (if m <=? 2 then y + 1 else y, m, d).

(** [time.Date(year, month, day, hour, min, sec, nsec, time.UTC)]. *)
Definition Date (year : Z) (month : Month) (day hour min sec ns : Z)
    (loc : Location) : Time :=
  let days := days_from_civil year (month_number month) day in
  {| unix_sec := days * 86400 + hour * 3600 + min * 60 + sec;
     nsec := ns;
     zone_offset := 0 |}.

(** [t.Before(u)]: the instant [t] is strictly earlier than [u]. *)
Definition Before (t u : Time) : bool :=
  (unix_sec t <? unix_sec u) ||
  ((unix_sec t =? unix_sec u) && (nsec t <? nsec u)).

(** [t.After(u)]: the instant [t] is strictly later than [u]. *)
Definition After (t u : Time) : bool :=
  (unix_sec u <? unix_sec t) ||
  ((unix_sec t =? unix_sec u) && (nsec u <? nsec t)).

(** [t.UTC()]: same instant, location UTC. *)
Definition UTC (t : Time) : Time :=
  {| unix_sec := unix_sec t; nsec := nsec t; zone_offset := 0 |}.

(** Seconds since the epoch as read on the wall clock of the location. *)
Definition wall_sec (t : Time) : Z := unix_sec t + zone_offset t.

Definition Year (t : Time) : Z := fst (fst (civil_from_days (wall_sec t / 86400))).
Definition Month_of (t : Time) : Month :=
  month_of_number (snd (fst (civil_from_days (wall_sec t / 86400)))).
Definition Day (t : Time) : Z := snd (civil_from_days (wall_sec t / 86400)).
Definition Hour (t : Time) : Z := (wall_sec t mod 86400) / 3600.
Definition Minute (t : Time) : Z := (wall_sec t mod 3600) / 60.
Definition Second (t : Time) : Z := wall_sec t mod 60.

(** [appendInt]: decimal with a sign and zero padding to [width]. *)
Definition appendInt (x : Z) (width : nat) : string :=
  let u := Z.abs x in
  let ds := Str.digits u in
  let padded := Str.repeat0 (width - String.length ds) ds in
  if x <? 0 then String "-" padded else padded.

(** The layout elements that occur in the two layouts the program uses. *)
Inductive chunk :=
| stdLongMonth            (* "January" *)
| stdZeroMonth            (* "01" *)
| stdDay                  (* "2" *)
| stdZeroDay              (* "02" *)
| stdLongYear             (* "2006" *)
| stdHour                 (* "15" *)
| stdZeroMinute           (* "04" *)
| stdZeroSecond           (* "05" *)
| stdISO8601ColonTZ       (* "Z07:00" *)
| lit (s : string).

Definition format_chunk (t : Time) (c : chunk) : string :=
  match c with
  | stdLongMonth => month_name (Month_of t)
  | stdZeroMonth => appendInt (month_number (Month_of t)) 2
  | stdDay => appendInt (Day t) 0
  | stdZeroDay => appendInt (Day t) 2
  | stdLongYear => appendInt (Year t) 4
  | stdHour => appendInt (Hour t) 2
  | stdZeroMinute => appendInt (Minute t) 2
  | stdZeroSecond => appendInt (Second t) 2
  | stdISO8601ColonTZ =>
      let off := zone_offset t in
      if off =? 0 then "Z"
      else
        let zone := Z.quot off 60 in  (* minutes east of UTC *)
        let a := Z.abs zone in
        String (if zone <? 0 then "-"%char else "+"%char)
               (appendInt (Z.quot a 60) 2 +:+ ":" +:+ appendInt (Z.rem a 60) 2)
  | lit s => s
  end.

Fixpoint format_chunks (t : Time) (l : list chunk) : string :=
  match l with
  | [] => EmptyString
  | c :: l' => format_chunk t c +:+ format_chunks t l'
  end.

(** The layout ["January 2, 2006"]. *)
Definition layout_January_2_2006 : list chunk :=
  [stdLongMonth; lit " "; stdDay; lit ", "; stdLongYear].

(** [time.RFC3339], the layout ["2006-01-02T15:04:05Z07:00"]. *)
Definition RFC3339 : list chunk :=
  [stdLongYear; lit "-"; stdZeroMonth; lit "-"; stdZeroDay; lit "T";
   stdHour; lit ":"; stdZeroMinute; lit ":"; stdZeroSecond;
   stdISO8601ColonTZ].

(** [t.Format(layout)]. *)
Definition Format (t : Time) (layout : list chunk) : string :=
  format_chunks t layout.

End time.

(** ** Model of Go's [unicode/utf8] package

    Bytes are [ascii] characters, read as numbers in [0, 256).  The masks
    and shifts of the Go code are written arithmetically: [b & 0x3F] is
    [b mod 64], [x << 6] is [x * 64], and [|] of disjoint bit ranges is
    [+]. *)

Module utf8.

Definition byte (a : ascii) : Z := Z.of_N (N_of_ascii a).
Definition chr (z : Z) : ascii := ascii_of_N (Z.to_N z).

Definition RuneError : Z := 0xFFFD.
Definition RuneSelf : Z := 0x80.
Definition MaxRune : Z := 0x10FFFF.

(** The entry of the table [first] for a leading byte: plain ASCII, an
    invalid leading byte, or the length of the sequence together with
    the range accepted for the second byte. *)
Inductive first_info :=
| fi_ascii
| fi_invalid
| fi_lead (size : nat) (lo hi : Z).

Definition first (b : Z) : first_info :=
  if b <? 0x80 then fi_ascii
  else if b <? 0xC2 then fi_invalid
  else if b <? 0xE0 then fi_lead 2 0x80 0xBF
  else if b =? 0xE0 then fi_lead 3 0xA0 0xBF
  else if b <? 0xED then fi_lead 3 0x80 0xBF
  else if b =? 0xED then fi_lead 3 0x80 0x9F
  else if b <? 0xF0 then fi_lead 3 0x80 0xBF
  else if b =? 0xF0 then fi_lead 4 0x90 0xBF
  else if b <? 0xF4 then fi_lead 4 0x80 0xBF
  else if b =? 0xF4 then fi_lead 4 0x80 0x8F
  else fi_invalid.

(** A continuation byte lies in [locb, hicb] = [0x80, 0xBF]. *)
Definition is_cont (b : Z) : bool := (0x80 <=? b) && (b <=? 0xBF).

(** [utf8.DecodeRuneInString]: the first rune of [s] and its width in
    bytes; [(RuneError, 0)] on the empty string and [(RuneError, 1)] on
    an invalid or truncated encoding. *)
Definition DecodeRuneInString (s : string) : Z * nat :=
  match s with
  | EmptyString => (RuneError, 0%nat)
  | String a0 r0 =>
      let s0 := byte a0 in
      match first s0 with
      | fi_ascii => (s0, 1%nat)
      | fi_invalid => (RuneError, 1%nat)
      | fi_lead sz lo hi =>
          match r0 with
          | EmptyString => (RuneError, 1%nat)
          | String a1 r1 =>
              let s1 := byte a1 in
              if (s1 <? lo) || (hi <? s1) then (RuneError, 1%nat)
              else if (sz <=? 2)%nat then
                ((s0 mod 32) * 64 + s1 mod 64, 2%nat)
              else
                match r1 with
                | EmptyString => (RuneError, 1%nat)
                | String a2 r2 =>
                    let s2 := byte a2 in
                    if negb (is_cont s2) then (RuneError, 1%nat)
                    else if (sz <=? 3)%nat then
                      ((s0 mod 16) * 4096 + (s1 mod 64) * 64 + s2 mod 64,
                       3%nat)
                    else
                      match r2 with
                      | EmptyString => (RuneError, 1%nat)
                      | String a3 _ =>
                          let s3 := byte a3 in
                          if negb (is_cont s3) then (RuneError, 1%nat)
                          else
                            ((s0 mod 8) * 262144 + (s1 mod 64) * 4096
                             + (s2 mod 64) * 64 + s3 mod 64, 4%nat)
                      end
                end
          end
      end
  end.

(** [utf8.AppendRune] on an empty buffer: the UTF-8 encoding of [r],
    with surrogates and out-of-range values encoded as [RuneError]. *)
Definition EncodeRune (r : Z) : string :=
  let three (r : Z) :=
    String (chr (0xE0 + r / 4096))
      (String (chr (0x80 + (r / 64) mod 64))
         (String (chr (0x80 + r mod 64)) EmptyString)) in
  if (0 <=? r) && (r <=? 0x7F) then String (chr r) EmptyString
  else if (0 <=? r) && (r <=? 0x7FF) then
    String (chr (0xC0 + r / 64)) (String (chr (0x80 + r mod 64)) EmptyString)
  else if (r <? 0) || (MaxRune <? r) || ((0xD800 <=? r) && (r <=? 0xDFFF))
  then three RuneError
  else if r <=? 0xFFFF then three r
  else
    String (chr (0xF0 + r / 262144))
      (String (chr (0x80 + (r / 4096) mod 64))
         (String (chr (0x80 + (r / 64) mod 64))
            (String (chr (0x80 + r mod 64)) EmptyString))).

Fixpoint drop (n : nat) (s : string) : string :=
  match n, s with
  | O, _ => s
  | S n', String _ s' => drop n' s'
  | S _, EmptyString => EmptyString
  end.

Fixpoint take (n : nat) (s : string) : string :=
  match n, s with
  | O, _ => EmptyString
  | S n', String a s' => String a (take n' s')
  | S _, EmptyString => EmptyString
  end.

(** [utf8.ValidString]; the fuel is the length of the string. *)
Fixpoint valid_go (fuel : nat) (s : string) : bool :=
  match s with
  | EmptyString => true
  | String a s1 =>
      match fuel with
      | O => false
      | S fuel' =>
          if byte a <? RuneSelf then valid_go fuel' s1
          else
            let '(_, size) := DecodeRuneInString s in
            if (size =? 1)%nat then false
            else valid_go fuel' (drop size s)
      end
  end.

Definition ValidString (s : string) : bool := valid_go (String.length s) s.

End utf8.

(** ** Model of Go's [encoding/json] package

    Three parts: the string encoder [appendString] used by [json.Marshal],
    a reader for the next JSON value of an input (what a [json.Decoder]
    scans), and the assignment of a JSON value to a Go value of a given
    type (what [Decode] does with the scanned value).  The text of the
    library's error messages is abbreviated. *)

Module json.

Import utf8.

Definition dquote : ascii := "034"%char.
Definition backslash : ascii := "092"%char.

(** ["0123456789abcdef"] indexed by [d]. *)
Definition hex (d : Z) : ascii :=
  if d <? 10 then chr (48 + d) else chr (87 + d).

(** [htmlSafeSet]: the ASCII bytes [json.Marshal] copies unescaped. *)
Definition htmlSafe (b : Z) : bool :=
  (0x20 <=? b) && (b <? 0x80) &&
  negb ((b =? 0x22) || (b =? 0x26) || (b =? 0x3C) || (b =? 0x3E)
        || (b =? 0x5C)).

Definition escape_ascii (a : ascii) : string :=
  let b := byte a in
  if htmlSafe b then String a EmptyString
  else if (b =? 0x5C) || (b =? 0x22) then String backslash (String a EmptyString)
  else if b =? 8 then String backslash "b"
  else if b =? 12 then String backslash "f"
  else if b =? 10 then String backslash "n"
  else if b =? 13 then String backslash "r"
  else if b =? 9 then String backslash "t"
  else
    String backslash
      (String "u" (String "0" (String "0"
         (String (hex (b / 16)) (String (hex (b mod 16)) EmptyString))))).

(** The loop of [appendString] (with [escapeHTML] set), between the two
    quotes.  The fuel is the length of the source. *)
Fixpoint quote_go (fuel : nat) (s : string) : string :=
  match s with
  | EmptyString => EmptyString
  | String a s1 =>
      match fuel with
      | O => EmptyString
      | S fuel' =>
          if byte a <? RuneSelf then escape_ascii a +:+ quote_go fuel' s1
          else
            let '(c, size) := DecodeRuneInString s in
            if (c =? RuneError) && (size =? 1)%nat then
              String backslash "ufffd" +:+ quote_go fuel' s1
            else if (c =? 0x2028) || (c =? 0x2029) then
              String backslash "u202" +:+
              String (hex (c mod 16)) (quote_go fuel' (drop size s))
            else take size s +:+ quote_go fuel' (drop size s)
      end
  end.

Definition quote_body (s : string) : string := quote_go (String.length s) s.

(** [appendString]: a Go string as a JSON string literal. *)
Definition appendString (s : string) : string :=
  String dquote (quote_body s +:+ String dquote EmptyString).

(** *** JSON values and the reader *)

Inductive value :=
| Null
| Bool (b : bool)
| Number (literal : string)
| Str (s : string)
| Array (elems : list value)
| Object (members : list (string * value)).

Definition isSpace (a : ascii) : bool :=
  let b := byte a in (b =? 32) || (b =? 9) || (b =? 13) || (b =? 10).

Fixpoint skip_space (s : string) : string :=
  match s with
  | String a s' => if isSpace a then skip_space s' else s
  | EmptyString => s
  end.

Definition hexval (a : ascii) : option Z :=
  let b := byte a in
  if (48 <=? b) && (b <=? 57) then Some (b - 48)
  else if (97 <=? b) && (b <=? 102) then Some (b - 87)
  else if (65 <=? b) && (b <=? 70) then Some (b - 55)
  else None.

(** Four hexadecimal digits ([getu4] after the [\u]). *)
Definition hex4 (s : string) : option (Z * string) :=
  match s with
  | String a (String b (String c (String d rest))) =>
      match hexval a, hexval b, hexval c, hexval d with
      | Some x, Some y, Some z, Some w =>
          Some (x * 4096 + y * 256 + z * 16 + w, rest)
      | _, _, _, _ => None
      end
  | _ => None
  end.

Definition isSurrogate (r : Z) : bool := (0xD800 <=? r) && (r <? 0xE000).

(** [utf16.DecodeRune]. *)
Definition utf16_DecodeRune (r1 r2 : Z) : Z :=
  if (0xD800 <=? r1) && (r1 <? 0xDC00) && (0xDC00 <=? r2) && (r2 <? 0xE000)
  then (r1 - 0xD800) * 1024 + (r2 - 0xDC00) + 0x10000
  else RuneError.

Definition simple_escape (a : ascii) : option ascii :=
  let b := byte a in
  if (b =? 0x22) || (b =? 0x5C) || (b =? 0x2F) then Some a
  else if b =? 98 then Some (chr 8)
  else if b =? 102 then Some (chr 12)
  else if b =? 110 then Some (chr 10)
  else if b =? 114 then Some (chr 13)
  else if b =? 116 then Some (chr 9)
  else None.

(** The contents of a string literal, read from just after its opening
    quote up to and including the closing quote ([unquote] on what the
    scanner accepts); returns the decoded string and the rest of the
    input. *)
Fixpoint unquote_go (fuel : nat) (s : string) : option (string * string) :=
  match fuel with
  | O => None
  | S fuel' =>
      match s with
      | EmptyString => None
      | String c s1 =>
          let b := byte c in
          if b =? 0x22 then Some (EmptyString, s1)
          else if b =? 0x5C then
            match s1 with
            | EmptyString => None
            | String e s2 =>
                if byte e =? 117 then
                  match hex4 s2 with
                  | None => None
                  | Some (rr, s3) =>
                      let plain (r : Z) (rest : string) :=
                        match unquote_go fuel' rest with
                        | Some (t, rest') => Some (EncodeRune r +:+ t, rest')
                        | None => None
                        end in
                      if isSurrogate rr then
                        match s3 with
                        | String e1 (String e2 s4) =>
                            if (byte e1 =? 0x5C) && (byte e2 =? 117) then
                              match hex4 s4 with
                              | Some (rr1, s5) =>
                                  let dec := utf16_DecodeRune rr rr1 in
                                  if dec =? RuneError
                                  then plain RuneError s3
                                  else plain dec s5
                              | None => plain RuneError s3
                              end
                            else plain RuneError s3
                        | _ => plain RuneError s3
                        end
                      else plain rr s3
                  end
                else
                  match simple_escape e with
                  | None => None
                  | Some a =>
                      match unquote_go fuel' s2 with
                      | Some (t, rest') => Some (String a t, rest')
                      | None => None
                      end
                  end
            end
          else if b <? 0x20 then None
          else if b <? RuneSelf then
            match unquote_go fuel' s1 with
            | Some (t, rest') => Some (String c t, rest')
            | None => None
            end
          else
            let '(rr, size) := DecodeRuneInString s in
            match unquote_go fuel' (drop size s) with
            | Some (t, rest') => Some (EncodeRune rr +:+ t, rest')
            | None => None
            end
      end
  end.

Definition unquote (s : string) : option (string * string) :=
  unquote_go (String.length s) s.

Definition isDigit (a : ascii) : bool :=
  let b := byte a in (48 <=? b) && (b <=? 57).

Fixpoint span_digits (s : string) : string * string :=
  match s with
  | String a s' =>
      if isDigit a then
        let '(d, rest) := span_digits s' in (String a d, rest)
      else (EmptyString, s)
  | EmptyString => (EmptyString, s)
  end.

(** A number literal: an optional minus sign, an integer part without
    leading zeros, an optional fraction and an optional exponent. *)
Definition scan_number (s : string) : option (string * string) :=
  let '(sign, s1) :=
    match s with
    | String "-" s' => ("-", s')
    | _ => (EmptyString, s)
    end in
  let int_part :=
    match s1 with
    | String "0" s' => Some ("0", s')
    | String a _ =>
        if isDigit a then Some (span_digits s1) else None
    | EmptyString => None
    end in
  match int_part with
  | None => None
  | Some (ip, s2) =>
      let frac :=
        match s2 with
        | String "." s' =>
            match span_digits s' with
            | (EmptyString, _) => None
            | (d, rest) => Some (String "." d, rest)
            end
        | _ => Some (EmptyString, s2)
        end in
      match frac with
      | None => None
      | Some (fp, s3) =>
          let digits_after (mark : string) (s' : string) :=
            match span_digits s' with
            | (EmptyString, _) => None
            | (d, rest) => Some (mark +:+ d, rest)
            end in
          let exp :=
            match s3 with
            | String e s' =>
                if (byte e =? 101) || (byte e =? 69) then
                  match s' with
                  | String "+" s'' =>
                      digits_after (String e "+") s''
                  | String "-" s'' =>
                      digits_after (String e "-") s''
                  | _ => digits_after (String e EmptyString) s'
                  end
                else Some (EmptyString, s3)
            | EmptyString => Some (EmptyString, s3)
            end in
          match exp with
          | None => None
          | Some (ep, s4) => Some (sign +:+ ip +:+ fp +:+ ep, s4)
          end
      end
  end.

(** [s] starts with [p]; the rest after it. *)
Fixpoint strip_prefix (p s : string) : option string :=
  match p, s with
  | EmptyString, _ => Some s
  | String a p', String b s' =>
      if ascii_dec a b then strip_prefix p' s' else None
  | String _ _, EmptyString => None
  end.

Definition maxNestingDepth : Z := 10000.

(** The next JSON value of the input and what follows it.  Every call
    consumes at least one byte, so the length of the input bounds the
    fuel needed. *)
Fixpoint read_value (fuel : nat) (depth : Z) (s : string)
    : option (value * string) :=
  match fuel with
  | O => None
  | S fuel' =>
      match skip_space s with
      | EmptyString => None
      | String c s1 =>
          let b := byte c in
          if b =? 123 then                     (* '{' *)
            if maxNestingDepth <? depth + 1 then None
            else
              match skip_space s1 with
              | String "}" s2 => Some (Object [], s2)
              | s2 =>
                  match read_members fuel' (depth + 1) s2 with
                  | Some (ms, rest) => Some (Object ms, rest)
                  | None => None
                  end
              end
          else if b =? 91 then                 (* '[' *)
            if maxNestingDepth <? depth + 1 then None
            else
              match skip_space s1 with
              | String "]" s2 => Some (Array [], s2)
              | s2 =>
                  match read_elements fuel' (depth + 1) s2 with
                  | Some (es, rest) => Some (Array es, rest)
                  | None => None
                  end
              end
          else if b =? 0x22 then
            match unquote s1 with
            | Some (t, rest) => Some (Str t, rest)
            | None => None
            end
          else if b =? 116 then
            match strip_prefix "rue" s1 with
            | Some rest => Some (Bool true, rest)
            | None => None
            end
          else if b =? 102 then
            match strip_prefix "alse" s1 with
            | Some rest => Some (Bool false, rest)
            | None => None
            end
          else if b =? 110 then
            match strip_prefix "ull" s1 with
            | Some rest => Some (Null, rest)
            | None => None
            end
          else
            match scan_number (String c s1) with
            | Some (n, rest) => Some (Number n, rest)
            | None => None
            end
      end
  end

(** The members of an object, from its first key to the closing brace. *)
with read_members (fuel : nat) (depth : Z) (s : string)
    : option (list (string * value) * string) :=
  match fuel with
  | O => None
  | S fuel' =>
      match skip_space s with
      | String c s1 =>
          if byte c =? 0x22 then
            match unquote s1 with
            | None => None
            | Some (k, s2) =>
                match skip_space s2 with
                | String ":" s3 =>
                    match read_value fuel' depth s3 with
                    | None => None
                    | Some (v, s4) =>
                        match skip_space s4 with
                        | String "," s5 =>
                            match read_members fuel' depth s5 with
                            | Some (ms, rest) => Some ((k, v) :: ms, rest)
                            | None => None
                            end
                        | String "}" s5 => Some ([(k, v)], s5)
                        | _ => None
                        end
                    end
                | _ => None
                end
            end
          else None
      | EmptyString => None
      end
  end

(** The elements of an array, from its first value to the closing
    bracket. *)
with read_elements (fuel : nat) (depth : Z) (s : string)
    : option (list value * string) :=
  match fuel with
  | O => None
  | S fuel' =>
      match read_value fuel' depth s with
      | None => None
      | Some (v, s1) =>
          match skip_space s1 with
          | String "," s2 =>
              match read_elements fuel' depth s2 with
              | Some (es, rest) => Some (v :: es, rest)
              | None => None
              end
          | String "]" s2 => Some ([v], s2)
          | _ => None
          end
      end
  end.

(** The first JSON value of [s]; what follows it is left unread. *)
Definition read (s : string) : option (value * string) :=
  read_value (S (String.length s)) 0 s.

(** *** [json.Marshal] on the Go values the program builds

    [GoString] is a [string], [GoMap] a [map[string]T] literal (its
    keys are distinct) and [GoSlice] a slice. *)

Inductive gov :=
| GoString (s : string)
| GoMap (m : list (string * gov))
| GoSlice (l : list gov).

Fixpoint insert_by_key (kv : string * string) (l : list (string * string))
    : list (string * string) :=
  match l with
  | [] => [kv]
  | kv' :: l' =>
      if String.leb (fst kv) (fst kv') then kv :: l
      else kv' :: insert_by_key kv l'
  end.

(** Map keys are sorted as byte strings before they are written. *)
Fixpoint sort_by_key (l : list (string * string)) : list (string * string) :=
  match l with
  | [] => []
  | kv :: l' => insert_by_key kv (sort_by_key l')
  end.

Fixpoint join (sep : string) (l : list string) : string :=
  match l with
  | [] => EmptyString
  | [x] => x
  | x :: l' => x +:+ sep +:+ join sep l'
  end.

Fixpoint encode (v : gov) : string :=
  match v with
  | GoString s => appendString s
  | GoMap m =>
      let encoded := map (fun kv => (fst kv, encode (snd kv))) m in
      "{" +:+
      join "," (map (fun kv => appendString (fst kv) +:+ ":" +:+ snd kv)
                    (sort_by_key encoded))
      +:+ "}"
  | GoSlice l => "[" +:+ join "," (map encode l) +:+ "]"
  end.

(** [json.Marshal]: the encoding and an error; values made of strings,
    maps and slices never fail to encode. *)
Definition Marshal (v : gov) : string * option string := (encode v, None).

(** *** Assigning a JSON value to a Go value ([Decoder.Decode])

    Types and values of the targets the program decodes into: strings,
    structs (fields listed under their JSON names) and slices. *)

Inductive gotype :=
| TString
| TStruct (fields : list (string * gotype))
| TSlice (elem : gotype).

Inductive goval :=
| VString (s : string)
| VStruct (fields : list (string * goval))
| VSlice (l : list goval).

Fixpoint zero (t : gotype) : goval :=
  match t with
  | TString => VString EmptyString
  | TStruct fields => VStruct (map (fun ft => (fst ft, zero (snd ft))) fields)
  | TSlice _ => VSlice []
  end.

Definition lower (a : ascii) : ascii :=
  let b := byte a in
  if (65 <=? b) && (b <=? 90) then chr (b + 32) else a.

Fixpoint fold_case (s : string) : string :=
  match s with
  | EmptyString => EmptyString
  | String a s' => String (lower a) (fold_case s')
  end.

(** The struct field a key is assigned to: the field of that exact name,
    or else the first one that matches ignoring ASCII case. *)
Definition find_field {A} (key : string) (fields : list (string * A))
    : option (string * A) :=
  match List.find (fun f => String.eqb (fst f) key) fields with
  | Some f => Some f
  | None =>
      List.find (fun f => String.eqb (fold_case (fst f)) (fold_case key))
                fields
  end.

Fixpoint set_field (name : string) (v : goval)
    (fields : list (string * goval)) : list (string * goval) :=
  match fields with
  | [] => []
  | (n, w) :: fs =>
      if String.eqb n name then (n, v) :: fs
      else (n, w) :: set_field name v fs
  end.

Definition type_name (t : gotype) : string :=
  match t with
  | TString => "string"
  | TStruct _ => "struct"
  | TSlice _ => "slice"
  end.

Definition kind_name (j : value) : string :=
  match j with
  | Null => "null"
  | Bool _ => "bool"
  | Number _ => "number"
  | Str _ => "string"
  | Array _ => "array"
  | Object _ => "object"
  end.

(** [UnmarshalTypeError.Error]. *)
Definition type_error (j : value) (t : gotype) : string :=
  "json: cannot unmarshal " +:+ kind_name j +:+ " into Go value of type "
  +:+ type_name t.

(** The first error met is the one reported ([saveError]). *)
Definition save_error (e e' : option string) : option string :=
  match e with Some _ => e | None => e' end.

(** Assign [j] to a Go value of type [t] that currently holds [cur].
    [null] leaves the target as it is (a slice becomes nil); a JSON
    value of the wrong kind is skipped and reported. *)
Fixpoint assign (j : value) (t : gotype) (cur : goval)
    : goval * option string :=
  match j with
  | Null =>
      match t with
      | TSlice _ => (VSlice [], None)
      | _ => (cur, None)
      end
  | Str s =>
      match t with
      | TString => (VString s, None)
      | _ => (cur, Some (type_error j t))
      end
  | Bool _ | Number _ => (cur, Some (type_error j t))
  | Array elems =>
      match t with
      | TSlice et =>
          let fix go (l : list value) : list goval * option string :=
            match l with
            | [] => ([], None)
            | e :: l' =>
                let '(v, err) := assign e et (zero et) in
                let '(vs, err') := go l' in
                (v :: vs, save_error err err')
            end in
          let '(vs, err) := go elems in (VSlice vs, err)
      | _ => (cur, Some (type_error j t))
      end
  | Object members =>
      match t with
      | TStruct ftypes =>
          let fix go (ms : list (string * value))
              (fields : list (string * goval))
              : list (string * goval) * option string :=
            match ms with
            | [] => (fields, None)
            | (k, jv) :: ms' =>
                match find_field k ftypes with
                | None => go ms' fields
                | Some (name, ft) =>
                    let curf :=
                      match find_field name fields with
                      | Some (_, w) => w
                      | None => zero ft
                      end in
                    let '(v, err) := assign jv ft curf in
                    let '(fields', err') :=
                      go ms' (set_field name v fields) in
                    (fields', save_error err err')
                end
            end in
          let fields :=
            match cur with
            | VStruct fs => fs
            | _ => []
            end in
          let '(fields', err) := go members fields in
          (VStruct fields', err)
      | _ => (cur, Some (type_error j t))
      end
  end.

(** [json.NewDecoder(body).Decode(&target)] on a target of type [t]
    holding [cur]: scan the next value, then assign it.  An input
    without a value gives [io.EOF], an ill-formed one a syntax error,
    and in both cases the target is left untouched. *)
Definition Decode (body : string) (t : gotype) (cur : goval)
    : goval * option string :=
  match skip_space body with
  | EmptyString => (cur, Some "EOF")
  | _ =>
      match read body with
      | None => (cur, Some "json: syntax error")
      | Some (j, _) => assign j t cur
      end
  end.

End json.

(** ** The process and its surroundings

    What a run can observe of the outside is fixed by a [World]: the
    environment variables the process starts with, the [.env] file that
    [godotenv.Load] would read, the successive readings of the clock and
    the answer of the network to each request.  What the outside can
    observe of a run is its [trace] and its exit code. *)

Module http.

Record Request := mkRequest {
  Method : string;
  URL : string;
  Header : gmap string string;
  Body : string
}.

Record Response := mkResponse {
  StatusCode : Z;
  RespBody : string
}.

Definition StatusOK : Z := 200.

(** [http.NewRequest(method, url, body)]; it fails only on a malformed
    method or URL, which the constant arguments of the program are not. *)
Definition NewRequest (method url body : string) : Request * option string :=
  ({| Method := method; URL := url; Header := ∅; Body := body |}, None).

(** [req.Header.Set(key, value)]. *)
Definition Header_Set (req : Request) (key val : string) : Request :=
  {| Method := Method req; URL := URL req;
     Header := <[key := val]> (Header req); Body := Body req |}.

End http.

Inductive event :=
| Sent (req : http.Request)   (* a request handed to [client.Do] *)
| Stdout (s : string)         (* text written by [fmt.Printf], [fmt.Println] *)
| Logged (s : string).        (* a [log] message, without the logger's prefix *)

Record World := mkWorld {
  environ : gmap string string;
  dotenv : option (gmap string string);  (* [None]: [godotenv.Load] fails *)
  clock : nat -> time.Time;              (* the n-th reading of [time.Now()] *)
  network : http.Request -> string + http.Response
                                         (* [client.Do]: error or response *)
}.

Record State := mkState {
  env : gmap string string;   (* the environment, which [godotenv] extends *)
  ticks : nat;                (* how many times the clock has been read *)
  trace : list event          (* what has been observed so far, newest first *)
}.

Inductive result (A : Type) :=
| Return (a : A)
| Exit (code : Z).
Arguments Return {A} a.
Arguments Exit {A} code.

Definition M (A : Type) : Type := World -> State -> result A * State.

Definition ret {A} (a : A) : M A := fun _ st => (Return a, st).

Definition bind {A B} (c : M A) (k : A -> M B) : M B :=
  fun w st =>
    match c w st with
    | (Return a, st') => k a w st'
    | (Exit code, st') => (Exit code, st')
    end.

Notation "x <- c ;; k" := (bind c (fun x => k))
  (at level 100, c at next level, right associativity).
Notation "c ;;; k" := (bind c (fun _ => k))
  (at level 100, right associativity).

Definition emit (e : event) : M unit :=
  fun _ st =>
    (Return tt, {| env := env st; ticks := ticks st; trace := e :: trace st |}).

Definition newline : string := String "010"%char EmptyString.

Module os.
(** [os.Getenv]: the value of the variable, empty when it is unset. *)
Definition Getenv (key : string) : M string :=
  fun _ st => (Return (default EmptyString (env st !! key)), st).

(** [os.Exit(code)]. *)
Definition Exit_ {A} (code : Z) : M A := fun _ st => (Exit code, st).
End os.

Module godotenv.
(** [godotenv.Load()]: read [.env] and set the variables it defines that
    the environment does not have yet; an error when the file cannot be
    read or parsed. *)
Definition Load : M (option string) :=
  fun w st =>
    match dotenv w with
    | None => (Return (Some "open .env: no such file or directory"), st)
    | Some vars =>
        (Return None,
         {| env := env st ∪ vars; ticks := ticks st; trace := trace st |})
    end.
End godotenv.

Module fmt.

(** An operand of a formatting call: an integer or a string (an [error]
    is passed as its message). *)
Inductive operand :=
| Int (z : Z)
| Text (s : string).

Definition show (a : operand) : string :=
  match a with
  | Int z => Str.itoa z
  | Text s => s
  end.

(** [fmt.Sprintf(format, args...)] for the verbs the program uses: [%s],
    [%d], [%v] and [%w] print the next operand, [%%] a percent sign.  Each
    call of the program passes exactly the operands its format names, with
    [%d] on integers and [%s] on strings. *)
Fixpoint Sprintf (format : string) (args : list operand) : string :=
  match format with
  | EmptyString => EmptyString
  | String "%" (String v rest) =>
      if ascii_dec v "%" then String "%" (Sprintf rest args)
      else
        match args with
        | a :: args' => show a +:+ Sprintf rest args'
        | [] => "%!" +:+ String v "(MISSING)" +:+ Sprintf rest []
        end
  | String c rest => String c (Sprintf rest args)
  end.

(** [fmt.Errorf]: the error whose message is the formatted text. *)
Definition Errorf (format : string) (args : list operand) : string :=
  Sprintf format args.

Definition Printf (format : string) (args : list operand) : M unit :=
  emit (Stdout (Sprintf format args)).

Definition Println (s : string) : M unit := emit (Stdout (s +:+ newline)).

End fmt.

Module log.

Definition Printf (format : string) (args : list fmt.operand) : M unit :=
  emit (Logged (fmt.Sprintf format args)).

(** [log.Fatal]: log, then [os.Exit(1)]. *)
Definition Fatal {A} (s : string) : M A := emit (Logged s) ;;; os.Exit_ 1.

(** [log.Fatalf]: format, log, then [os.Exit(1)]. *)
Definition Fatalf {A} (format : string) (args : list fmt.operand) : M A :=
  emit (Logged (fmt.Sprintf format args)) ;;; os.Exit_ 1.

End log.

(** [time.Now()]: the next reading of the clock. *)
Definition time_Now : M time.Time :=
  fun w st =>
    (Return (clock w (ticks st)),
     {| env := env st; ticks := S (ticks st); trace := trace st |}).

(** [client.Do(req)]: the request goes out and the network answers. *)
Definition client_Do (req : http.Request) : M (http.Response * option string) :=
  emit (Sent req) ;;;
  fun w st =>
    match network w req with
    | inl err => (Return ({| http.StatusCode := 0; http.RespBody := EmptyString |},
                         Some err), st)
    | inr resp => (Return (resp, None), st)
    end.

(** [io.ReadAll(resp.Body)]; the body of a response that arrived is read
    in full. *)
Definition io_ReadAll (resp : http.Response) : string * option string :=
  (http.RespBody resp, None).

(** ** [main.go] *)

Record AuthResponse := mkAuthResponse {
  AccessJwt : string;    (* json:"accessJwt" *)
  Did : string           (* json:"did" *)
}.

Record ErrorResponse := mkErrorResponse {
  Error : string;        (* json:"error" *)
  Message : string       (* json:"message" *)
}.

Definition authURL : string :=
  "https://bsky.social/xrpc/com.atproto.server.createSession".
Definition postURL : string :=
  "https://bsky.social/xrpc/com.atproto.repo.createRecord".

(** The struct types as the decoder sees them, and the way back from a
    decoded value to the record. *)
Definition AuthResponse_type : json.gotype :=
  json.TStruct [("accessJwt", json.TString); ("did", json.TString)].

Definition ErrorResponse_type : json.gotype :=
  json.TStruct [("error", json.TString); ("message", json.TString)].

Definition field_string (name : string) (v : json.goval) : string :=
  match v with
  | json.VStruct fs =>
      match json.find_field name fs with
      | Some (_, json.VString s) => s
      | _ => EmptyString
      end
  | _ => EmptyString
  end.

(** [var authResponse AuthResponse; json.NewDecoder(body).Decode(&authResponse)]. *)
Definition decode_AuthResponse (body : string) : AuthResponse * option string :=
  let '(v, err) := json.Decode body AuthResponse_type (json.zero AuthResponse_type) in
  ({| AccessJwt := field_string "accessJwt" v; Did := field_string "did" v |}, err).

(** [var errResponse ErrorResponse; json.NewDecoder(body).Decode(&errResponse)]. *)
Definition decode_ErrorResponse (body : string) : ErrorResponse * option string :=
  let '(v, err) := json.Decode body ErrorResponse_type (json.zero ErrorResponse_type) in
  ({| Error := field_string "error" v; Message := field_string "message" v |}, err).

(** [authenticate]; the result pairs the [*AuthResponse] ([None] for
    [nil]) with the [error] ([None] for [nil]). *)
Definition authenticate (identifier password : string)
    : M (option AuthResponse * option string) :=
  let authBody :=
    json.GoMap [("identifier", json.GoString identifier);
                ("password", json.GoString password)] in
  let '(bodyBytes, err) := json.Marshal authBody in
  match err with
  | Some e => ret (None, Some (fmt.Errorf "failed to marshal auth request body: %w" [fmt.Text e]))
  | None =>
      let '(req, err) := http.NewRequest "POST" authURL bodyBytes in
      match err with
      | Some e => ret (None, Some (fmt.Errorf "failed to create auth request: %w" [fmt.Text e]))
      | None =>
          let req := http.Header_Set req "Content-Type" "application/json" in
          r <- client_Do req ;;
          let '(resp, err) := r in
          match err with
          | Some e => ret (None, Some (fmt.Errorf "auth request failed: %w" [fmt.Text e]))
          | None =>
              if http.StatusCode resp =? http.StatusOK then
                let '(authResponse, err) := decode_AuthResponse (http.RespBody resp) in
                match err with
                | Some e =>
                    ret (None, Some (fmt.Errorf "failed to decode auth response: %w" [fmt.Text e]))
                | None =>
                    fmt.Println "Authentication successful!" ;;;
                    ret (Some authResponse, None)
                end
              else
                let '(errResponse, err) := decode_ErrorResponse (http.RespBody resp) in
                match err with
                | Some e =>
                    ret (None,
                         Some (fmt.Errorf "failed to decode error response: %w"
                                 [fmt.Text e]))
                | None =>
                    ret (None,
                         Some (fmt.Errorf "auth error (%d): %s - %s"
                                 [fmt.Int (http.StatusCode resp);
                                  fmt.Text (Error errResponse);
                                  fmt.Text (Message errResponse)]))
                end
          end
      end
  end.

(** The [postBody] literal of [postMessage]. *)
Definition postBody (did message createdAt : string) : json.gov :=
  json.GoMap
    [("repo", json.GoString did);
     ("collection", json.GoString "app.bsky.feed.post");
     ("record",
      json.GoMap [("$type", json.GoString "app.bsky.feed.post");
                  ("text", json.GoString message);
                  ("createdAt", json.GoString createdAt)])].

(** [postMessage]; the result is the [error] ([None] for [nil]). *)
Definition postMessage (accessToken did message : string) : M (option string) :=
  t <- time_Now ;;
  let postBody := postBody did message (time.Format (time.UTC t) time.RFC3339) in
  let '(bodyBytes, err) := json.Marshal postBody in
  match err with
  | Some e => ret (Some (fmt.Errorf "failed to marshal post request body: %w" [fmt.Text e]))
  | None =>
      let '(req, err) := http.NewRequest "POST" postURL bodyBytes in
      match err with
      | Some e => ret (Some (fmt.Errorf "failed to create post request: %w" [fmt.Text e]))
      | None =>
          let req := http.Header_Set req "Authorization" ("Bearer " +:+ accessToken) in
          let req := http.Header_Set req "Content-Type" "application/json" in
          r <- client_Do req ;;
          let '(resp, err) := r in
          match err with
          | Some e => ret (Some (fmt.Errorf "post request failed: %w" [fmt.Text e]))
          | None =>
              if http.StatusCode resp =? http.StatusOK then
                fmt.Println "Post successful!" ;;;
                ret None
              else
                let '(errResponse, err) := decode_ErrorResponse (http.RespBody resp) in
                match err with
                | Some e =>
                    ret (Some (fmt.Errorf "failed to decode error response: %w"
                                 [fmt.Text e]))
                | None =>
                    ret (Some (fmt.Errorf "post error (%d): %s - %s"
                                 [fmt.Int (http.StatusCode resp);
                                  fmt.Text (Error errResponse);
                                  fmt.Text (Message errResponse)]))
                end
          end
      end
  end.

Definition openaiURL : string := "https://api.openai.com/v1/chat/completions".

Definition systemPrompt : string :=
  "You're a bot on Bluesky social (handle: daysoftrump.bsky.social). You'll post a message every day. Your messages should be no more than 300 characters. Only respond as an agent with the post to share online. The format of that post should be exactly: 'X days until Y event. Rest of the message goes here #TheFinalTrumpDown'".

(** The [requestBody] literal of [makeOpenAIRequest]. *)
Definition requestBody (prompt : string) : json.gov :=
  json.GoMap
    [("model", json.GoString "gpt-4o-mini");
     ("messages",
      json.GoSlice
        [json.GoMap [("role", json.GoString "system");
                     ("content", json.GoString systemPrompt)];
         json.GoMap [("role", json.GoString "user");
                     ("content", json.GoString prompt)]])].

(** The anonymous struct [response] of [makeOpenAIRequest]. *)
Definition response_type : json.gotype :=
  json.TStruct
    [("choices",
      json.TSlice
        (json.TStruct
           [("message", json.TStruct [("content", json.TString)])]))].

(** [response.Choices], each choice given by its [Message.Content]. *)
Definition Choices (v : json.goval) : list string :=
  match v with
  | json.VStruct fs =>
      match json.find_field "choices" fs with
      | Some (_, json.VSlice l) =>
          map (fun c =>
                 match c with
                 | json.VStruct cfs =>
                     match json.find_field "message" cfs with
                     | Some (_, m) => field_string "content" m
                     | None => EmptyString
                     end
                 | _ => EmptyString
                 end) l
      | _ => []
      end
  | _ => []
  end.

Definition decode_response (body : string) : list string * option string :=
  let '(v, err) := json.Decode body response_type (json.zero response_type) in
  (Choices v, err).

(** [makeOpenAIRequest]; the result pairs the returned string with the
    [error] ([None] for [nil]). *)
Definition makeOpenAIRequest (prompt : string) : M (string * option string) :=
  let url := openaiURL in
  apiKey <- os.Getenv "OPENAI_API_KEY" ;;
  if String.eqb apiKey EmptyString then
    ret (EmptyString,
         Some (fmt.Errorf "OPENAI_API_KEY environment variable not set" []))
  else
    let '(bodyBytes, err) := json.Marshal (requestBody prompt) in
    match err with
    | Some e =>
        ret (EmptyString,
             Some (fmt.Errorf "failed to marshal request body: %w" [fmt.Text e]))
    | None =>
        let '(req, err) := http.NewRequest "POST" url bodyBytes in
        match err with
        | Some e =>
            ret (EmptyString,
                 Some (fmt.Errorf "failed to create request: %w" [fmt.Text e]))
        | None =>
            let req := http.Header_Set req "Authorization" ("Bearer " +:+ apiKey) in
            let req := http.Header_Set req "Content-Type" "application/json" in
            r <- client_Do req ;;
            let '(resp, err) := r in
            match err with
            | Some e =>
                ret (EmptyString,
                     Some (fmt.Errorf "request failed: %w" [fmt.Text e]))
            | None =>
                if negb (http.StatusCode resp =? http.StatusOK) then
                  let '(bodyBytes, err) := io_ReadAll resp in
                  match err with
                  | Some e =>
                      ret (EmptyString,
                           Some (fmt.Errorf "failed to read error response body: %w"
                                   [fmt.Text e]))
                  | None =>
                      ret (EmptyString,
                           Some (fmt.Errorf "received non-200 response status: %d - %s"
                                   [fmt.Int (http.StatusCode resp);
                                    fmt.Text bodyBytes]))
                  end
                else
                  let '(choices, err) := decode_response (http.RespBody resp) in
                  match err with
                  | Some e =>
                      ret (EmptyString,
                           Some (fmt.Errorf "failed to decode response: %w"
                                   [fmt.Text e]))
                  | None =>
                      match choices with
                      | [] =>
                          ret (EmptyString,
                               Some (fmt.Errorf "no response choices returned" []))
                      | content :: _ => ret (content, None)
                      end
                  end
            end
        end
    end.

Definition inaugurationDate : time.Time :=
  time.Date 2025 time.January 20 0 0 0 0 time.UTC_loc.

(** The prompt [getPost] builds from the start-up time [now]. *)
Definition getPost_prompt (now : time.Time) : string :=
  let dateStr := time.Format now time.layout_January_2_2006 in
  if time.Before now inaugurationDate then
    fmt.Sprintf "Today is %s. Write a short, encouraging post about how many days are left until Trump's inauguration. Include the exact number of days until January 20th, 2025. Trump is not a good guy. Say something randomly positive to get people through this." [fmt.Text dateStr]
  else
    fmt.Sprintf "Today is %s. Write a short, encouraging post about how many days are left of Trump's 2nd term in office. Include the exact number of days until January 20th, 2029. Trump is not a good guy. Say something randomly positive to get people through this." [fmt.Text dateStr].

(** [getPost]; [now] is the package-level variable. *)
Definition getPost (now : time.Time) : M string :=
  let prompt := getPost_prompt now in
  r <- makeOpenAIRequest prompt ;;
  let '(response, err) := r in
  match err with
  | Some e => log.Printf "Error getting AI response: %v" [fmt.Text e]
  | None => ret tt
  end ;;;
  ret response.

Definition exitDate : time.Time :=
  time.Date 2029 time.January 20 0 0 0 0 time.UTC_loc.

(** [main]; [now] is the package-level variable. *)
Definition main (now : time.Time) : M unit :=
  environment <- os.Getenv "ENVIRONMENT" ;;
  (if negb (String.eqb environment "production") then
     err <- godotenv.Load ;;
     match err with
     | Some _ => log.Fatal "Error loading .env file"
     | None => ret tt
     end
   else ret tt) ;;;
  if time.After now exitDate then ret tt
  else
    post <- getPost now ;;
    fmt.Printf "Generated post: %s" [fmt.Text post] ;;;
    username <- os.Getenv "BLUESKY_USERNAME" ;;
    (if String.eqb username EmptyString
     then log.Fatal "BLUESKY_USERNAME environment variable not set"
     else ret tt) ;;;
    password <- os.Getenv "BLUESKY_PASSWORD" ;;
    (if String.eqb password EmptyString
     then log.Fatal "BLUESKY_PASSWORD environment variable not set"
     else ret tt) ;;;
    r <- authenticate username password ;;
    let '(authResponse, err) := r in
    match err with
    | Some e => log.Fatalf "Authentication failed: %v" [fmt.Text e]
    | None =>
        match authResponse with
        | None => os.Exit_ 2    (* nil pointer dereference *)
        | Some authResponse =>
            err <- postMessage (AccessJwt authResponse) (Did authResponse) post ;;
            match err with
            | Some e => log.Fatalf "Failed to post message: %v" [fmt.Text e]
            | None => fmt.Println "Message posted successfully!"
            end
        end
    end.

(** The process: the package variable [now] is initialised, then [main]
    runs; returning from [main] exits with status 0. *)
Definition program : M unit :=
  now <- time_Now ;;
  main now.

Definition initial (w : World) : State :=
  {| env := environ w; ticks := 0; trace := [] |}.

Definition exit_code {A} (r : result A) : Z :=
  match r with
  | Return _ => 0
  | Exit code => code
  end.

(** A run in world [w]: the exit status and everything it did, in the
    order it happened. *)
Definition run (w : World) : Z * list event :=
  let '(r, st) := program w (initial w) in (exit_code r, rev (trace st)).

(** ** Notions used in the statements

    Nothing below adds to the program: these definitions name parts of it
    (the requests it builds, the tail of [main]) and ways of looking at a
    trace. *)

(** The state after the events [es] (newest first) have been observed. *)
Definition saw (es : list event) (st : State) : State :=
  {| env := env st; ticks := ticks st; trace := es ++ trace st |}.

(** The state after one more reading of the clock. *)
Definition tick (st : State) : State :=
  {| env := env st; ticks := S (ticks st); trace := trace st |}.

(** The requests of a trace, and what it shows on standard output and in
    the log. *)
Definition requests (tr : list event) : list http.Request :=
  omap (fun e => match e with Sent r => Some r | _ => None end) tr.

Definition output (tr : list event) : list event :=
  List.filter (fun e => match e with Sent _ => false | _ => true end) tr.

(** The request [authenticate] hands to [client.Do]. *)
Definition auth_request (identifier password : string) : http.Request :=
  {| http.Method := "POST"; http.URL := authURL;
     http.Header := <["Content-Type" := "application/json"]> ∅;
     http.Body :=
       json.encode (json.GoMap [("identifier", json.GoString identifier);
                                ("password", json.GoString password)]) |}.

(** The request [postMessage] hands to [client.Do]. *)
Definition post_request (accessToken did message createdAt : string)
    : http.Request :=
  {| http.Method := "POST"; http.URL := postURL;
     http.Header :=
       <["Content-Type" := "application/json"]>
         (<["Authorization" := "Bearer " +:+ accessToken]> ∅);
     http.Body := json.encode (postBody did message createdAt) |}.

(** The request [makeOpenAIRequest] hands to [client.Do]. *)
Definition openai_request (apiKey prompt : string) : http.Request :=
  {| http.Method := "POST"; http.URL := openaiURL;
     http.Header :=
       <["Content-Type" := "application/json"]>
         (<["Authorization" := "Bearer " +:+ apiKey]> ∅);
     http.Body := json.encode (requestBody prompt) |}.

(** [os.Getenv] on a given environment. *)
Definition getenv (e : gmap string string) (key : string) : string :=
  default EmptyString (e !! key).

(** The environment [main] works with once the [.env] step is over;
    [None] when that step is fatal. *)
Definition env_at_main (w : World) : option (gmap string string) :=
  if String.eqb (getenv (environ w) "ENVIRONMENT") "production"
  then Some (environ w)
  else
    match dotenv w with
    | Some vars => Some (environ w ∪ vars)
    | None => None
    end.

(** The part of [main] after the retirement check. *)
Definition main_body (now : time.Time) : M unit :=
  post <- getPost now ;;
  fmt.Printf "Generated post: %s" [fmt.Text post] ;;;
  username <- os.Getenv "BLUESKY_USERNAME" ;;
  (if String.eqb username EmptyString
   then log.Fatal "BLUESKY_USERNAME environment variable not set"
   else ret tt) ;;;
  password <- os.Getenv "BLUESKY_PASSWORD" ;;
  (if String.eqb password EmptyString
   then log.Fatal "BLUESKY_PASSWORD environment variable not set"
   else ret tt) ;;;
  r <- authenticate username password ;;
  let '(authResponse, err) := r in
  match err with
  | Some e => log.Fatalf "Authentication failed: %v" [fmt.Text e]
  | None =>
      match authResponse with
      | None => os.Exit_ 2
      | Some authResponse =>
          err <- postMessage (AccessJwt authResponse) (Did authResponse) post ;;
          match err with
          | Some e => log.Fatalf "Failed to post message: %v" [fmt.Text e]
          | None => fmt.Println "Message posted successfully!"
          end
      end
  end.

(** The part of [main_body] after [getPost] has returned [post]. *)
Definition after_getPost (post : string) : M unit :=
  fmt.Printf "Generated post: %s" [fmt.Text post] ;;;
  username <- os.Getenv "BLUESKY_USERNAME" ;;
  (if String.eqb username EmptyString
   then log.Fatal "BLUESKY_USERNAME environment variable not set"
   else ret tt) ;;;
  password <- os.Getenv "BLUESKY_PASSWORD" ;;
  (if String.eqb password EmptyString
   then log.Fatal "BLUESKY_PASSWORD environment variable not set"
   else ret tt) ;;;
  r <- authenticate username password ;;
  let '(authResponse, err) := r in
  match err with
  | Some e => log.Fatalf "Authentication failed: %v" [fmt.Text e]
  | None =>
      match authResponse with
      | None => os.Exit_ 2
      | Some authResponse =>
          err <- postMessage (AccessJwt authResponse) (Did authResponse) post ;;
          match err with
          | Some e => log.Fatalf "Failed to post message: %v" [fmt.Text e]
          | None => fmt.Println "Message posted successfully!"
          end
      end
  end.

(** The error, if any, that [makeOpenAIRequest] returns for the prompt of
    [now] when called in state [st]. *)
Definition generation_error (w : World) (st : State) (now : time.Time)
    : option string :=
  match fst (makeOpenAIRequest (getPost_prompt now) w st) with
  | Return (_, err) => err
  | Exit _ => None
  end.

(** The state in which [main_body] starts. *)
Definition state_at_body (e : gmap string string) : State :=
  {| env := e; ticks := 1; trace := [] |}.

(** The number a string of decimal digits stands for. *)
Fixpoint decimal_value_go (acc : Z) (s : string) : Z :=
  match s with
  | EmptyString => acc
  | String a s' => decimal_value_go (acc * 10 + (utf8.byte a - 48)) s'
  end.

Definition decimal_value (s : string) : Z := decimal_value_go 0 s.

(** [s] has the form [p], where a [d] in [p] stands for any decimal digit
    and every other character for itself. *)
Fixpoint matches_pattern (p s : string) : bool :=
  match p, s with
  | EmptyString, EmptyString => true
  | String c p', String a s' =>
      (if Ascii.eqb c "d" then json.isDigit a else Ascii.eqb c a)
      && matches_pattern p' s'
  | _, _ => false
  end.

(** Every byte of [s] is an ASCII character. *)
Fixpoint all_ascii (s : string) : bool :=
  match s with
  | EmptyString => true
  | String a s' => (utf8.byte a <? 0x80) && all_ascii s'
  end.

(** Every string of a JSON value is valid UTF-8. *)
Fixpoint strings_valid (v : json.value) : bool :=
  match v with
  | json.Str s => utf8.ValidString s
  | json.Array elems => forallb strings_valid elems
  | json.Object members =>
      forallb (fun kv => strings_valid (snd kv)) members
  | _ => true
  end.

(** Every string of a Go value is valid UTF-8. *)
Fixpoint goval_valid (v : json.goval) : bool :=
  match v with
  | json.VString s => utf8.ValidString s
  | json.VStruct fields => forallb (fun f => goval_valid (snd f)) fields
  | json.VSlice l => forallb goval_valid l
  end.

(** [P] holds of the [n] integers from [start] on. *)
Fixpoint all_from (P : Z -> bool) (start : Z) (n : nat) : bool :=
  match n with
  | O => true
  | S n' => P start && all_from P (start + 1) n'
  end.

(** The day of the month of the day numbered [doe] within its 400-year
    era (the last steps of [time.civil_from_days]). *)
Definition day_in_era (doe : Z) : Z :=
  let yoe := (doe - doe / 1460 + doe / 36524 - doe / 146096) / 365 in
  let doy := doe - (365 * yoe + yoe / 4 - yoe / 100) in
  let mp := (5 * doy + 2) / 153 in
  doy - (153 * mp + 2) / 5 + 1.

(** Two environments (or [.env] files) that agree on every variable but
    the two credentials. *)
Definition same_except_credentials (m1 m2 : gmap string string) : Prop :=
  forall key,
    key <> "BLUESKY_USERNAME" -> key <> "BLUESKY_PASSWORD" ->
    m1 !! key = m2 !! key.

(** What [getPost] returns and the events it adds, oldest first, in a
    run whose environment at [main] is [e] (lemma [getPost_outcome]). *)
Definition generation_outcome (w : World) (e : gmap string string)
    : string * list event :=
  let apiKey := getenv e "OPENAI_API_KEY" in
  let greq := openai_request apiKey (getPost_prompt (clock w 0)) in
  let failed (err : string) := Logged ("Error getting AI response: " +:+ err) in
  if String.eqb apiKey EmptyString then
    (EmptyString, [failed "OPENAI_API_KEY environment variable not set"])
  else
    match network w greq with
    | inl err => (EmptyString, [Sent greq; failed ("request failed: " +:+ err)])
    | inr resp =>
        if http.StatusCode resp =? 200 then
          match decode_response (http.RespBody resp) with
          | (_, Some err) =>
              (EmptyString,
               [Sent greq; failed ("failed to decode response: " +:+ err)])
          | ([], None) =>
              (EmptyString, [Sent greq; failed "no response choices returned"])
          | (content :: _, None) => (content, [Sent greq])
          end
        else
          (EmptyString,
           [Sent greq;
            failed ("received non-200 response status: "
                    +:+ Str.itoa (http.StatusCode resp) +:+ " - "
                    +:+ http.RespBody resp)])
    end.

(** The exit status and the events, oldest first, of the part of [main]
    that follows the printing of the post (lemma
    [after_getPost_outcome]). *)
Definition publication_outcome (w : World) (e : gmap string string)
    (post : string) : Z * list event :=
  let username := getenv e "BLUESKY_USERNAME" in
  let password := getenv e "BLUESKY_PASSWORD" in
  let areq := auth_request username password in
  if String.eqb username EmptyString then
    (1, [Logged "BLUESKY_USERNAME environment variable not set"])
  else if String.eqb password EmptyString then
    (1, [Logged "BLUESKY_PASSWORD environment variable not set"])
  else
    let rejected (err : string) :=
      (1, [Sent areq; Logged ("Authentication failed: " +:+ err)]) in
    match network w areq with
    | inl err => rejected ("auth request failed: " +:+ err)
    | inr resp =>
        if http.StatusCode resp =? 200 then
          match decode_AuthResponse (http.RespBody resp) with
          | (_, Some err) =>
              rejected ("failed to decode auth response: " +:+ err)
          | (a, None) =>
              let preq :=
                post_request (AccessJwt a) (Did a) post
                  (time.Format (time.UTC (clock w 1)) time.RFC3339) in
              let sent :=
                [Sent areq; Stdout ("Authentication successful!" +:+ newline);
                 Sent preq] in
              let unpublished (err : string) :=
                (1, sent ++ [Logged ("Failed to post message: " +:+ err)]) in
              match network w preq with
              | inl err => unpublished ("post request failed: " +:+ err)
              | inr presp =>
                  if http.StatusCode presp =? 200 then
                    (0, sent ++
                        [Stdout ("Post successful!" +:+ newline);
                         Stdout ("Message posted successfully!" +:+ newline)])
                  else
                    match decode_ErrorResponse (http.RespBody presp) with
                    | (_, Some err) =>
                        unpublished ("failed to decode error response: " +:+ err)
                    | (r, None) =>
                        unpublished
                          ("post error (" +:+ Str.itoa (http.StatusCode presp)
                           +:+ "): " +:+ Error r +:+ " - " +:+ Message r)
                    end
              end
          end
        else
          match decode_ErrorResponse (http.RespBody resp) with
          | (_, Some err) =>
              rejected ("failed to decode error response: " +:+ err)
          | (r, None) =>
              rejected
                ("auth error (" +:+ Str.itoa (http.StatusCode resp)
                 +:+ "): " +:+ Error r +:+ " - " +:+ Message r)
          end
    end.

(** A trace without its authentication request. *)
Definition beside_authentication (tr : list event) : list event :=
  List.filter
    (fun ev =>
       match ev with
       | Sent req => negb (String.eqb (http.URL req) authURL)
       | _ => true
       end) tr.

(** Two environments (or [.env] files) that agree on every variable but
    the API key of the text-generation service. *)
Definition same_except_api_key (m1 m2 : gmap string string) : Prop :=
  forall key, key <> "OPENAI_API_KEY" -> m1 !! key = m2 !! key.

(** A trace without its text-generation request. *)
Definition beside_generation (tr : list event) : list event :=
  List.filter
    (fun ev =>
       match ev with
       | Sent req => negb (String.eqb (http.URL req) openaiURL)
       | _ => true
       end) tr.

(** The values of the members of a JSON object whose key is [name] up to
    the case of ASCII letters. *)
Definition members_named (name : string)
    (members : list (string * json.value)) : list json.value :=
  map snd
    (List.filter
       (fun kv => String.eqb (json.fold_case (fst kv)) (json.fold_case name))
       members).

(** The string a JSON object holds for the field [name] of a Go struct:
    that of its one member of that name, the empty string when it has
    none; [None] when it has several or the member is not a string. *)
Definition string_member (name : string)
    (members : list (string * json.value)) : option string :=
  match members_named name members with
  | [] => Some EmptyString
  | [json.Str s] => Some s
  | _ => None
  end.

(** The content of a completion choice: the string member [content] of
    its one object member [message]. *)
Definition choice_content (choice : json.value) : option string :=
  match choice with
  | json.Object cm =>
      match members_named "message" cm with
      | [json.Object mm] =>
          match members_named "content" mm with
          | [json.Str c] => Some c
          | _ => None
          end
      | _ => None
      end
  | _ => None
  end.

(** Every key of every object of a JSON value is ASCII.  (On keys outside
    ASCII the decoder's case folding goes beyond [json.fold_case].) *)
Fixpoint keys_ascii (v : json.value) : bool :=
  match v with
  | json.Array elems => forallb keys_ascii elems
  | json.Object members =>
      forallb (fun kv => all_ascii (fst kv) && keys_ascii (snd kv)) members
  | _ => true
  end.

(** Leap years of the proleptic Gregorian calendar. *)
Definition is_leap (y : Z) : bool :=
  (y mod 4 =? 0) && (negb (y mod 100 =? 0) || (y mod 400 =? 0)).

(** The number of days of month [m] of year [y]. *)
Definition days_in_month (y m : Z) : Z :=
  if m =? 2 then (if is_leap y then 29 else 28)
  else if (m =? 4) || (m =? 6) || (m =? 9) || (m =? 11) then 30
  else 31.

(** The instant, in seconds since 1970-01-01T00:00:00Z, that [s] denotes
    when [s] is an RFC 3339 [date-time] of the form
    [YYYY-MM-DDTHH:MM:SSZ]: four, two and two digits for a date of the
    calendar, two digits each for an hour up to 23, a minute and a second
    up to 59, and the offset [Z] of UTC.  [None] for any other text. *)
Definition RFC3339_UTC_instant (s : string) : option Z :=
  if matches_pattern "dddd-dd-ddTdd:dd:ddZ" s then
    let field (start len : nat) := decimal_value (String.substring start len s) in
    let year := field 0%nat 4%nat in
    let month := field 5%nat 2%nat in
    let day := field 8%nat 2%nat in
    let hour := field 11%nat 2%nat in
    let minute := field 14%nat 2%nat in
    let second := field 17%nat 2%nat in
    if (1 <=? month) && (month <=? 12) && (1 <=? day)
       && (day <=? days_in_month year month)
       && (hour <=? 23) && (minute <=? 59) && (second <=? 59)
    then
      Some (time.days_from_civil year month day * 86400
            + hour * 3600 + minute * 60 + second)
    else None
  else None.

(** What [time.civil_from_days] makes of the day numbered [doe] within
    its 400-year era is a date of the calendar, and it is the date of
    that day. *)
Definition era_day_ok (doe : Z) : bool :=
  let yoe := (doe - doe / 1460 + doe / 36524 - doe / 146096) / 365 in
  let doy := doe - (365 * yoe + yoe / 4 - yoe / 100) in
  let mp := (5 * doy + 2) / 153 in
  let d := doy - (153 * mp + 2) / 5 + 1 in
  let m := if mp <? 10 then mp + 3 else mp - 9 in
  let y := if m <=? 2 then yoe + 1 else yoe in
  let mp' := if 2 <? m then m - 3 else m + 9 in
  (0 <=? yoe) && (yoe <=? 399) && (1 <=? m) && (m <=? 12) && (1 <=? d)
  && (d <=? days_in_month y m)
  && (yoe * 365 + yoe / 4 - yoe / 100 + ((153 * mp' + 2) / 5 + d - 1) =? doe).

(** ** Some worlds

    Concrete surroundings on which the statements below are exercised. *)

Definition env_production : gmap string string :=
  <["ENVIRONMENT" := "production"]>
    (<["OPENAI_API_KEY" := "sk-test"]>
       (<["BLUESKY_USERNAME" := "bot.bsky.social"]>
          (<["BLUESKY_PASSWORD" := "app-password"]> ∅))).

(** The text-generation service answers with one completion. *)
Definition completion_body : string :=
  json.encode
    (json.GoMap
       [("choices",
         json.GoSlice
           [json.GoMap
              [("message",
                json.GoMap
                  [("role", json.GoString "assistant");
                   ("content",
                    json.GoString "1041 days until the end of the term. Hang in there! #TheFinalTrumpDown")])]])]).

Definition session_body : string :=
  json.encode (json.GoMap [("accessJwt", json.GoString "jwt-1");
                           ("did", json.GoString "did:plc:bot")]).

Definition invalid_credentials_body : string :=
  json.encode (json.GoMap [("error", json.GoString "InvalidCredentials");
                           ("message", json.GoString "bad password")]).

(** Every service answers 200. *)
Definition network_ok (req : http.Request) : string + http.Response :=
  if String.eqb (http.URL req) openaiURL then
    inr (http.mkResponse 200 completion_body)
  else if String.eqb (http.URL req) authURL then
    inr (http.mkResponse 200 session_body)
  else inr (http.mkResponse 200 "{}").

(** The session endpoint answers 401, the others 200. *)
Definition network_401 (req : http.Request) : string + http.Response :=
  if String.eqb (http.URL req) authURL then
    inr (http.mkResponse 401 invalid_credentials_body)
  else network_ok req.

(** The text-generation service cannot be reached, the others answer 200. *)
Definition network_no_openai (req : http.Request) : string + http.Response :=
  if String.eqb (http.URL req) openaiURL then
    inl "dial tcp: i/o timeout"
  else network_ok req.

(** A clock that reads [t0] at start-up and [t1] afterwards. *)
Definition clock_of (t0 t1 : time.Time) (n : nat) : time.Time :=
  match n with
  | O => t0
  | S _ => t1
  end.

Definition june_2024 : time.Time := time.Date 2024 time.June 1 0 0 0 0 time.UTC_loc.
Definition march_2026 : time.Time := time.Date 2026 time.March 15 0 0 0 0 time.UTC_loc.
(** Seven seconds later, read in a zone five hours west of UTC. *)
Definition march_2026_later : time.Time :=
  {| time.unix_sec := time.unix_sec march_2026 + 7; time.nsec := 500;
     time.zone_offset := -18000 |}.
Definition june_2030 : time.Time := time.Date 2030 time.June 1 0 0 0 0 time.UTC_loc.

Definition world_2024 : World :=
  mkWorld env_production None (clock_of june_2024 june_2024) network_ok.

Definition world_2026 : World :=
  mkWorld env_production None (clock_of march_2026 march_2026_later) network_ok.

(** Started exactly at 2029-01-20T00:00:00Z. *)
Definition world_cutoff : World :=
  mkWorld env_production None (clock_of exitDate exitDate) network_ok.

(** Started in 2030, not in production and without a [.env] file. *)
Definition world_2030_no_dotenv : World :=
  mkWorld ∅ None (clock_of june_2030 june_2030) network_ok.

(** Started in 2030 in production. *)
Definition world_2030 : World :=
  mkWorld env_production None (clock_of june_2030 june_2030) network_ok.

(** In 2024, with credentials the session endpoint rejects. *)
Definition world_401 : World :=
  mkWorld env_production None (clock_of june_2024 june_2024) network_401.

(** In 2026 in production, without a text-generation API key. *)
Definition world_no_key : World :=
  mkWorld (delete "OPENAI_API_KEY" env_production) None
    (clock_of march_2026 march_2026_later) network_ok.

(** In 2026 in production, without an account identifier. *)
Definition world_no_username : World :=
  mkWorld (delete "BLUESKY_USERNAME" env_production) None
    (clock_of march_2026 march_2026_later) network_ok.

(** In 2026, with the text-generation service out of reach. *)
Definition world_no_openai : World :=
  mkWorld env_production None (clock_of march_2026 march_2026_later)
    network_no_openai.

(** As [world_2026], with another account. *)
Definition env_other_account : gmap string string :=
  <["BLUESKY_USERNAME" := "other.bsky.social"]>
    (<["BLUESKY_PASSWORD" := "correct horse battery staple"]> env_production).

Definition world_2026_other_account : World :=
  mkWorld env_other_account None (clock_of march_2026 march_2026_later)
    network_ok.

(** The session endpoint cannot be reached, the others answer 200. *)
Definition network_no_session (req : http.Request) : string + http.Response :=
  if String.eqb (http.URL req) authURL then
    inl "dial tcp: i/o timeout"
  else network_ok req.

Definition world_no_session : World :=
  mkWorld env_production None (clock_of march_2026 march_2026_later)
    network_no_session.

(** The publication endpoint refuses the record, the others answer 200. *)
Definition network_post_rejected (req : http.Request)
    : string + http.Response :=
  if String.eqb (http.URL req) postURL then
    inr (http.mkResponse 400
           (json.encode
              (json.GoMap
                 [("error", json.GoString "InvalidRequest");
                  ("message",
                   json.GoString "Record/text must not be longer than 300 graphemes")])))
  else network_ok req.

Definition world_post_rejected : World :=
  mkWorld env_production None (clock_of march_2026 march_2026_later)
    network_post_rejected.

(** A [.env] file naming another account and another API key. *)
Definition dotenv_other_account : gmap string string :=
  <["BLUESKY_USERNAME" := "other.bsky.social"]>
    (<["OPENAI_API_KEY" := "sk-other"]> ∅).

(** As [world_2026], with another API key. *)
Definition env_other_key : gmap string string :=
  <["OPENAI_API_KEY" := "sk-other"]> env_production.

Definition world_2026_other_key : World :=
  mkWorld env_other_key None (clock_of march_2026 march_2026_later) network_ok.

(** A session with more members than the program reads. *)
Definition full_session_body : string :=
  json.encode
    (json.GoMap [("did", json.GoString "did:plc:bot");
                 ("handle", json.GoString "bot.bsky.social");
                 ("accessJwt", json.GoString "jwt-1");
                 ("refreshJwt", json.GoString "jwt-2")]).

Definition network_full_session (req : http.Request)
    : string + http.Response :=
  if String.eqb (http.URL req) authURL then
    inr (http.mkResponse 200 full_session_body)
  else network_ok req.

Definition world_full_session : World :=
  mkWorld env_production None (clock_of march_2026 march_2026_later)
    network_full_session.

(** The first instant of the year 10000. *)
Definition year_10000 : time.Time :=
  time.Date 10000 time.January 1 0 0 0 0 time.UTC_loc.

(** Started in 2026, with a clock that reads the year 10000 afterwards. *)
Definition world_year_10000 : World :=
  mkWorld env_production None (clock_of march_2026 year_10000) network_ok.

(** The session endpoint refuses the credentials and quotes the request
    it received in its error message; the others answer 200. *)
Definition network_echo (req : http.Request) : string + http.Response :=
  if String.eqb (http.URL req) authURL then
    inr (http.mkResponse 401
           (json.encode
              (json.GoMap
                 [("error", json.GoString "AuthenticationRequired");
                  ("message",
                   json.GoString ("Invalid login: " +:+ http.Body req))])))
  else network_ok req.

(** Two accounts against that endpoint. *)
Definition world_echo : World :=
  mkWorld env_production None (clock_of march_2026 march_2026_later)
    network_echo.

Definition world_echo_other_account : World :=
  mkWorld env_other_account None (clock_of march_2026 march_2026_later)
    network_echo.

(** * Properties *)

(** ** Strings *)

Lemma append_nil_r (s : string) : s +:+ EmptyString = s.
Proof.
  induction s as [|a s IH]; [reflexivity|].
  change (String a (s +:+ EmptyString) = String a s). by rewrite IH.
Qed.

Lemma append_cons (a : ascii) (s t : string) :
  String a s +:+ t = String a (s +:+ t).
Proof. reflexivity. Qed.

Lemma append_assoc (s t u : string) : (s +:+ t) +:+ u = s +:+ (t +:+ u).
Proof.
  induction s as [|a s IH]; [reflexivity|].
  rewrite !append_cons. by rewrite IH.
Qed.

Lemma length_append (s t : string) :
  String.length (s +:+ t) = (String.length s + String.length t)%nat.
Proof.
  induction s as [|a s IH]; [reflexivity|].
  rewrite append_cons. simpl. by rewrite IH.
Qed.

Ltac sprintf :=
  unfold fmt.Errorf, fmt.Printf, log.Printf, log.Fatalf;
  cbn -[Str.itoa]; rewrite ?append_nil_r.

(** ** The functions of [main.go], one equation each *)

Lemma authenticate_eq identifier password w st :
  authenticate identifier password w st =
  let req := auth_request identifier password in
  match network w req with
  | inl err =>
      (Return (None, Some ("auth request failed: " +:+ err)), saw [Sent req] st)
  | inr resp =>
      if http.StatusCode resp =? 200 then
        match decode_AuthResponse (http.RespBody resp) with
        | (_, Some e) =>
            (Return (None, Some ("failed to decode auth response: " +:+ e)),
             saw [Sent req] st)
        | (a, None) =>
            (Return (Some a, None),
             saw [Stdout ("Authentication successful!" +:+ newline); Sent req] st)
        end
      else
        match decode_ErrorResponse (http.RespBody resp) with
        | (_, Some e) =>
            (Return (None, Some ("failed to decode error response: " +:+ e)),
             saw [Sent req] st)
        | (r, None) =>
            (Return (None,
                     Some ("auth error (" +:+ Str.itoa (http.StatusCode resp)
                           +:+ "): " +:+ Error r +:+ " - " +:+ Message r)),
             saw [Sent req] st)
        end
  end.
Proof.
  unfold authenticate, json.Marshal, http.NewRequest, http.Header_Set,
    client_Do, bind, emit, ret, fmt.Println.
  cbv zeta. cbn [http.Method http.URL http.Header http.Body].
  fold (auth_request identifier password).
  destruct (network w (auth_request identifier password)) as [err|resp].
  - sprintf. reflexivity.
  - unfold http.StatusOK. destruct (http.StatusCode resp =? 200).
    + destruct (decode_AuthResponse (http.RespBody resp)) as [a [e|]];
        [sprintf|]; reflexivity.
    + destruct (decode_ErrorResponse (http.RespBody resp)) as [a [e|]];
        sprintf; reflexivity.
Qed.

Lemma postMessage_eq accessToken did message w st :
  postMessage accessToken did message w st =
  let createdAt := time.Format (time.UTC (clock w (ticks st))) time.RFC3339 in
  let req := post_request accessToken did message createdAt in
  match network w req with
  | inl err =>
      (Return (Some ("post request failed: " +:+ err)), saw [Sent req] (tick st))
  | inr resp =>
      if http.StatusCode resp =? 200 then
        (Return None,
         saw [Stdout ("Post successful!" +:+ newline); Sent req] (tick st))
      else
        match decode_ErrorResponse (http.RespBody resp) with
        | (_, Some e) =>
            (Return (Some ("failed to decode error response: " +:+ e)),
             saw [Sent req] (tick st))
        | (r, None) =>
            (Return (Some ("post error (" +:+ Str.itoa (http.StatusCode resp)
                           +:+ "): " +:+ Error r +:+ " - " +:+ Message r)),
             saw [Sent req] (tick st))
        end
  end.
Proof.
  unfold postMessage, time_Now, json.Marshal, http.NewRequest,
    http.Header_Set, client_Do, bind, emit, ret, fmt.Println.
  cbv zeta. cbn [http.Method http.URL http.Header http.Body env ticks trace].
  set (createdAt := time.Format (time.UTC (clock w (ticks st))) time.RFC3339).
  fold (post_request accessToken did message createdAt).
  destruct (network w (post_request accessToken did message createdAt))
    as [err|resp].
  - sprintf. reflexivity.
  - unfold http.StatusOK. destruct (http.StatusCode resp =? 200).
    + reflexivity.
    + destruct (decode_ErrorResponse (http.RespBody resp)) as [a [e|]];
        sprintf; reflexivity.
Qed.

Lemma makeOpenAIRequest_eq prompt w st :
  makeOpenAIRequest prompt w st =
  let apiKey := getenv (env st) "OPENAI_API_KEY" in
  let req := openai_request apiKey prompt in
  if String.eqb apiKey EmptyString then
    (Return (EmptyString, Some "OPENAI_API_KEY environment variable not set"),
     st)
  else
    match network w req with
    | inl err =>
        (Return (EmptyString, Some ("request failed: " +:+ err)),
         saw [Sent req] st)
    | inr resp =>
        if http.StatusCode resp =? 200 then
          match decode_response (http.RespBody resp) with
          | (_, Some e) =>
              (Return (EmptyString, Some ("failed to decode response: " +:+ e)),
               saw [Sent req] st)
          | ([], None) =>
              (Return (EmptyString, Some "no response choices returned"),
               saw [Sent req] st)
          | (content :: _, None) =>
              (Return (content, None), saw [Sent req] st)
          end
        else
          (Return (EmptyString,
                   Some ("received non-200 response status: "
                         +:+ Str.itoa (http.StatusCode resp) +:+ " - "
                         +:+ http.RespBody resp)),
           saw [Sent req] st)
    end.
Proof.
  unfold makeOpenAIRequest, os.Getenv, json.Marshal, http.NewRequest,
    http.Header_Set, client_Do, io_ReadAll, bind, emit, ret.
  cbv zeta. cbn [http.Method http.URL http.Header http.Body].
  fold (getenv (env st) "OPENAI_API_KEY").
  set (apiKey := getenv (env st) "OPENAI_API_KEY").
  destruct (String.eqb apiKey EmptyString); [reflexivity|].
  fold (openai_request apiKey prompt).
  destruct (network w (openai_request apiKey prompt)) as [err|resp].
  - sprintf. reflexivity.
  - unfold http.StatusOK. destruct (http.StatusCode resp =? 200); simpl negb; cbv iota.
    + destruct (decode_response (http.RespBody resp)) as [[|c cs] [e|]];
        try (sprintf; reflexivity); reflexivity.
    + sprintf. reflexivity.
Qed.

Lemma getPost_eq now w st :
  getPost now w st =
  match makeOpenAIRequest (getPost_prompt now) w st with
  | (Return (response, Some e), st') =>
      (Return response, saw [Logged ("Error getting AI response: " +:+ e)] st')
  | (Return (response, None), st') => (Return response, st')
  | (Exit code, st') => (Exit code, st')
  end.
Proof.
  unfold getPost, bind, ret.
  destruct (makeOpenAIRequest (getPost_prompt now) w st) as [[[response [e|]]|code] st'];
    try reflexivity.
  sprintf. unfold emit, saw. by destruct st'.
Qed.

Lemma main_eq now :
  main now =
  (environment <- os.Getenv "ENVIRONMENT" ;;
   (if negb (String.eqb environment "production") then
      err <- godotenv.Load ;;
      match err with
      | Some _ => log.Fatal "Error loading .env file"
      | None => ret tt
      end
    else ret tt) ;;;
   if time.After now exitDate then ret tt else main_body now).
Proof. reflexivity. Qed.

(** A run up to the retirement check. *)
Lemma program_eq w :
  program w (initial w) =
  match env_at_main w with
  | None =>
      (Exit 1,
       {| env := environ w; ticks := 1;
          trace := [Logged "Error loading .env file"] |})
  | Some e =>
      if time.After (clock w 0) exitDate then (Return tt, state_at_body e)
      else main_body (clock w 0) w (state_at_body e)
  end.
Proof.
  unfold program, time_Now, initial, bind at 1. cbn [ticks env trace].
  rewrite main_eq. unfold env_at_main, getenv.
  unfold bind at 1. unfold os.Getenv at 1. cbn [env].
  destruct (String.eqb (default EmptyString (environ w !! "ENVIRONMENT")) "production");
    cbn [negb].
  - unfold bind at 1, ret at 1.
    by destruct (time.After (clock w 0) exitDate).
  - unfold bind at 1. unfold bind at 1. unfold godotenv.Load. cbn [env ticks trace].
    destruct (dotenv w) as [vars|].
    + unfold ret at 1. by destruct (time.After (clock w 0) exitDate).
    + reflexivity.
Qed.

Lemma main_body_eq now w st :
  main_body now w st =
  match getPost now w st with
  | (Return post, st') => after_getPost post w st'
  | (Exit code, st') => (Exit code, st')
  end.
Proof. reflexivity. Qed.

Lemma Sprintf_generated post :
  fmt.Sprintf "Generated post: %s" [fmt.Text post] = "Generated post: " +:+ post.
Proof. sprintf. reflexivity. Qed.

Lemma Sprintf_auth_failed e :
  fmt.Sprintf "Authentication failed: %v" [fmt.Text e]
  = "Authentication failed: " +:+ e.
Proof. sprintf. reflexivity. Qed.

Lemma Sprintf_post_failed e :
  fmt.Sprintf "Failed to post message: %v" [fmt.Text e]
  = "Failed to post message: " +:+ e.
Proof. sprintf. reflexivity. Qed.

(** The tail of [main] from the credential checks on. *)
Lemma after_getPost_eq post w st :
  after_getPost post w st =
  let st1 := saw [Stdout ("Generated post: " +:+ post)] st in
  let username := getenv (env st) "BLUESKY_USERNAME" in
  let password := getenv (env st) "BLUESKY_PASSWORD" in
  if String.eqb username EmptyString then
    (Exit 1, saw [Logged "BLUESKY_USERNAME environment variable not set"] st1)
  else if String.eqb password EmptyString then
    (Exit 1, saw [Logged "BLUESKY_PASSWORD environment variable not set"] st1)
  else
    match authenticate username password w st1 with
    | (Return (_, Some e), st2) =>
        (Exit 1, saw [Logged ("Authentication failed: " +:+ e)] st2)
    | (Return (None, None), st2) => (Exit 2, st2)
    | (Return (Some a, None), st2) =>
        match postMessage (AccessJwt a) (Did a) post w st2 with
        | (Return (Some e), st3) =>
            (Exit 1, saw [Logged ("Failed to post message: " +:+ e)] st3)
        | (Return None, st3) =>
            (Return tt,
             saw [Stdout ("Message posted successfully!" +:+ newline)] st3)
        | (Exit code, st3) => (Exit code, st3)
        end
    | (Exit code, st2) => (Exit code, st2)
    end.
Proof.
  unfold after_getPost, fmt.Printf, log.Fatalf, log.Fatal, fmt.Println,
    bind, os.Getenv, os.Exit_, ret, emit, getenv.
  rewrite Sprintf_generated. cbn [env ticks trace]. cbv zeta.
  destruct (String.eqb (default EmptyString (env st !! "BLUESKY_USERNAME"))
              EmptyString); cbn [env ticks trace].
  { reflexivity. }
  destruct (String.eqb (default EmptyString (env st !! "BLUESKY_PASSWORD"))
              EmptyString); cbn [env ticks trace].
  { reflexivity. }
  match goal with |- context [authenticate ?u ?p w ?s] =>
    change s with (saw [Stdout ("Generated post: " +:+ post)] st);
    destruct (authenticate u p w (saw [Stdout ("Generated post: " +:+ post)] st))
      as [[[a [e|]]|code] st2] end.
  - rewrite Sprintf_auth_failed. by destruct a.
  - destruct a as [a|]; [|reflexivity].
    destruct (postMessage (AccessJwt a) (Did a) post w st2) as [[[e|]|code] st3].
    + rewrite Sprintf_post_failed. by destruct st3.
    + by destruct st3.
    + reflexivity.
  - reflexivity.
Qed.

(** ** Dates *)

Lemma inaugurationDate_unix :
  inaugurationDate = time.mkTime 1737331200 0 0.
Proof. reflexivity. Qed.

Lemma exitDate_unix : exitDate = time.mkTime 1863561600 0 0.
Proof. reflexivity. Qed.

Lemma Before_inaugurationDate (t : time.Time) :
  0 <= time.nsec t ->
  time.Before t inaugurationDate = (time.unix_sec t <? 1737331200).
Proof.
  intros Hn. rewrite inaugurationDate_unix. unfold time.Before. simpl.
  destruct (time.unix_sec t <? 1737331200) eqn:E; [reflexivity|].
  simpl. apply andb_false_intro2. lia.
Qed.

Lemma After_exitDate (t : time.Time) :
  time.After t exitDate = true <->
  1863561600 < time.unix_sec t
  \/ (time.unix_sec t = 1863561600 /\ 0 < time.nsec t).
Proof.
  rewrite exitDate_unix. unfold time.After. simpl.
  rewrite orb_true_iff, andb_true_iff. lia.
Qed.

Lemma contains_append_r (p t s : string) :
  Str.contains t s = true -> Str.contains (p +:+ t) s = true.
Proof.
  intros H. induction p as [|a p IH]; [exact H|].
  rewrite append_cons. simpl. rewrite IH. apply orb_true_r.
Qed.

(** ** The prompt (claim C1) *)

Lemma getPost_prompt_before (now : time.Time) :
  time.Before now inaugurationDate = true ->
  getPost_prompt now =
  "Today is " +:+ time.Format now time.layout_January_2_2006 +:+
  ". Write a short, encouraging post about how many days are left until Trump's inauguration. Include the exact number of days until January 20th, 2025. Trump is not a good guy. Say something randomly positive to get people through this.".
Proof.
  intros H. unfold getPost_prompt. rewrite H.
  generalize (time.Format now time.layout_January_2_2006). intros d.
  sprintf. reflexivity.
Qed.

Lemma getPost_prompt_not_before (now : time.Time) :
  time.Before now inaugurationDate = false ->
  getPost_prompt now =
  "Today is " +:+ time.Format now time.layout_January_2_2006 +:+
  ". Write a short, encouraging post about how many days are left of Trump's 2nd term in office. Include the exact number of days until January 20th, 2029. Trump is not a good guy. Say something randomly positive to get people through this.".
Proof.
  intros H. unfold getPost_prompt. rewrite H.
  generalize (time.Format now time.layout_January_2_2006). intros d.
  sprintf. reflexivity.
Qed.

(** What [getPost] sends when an API key is set: one request, carrying
    the prompt as the user message. *)
Lemma getPost_sends now w st :
  getenv (env st) "OPENAI_API_KEY" <> EmptyString ->
  requests (trace (snd (getPost now w st)))
  = openai_request (getenv (env st) "OPENAI_API_KEY") (getPost_prompt now)
    :: requests (trace st).
Proof.
  intros Hkey. rewrite getPost_eq, makeOpenAIRequest_eq. cbv zeta.
  destruct (String.eqb_spec (getenv (env st) "OPENAI_API_KEY") EmptyString)
    as [E|_]; [done|].
  destruct (network w _) as [err|resp]; [reflexivity|].
  destruct (http.StatusCode resp =? 200); [|reflexivity].
  by destruct (decode_response (http.RespBody resp)) as [[|c cs] [e|]].
Qed.

(** C1.  A start-up instant before 2025-01-20T00:00:00Z (Unix second
    1737331200) makes [getPost] build the inauguration prompt, which names
    "January 20th, 2025"; an instant at or after it makes [getPost] build
    the term-end prompt, which names "January 20th, 2029".  In both cases
    the prompt built is the user message of the request [getPost] sends. *)
Theorem C1_getPost_prompt_by_date (now : time.Time) (w : World) (st : State) :
  0 <= time.nsec now ->
  getenv (env st) "OPENAI_API_KEY" <> EmptyString ->
  let dateStr := time.Format now time.layout_January_2_2006 in
  let inauguration_prompt :=
    "Today is " +:+ dateStr +:+
    ". Write a short, encouraging post about how many days are left until Trump's inauguration. Include the exact number of days until January 20th, 2025. Trump is not a good guy. Say something randomly positive to get people through this." in
  let term_end_prompt :=
    "Today is " +:+ dateStr +:+
    ". Write a short, encouraging post about how many days are left of Trump's 2nd term in office. Include the exact number of days until January 20th, 2029. Trump is not a good guy. Say something randomly positive to get people through this." in
  let sent prompt :=
    requests (trace (snd (getPost now w st)))
    = openai_request (getenv (env st) "OPENAI_API_KEY") prompt
      :: requests (trace st) in
  inaugurationDate = time.mkTime 1737331200 0 0 /\
  (time.unix_sec now < 1737331200 ->
     getPost_prompt now = inauguration_prompt /\ sent inauguration_prompt) /\
  (1737331200 <= time.unix_sec now ->
     getPost_prompt now = term_end_prompt /\ sent term_end_prompt) /\
  Str.contains inauguration_prompt "January 20th, 2025" = true /\
  Str.contains term_end_prompt "January 20th, 2029" = true.
Proof.
  intros Hn Hkey dateStr pa pb sent.
  pose proof (Before_inaugurationDate now Hn) as HB.
  split; [reflexivity|]. split; [|split; [|split]].
  - intros Hlt. assert (HB' : time.Before now inaugurationDate = true).
    { rewrite HB. by apply Z.ltb_lt. }
    pose proof (getPost_prompt_before now HB') as Hp. split; [exact Hp|].
    unfold sent, pa, dateStr. rewrite <- Hp. by apply getPost_sends.
  - intros Hge. assert (HB' : time.Before now inaugurationDate = false).
    { rewrite HB. by apply Z.ltb_ge. }
    pose proof (getPost_prompt_not_before now HB') as Hp. split; [exact Hp|].
    unfold sent, pb, dateStr. rewrite <- Hp. by apply getPost_sends.
  - unfold pa. do 2 apply contains_append_r. by vm_compute.
  - unfold pb. do 2 apply contains_append_r. by vm_compute.
Qed.

Lemma C1_getPost_prompt_by_date_witness :
  getPost_prompt june_2024 =
  "Today is June 1, 2024. Write a short, encouraging post about how many days are left until Trump's inauguration. Include the exact number of days until January 20th, 2025. Trump is not a good guy. Say something randomly positive to get people through this."
  /\
  getPost_prompt march_2026 =
  "Today is March 15, 2026. Write a short, encouraging post about how many days are left of Trump's 2nd term in office. Include the exact number of days until January 20th, 2029. Trump is not a good guy. Say something randomly positive to get people through this.".
Proof.
  split.
  - destruct (C1_getPost_prompt_by_date june_2024 world_2024 (initial world_2024))
      as (_ & H & _); [by vm_compute | by vm_compute |].
    destruct H as [H _]; [by vm_compute|]. exact H.
  - destruct (C1_getPost_prompt_by_date march_2026 world_2026 (initial world_2026))
      as (_ & _ & H & _); [by vm_compute | by vm_compute |].
    destruct H as [H _]; [by vm_compute|]. exact H.
Defined.

(** ** The start of a run (claims C2 and C10) *)

(** C10.  Outside production, when [godotenv.Load] fails, the run logs
    "Error loading .env file" and exits with status 1 without doing
    anything else, whatever the clock reads: the retirement check is not
    reached, so the run does not exit zero even after 2029-01-20. *)
Theorem C10_dotenv_failure_precedes_cutoff (w : World) :
  getenv (environ w) "ENVIRONMENT" <> "production" ->
  dotenv w = None ->
  run w = (1, [Logged "Error loading .env file"]).
Proof.
  intros Henv Hdot. unfold run. rewrite program_eq. unfold env_at_main.
  destruct (String.eqb_spec (getenv (environ w) "ENVIRONMENT") "production")
    as [E|_]; [done|].
  by rewrite Hdot.
Qed.

Lemma C10_dotenv_failure_precedes_cutoff_witness :
  time.After (clock world_2030_no_dotenv 0) exitDate = true /\
  run world_2030_no_dotenv = (1, [Logged "Error loading .env file"]).
Proof.
  split; [reflexivity|].
  apply C10_dotenv_failure_precedes_cutoff; [by vm_compute | reflexivity].
Defined.

(** C2, as amended.  A run that gets past the [.env] step (in production,
    or with a [.env] file that loads) and whose start-up instant is
    strictly after 2029-01-20T00:00:00Z does nothing and exits zero. *)
Theorem C2_retired_after_cutoff (w : World) :
  (getenv (environ w) "ENVIRONMENT" = "production" \/ dotenv w <> None) ->
  time.After (clock w 0) (time.Date 2029 time.January 20 0 0 0 0 time.UTC_loc)
  = true ->
  run w = (0, []).
Proof.
  intros Hgate Hafter. unfold run. rewrite program_eq. unfold env_at_main.
  fold exitDate in Hafter.
  destruct (String.eqb_spec (getenv (environ w) "ENVIRONMENT") "production")
    as [E|NE].
  - by rewrite Hafter.
  - destruct Hgate as [?|Hdot]; [done|].
    destruct (dotenv w) as [vars|]; [|done]. by rewrite Hafter.
Qed.

Lemma C2_retired_after_cutoff_witness : run world_2030 = (0, []).
Proof.
  apply C2_retired_after_cutoff; [left; by vm_compute | reflexivity].
Defined.

(** C2 as stated fails twice.  Started exactly at 2029-01-20T00:00:00Z,
    which is not before the cutoff, the run goes through: it sends its
    three requests.  And started after the cutoff outside production
    without a [.env] file, the run exits with status 1. *)
Lemma C2_counterexample :
  (time.Before (clock world_cutoff 0) exitDate = false /\
   map http.URL (requests (snd (run world_cutoff)))
   = [openaiURL; authURL; postURL]) /\
  (time.Before (clock world_2030_no_dotenv 0) exitDate = false /\
   fst (run world_2030_no_dotenv) = 1).
Proof. by vm_compute. Qed.

(** ** Decimal numbers *)

Lemma digit_value (d : Z) : 0 <= d < 10 -> utf8.byte (Str.digit d) - 48 = d.
Proof.
  intros H. unfold Str.digit, utf8.byte.
  rewrite N_ascii_embedding by lia. lia.
Qed.

Lemma digits_go_value (fuel : nat) :
  forall (n : Z) (rest : string),
    0 <= n < 10 ^ (Z.of_nat fuel + 1) ->
    decimal_value_go 0 (Str.digits_go fuel n rest) = decimal_value_go n rest.
Proof.
  induction fuel as [|fuel IH]; intros n rest Hn.
  - change (10 ^ (Z.of_nat 0 + 1)) with 10 in Hn.
    cbn [Str.digits_go decimal_value_go]. cbv zeta.
    rewrite Z.mod_small by lia. by rewrite digit_value by lia.
  - cbn [Str.digits_go]. cbv zeta. destruct (Z.ltb_spec n 10).
    + cbn [decimal_value_go]. rewrite Z.mod_small by lia.
      by rewrite digit_value by lia.
    + rewrite IH.
      * cbn [decimal_value_go].
        rewrite digit_value by (apply Z.mod_pos_bound; lia).
        f_equal. Z.div_mod_to_equations; lia.
      * replace (Z.of_nat (S fuel) + 1) with (Z.succ (Z.of_nat fuel + 1)) in Hn
          by lia.
        rewrite Z.pow_succ_r in Hn by lia.
        split; [apply Z.div_pos; lia|].
        apply Z.div_lt_upper_bound; lia.
Qed.

(** [Str.itoa] writes a non-negative number in full: reading the digits
    back gives the number. *)
Lemma itoa_value (n : Z) : 0 <= n -> decimal_value (Str.itoa n) = n.
Proof.
  intros Hn. unfold Str.itoa, decimal_value, Str.digits.
  replace (n <? 0) with false by (symmetry; apply Z.ltb_ge; lia).
  rewrite digits_go_value; [reflexivity|].
  rewrite Z2Nat.id by apply Z.log2_nonneg.
  split; [exact Hn|].
  destruct (Z.eq_dec n 0) as [->|Hne]; [reflexivity|].
  apply Z.lt_le_trans with (2 ^ (Z.log2 n + 1)).
  - replace (Z.log2 n + 1) with (Z.succ (Z.log2 n)) by lia.
    apply Z.log2_spec. lia.
  - apply Z.pow_le_mono_l. pose proof (Z.log2_nonneg n). lia.
Qed.

(** ** [authenticate] (claim C4) *)

(** C4.  Once the session endpoint has answered: on status 200 with a
    body that decodes, [authenticate] returns exactly the decoded
    [AuthResponse] and no error; on any other status it returns no
    session, and its error is "auth error (<status>): <error> - <message>"
    built from the decoded error body, or "failed to decode error
    response: ..." when that body does not decode.  The status is written
    in decimal in full. *)
Theorem C4_authenticate_outcomes
    (identifier password : string) (w : World) (st : State)
    (resp : http.Response) :
  network w (auth_request identifier password) = inr resp ->
  let result := fst (authenticate identifier password w st) in
  let body := http.RespBody resp in
  (http.StatusCode resp = 200 ->
     forall a, decode_AuthResponse body = (a, None) ->
     result = Return (Some a, None)) /\
  (http.StatusCode resp <> 200 ->
     (forall r, decode_ErrorResponse body = (r, None) ->
        result =
        Return (None,
                Some ("auth error (" +:+ Str.itoa (http.StatusCode resp)
                      +:+ "): " +:+ Error r +:+ " - " +:+ Message r))) /\
     (forall r e, decode_ErrorResponse body = (r, Some e) ->
        result =
        Return (None, Some ("failed to decode error response: " +:+ e))) /\
     (exists e, result = Return (None, Some e))) /\
  (0 <= http.StatusCode resp ->
   decimal_value (Str.itoa (http.StatusCode resp)) = http.StatusCode resp).
Proof.
  intros Hnet result body. unfold result, body.
  rewrite authenticate_eq. cbv zeta. rewrite Hnet. split; [|split].
  - intros Hs a Ha. apply Z.eqb_eq in Hs. by rewrite Hs, Ha.
  - intros Hs. apply Z.eqb_neq in Hs. rewrite Hs.
    destruct (decode_ErrorResponse (http.RespBody resp)) as [r [e|]] eqn:Hd.
    + split; [intros ? [=]|]. split; [intros ? ? [= <- <-]; done|]. eauto.
    + split; [intros ? [= <-]; done|]. split; [intros ? ? [=]|]. eauto.
  - apply itoa_value.
Qed.

Lemma C4_authenticate_outcomes_witness :
  fst (authenticate "bot.bsky.social" "app-password" world_2026 (initial world_2026))
  = Return (Some {| AccessJwt := "jwt-1"; Did := "did:plc:bot" |}, None)
  /\
  fst (authenticate "bot.bsky.social" "wrong" world_401 (initial world_401))
  = Return (None, Some "auth error (401): InvalidCredentials - bad password").
Proof.
  split.
  - refine (proj1 (C4_authenticate_outcomes "bot.bsky.social" "app-password"
                     world_2026 (initial world_2026)
                     (http.mkResponse 200 session_body) _) _ _ _);
      reflexivity.
  - refine (proj1 (proj1 (proj2 (C4_authenticate_outcomes "bot.bsky.social"
                                   "wrong" world_401 (initial world_401)
                                   (http.mkResponse 401 invalid_credentials_body)
                                   _)) _)
              {| Error := "InvalidCredentials"; Message := "bad password" |} _);
      [reflexivity | by vm_compute | reflexivity].
Defined.

(** ** What each function adds to the trace *)

Lemma requests_app (tr1 tr2 : list event) :
  requests (tr1 ++ tr2) = requests tr1 ++ requests tr2.
Proof. apply omap_app. Qed.

Lemma requests_rev (tr : list event) : requests (rev tr) = rev (requests tr).
Proof.
  induction tr as [|e tr IH]; [reflexivity|].
  simpl rev. rewrite requests_app, IH.
  destruct e; simpl; by rewrite ?app_nil_r.
Qed.

Lemma output_app (tr1 tr2 : list event) :
  output (tr1 ++ tr2) = output tr1 ++ output tr2.
Proof. apply List.filter_app. Qed.

Lemma output_rev (tr : list event) : output (rev tr) = rev (output tr).
Proof.
  induction tr as [|e tr IH]; [reflexivity|].
  simpl rev. rewrite output_app, IH.
  destruct e; simpl; by rewrite ?app_nil_r.
Qed.

Lemma trace_saw (es : list event) (st : State) :
  trace (saw es st) = es ++ trace st.
Proof. reflexivity. Qed.

Lemma saw_saw (es es' : list event) (st : State) :
  saw es (saw es' st) = saw (es ++ es') st.
Proof. unfold saw. simpl. by rewrite app_assoc. Qed.

(** The error [makeOpenAIRequest] returns for the prompt of [now]. *)
Lemma generation_error_cases now w st err :
  generation_error w st now = Some err ->
  let apiKey := getenv (env st) "OPENAI_API_KEY" in
  let req := openai_request apiKey (getPost_prompt now) in
  (apiKey = EmptyString /\
   makeOpenAIRequest (getPost_prompt now) w st
   = (Return (EmptyString, Some err), st)) \/
  (apiKey <> EmptyString /\
   makeOpenAIRequest (getPost_prompt now) w st
   = (Return (EmptyString, Some err), saw [Sent req] st)).
Proof.
  unfold generation_error. rewrite makeOpenAIRequest_eq. cbv zeta.
  destruct (String.eqb_spec (getenv (env st) "OPENAI_API_KEY") EmptyString)
    as [E|NE].
  - intros [= <-]. by left.
  - intros H. right. split; [done|]. revert H.
    destruct (network w _) as [e|resp]; [by intros [= <-]|].
    destruct (http.StatusCode resp =? 200); [|by intros [= <-]].
    destruct (decode_response (http.RespBody resp)) as [[|c cs] [e|]];
      by intros [= <-].
Qed.

(** [getPost] never exits; it leaves behind at most one request, to the
    text-generation service, and the environment and clock untouched. *)
Lemma getPost_effect now w st :
  exists post evs,
    getPost now w st = (Return post, saw evs st) /\
    (requests evs = [] \/
     requests evs
     = [openai_request (getenv (env st) "OPENAI_API_KEY") (getPost_prompt now)]).
Proof.
  rewrite getPost_eq, makeOpenAIRequest_eq. cbv zeta.
  destruct (String.eqb (getenv (env st) "OPENAI_API_KEY") EmptyString).
  { eexists _, [_]. split; [reflexivity|]. by left. }
  destruct (network w _) as [e|resp].
  { eexists _, [_; _]. rewrite saw_saw. split; [reflexivity|]. by right. }
  destruct (http.StatusCode resp =? 200).
  - destruct (decode_response (http.RespBody resp)) as [[|c cs] [e|]];
      try (eexists _, [_; _]; rewrite saw_saw; split; [reflexivity|]; by right).
    eexists _, [_]. split; [reflexivity|]. by right.
  - eexists _, [_; _]. rewrite saw_saw. split; [reflexivity|]. by right.
Qed.

(** [authenticate] never exits; it sends exactly its one request, and a
    session comes back only together with the success message and without
    an error. *)
Lemma authenticate_effect identifier password w st :
  exists r evs,
    authenticate identifier password w st = (Return r, saw evs st) /\
    requests evs = [auth_request identifier password] /\
    ((exists e, r = (None, Some e)) \/ (exists a, r = (Some a, None))).
Proof.
  rewrite authenticate_eq. cbv zeta.
  destruct (network w _) as [e|resp].
  { eexists _, [_]. split; [reflexivity|]. split; [reflexivity|]. left. eauto. }
  destruct (http.StatusCode resp =? 200).
  - destruct (decode_AuthResponse (http.RespBody resp)) as [a [e|]].
    + eexists _, [_]. split; [reflexivity|]. split; [reflexivity|]. left. eauto.
    + eexists _, [_; _]. split; [reflexivity|]. split; [reflexivity|]. right. eauto.
  - destruct (decode_ErrorResponse (http.RespBody resp)) as [a [e|]];
      (eexists _, [_]; split; [reflexivity|]; split; [reflexivity|]; left; eauto).
Qed.

(** The value [authenticate] returns does not depend on the state it is
    called in. *)
Lemma authenticate_value identifier password w st st' :
  fst (authenticate identifier password w st)
  = fst (authenticate identifier password w st').
Proof.
  rewrite !authenticate_eq. cbv zeta.
  destruct (network w _) as [e|resp]; [reflexivity|].
  destruct (http.StatusCode resp =? 200).
  - by destruct (decode_AuthResponse (http.RespBody resp)) as [a [e|]].
  - by destruct (decode_ErrorResponse (http.RespBody resp)) as [a [e|]].
Qed.

(** [postMessage] never exits; it reads the clock once and sends exactly
    its one request, stamped with that reading. *)
Lemma postMessage_effect accessToken did message w st :
  exists r evs,
    postMessage accessToken did message w st = (Return r, saw evs (tick st)) /\
    requests evs
    = [post_request accessToken did message
         (time.Format (time.UTC (clock w (ticks st))) time.RFC3339)].
Proof.
  rewrite postMessage_eq. cbv zeta.
  destruct (network w _) as [e|resp].
  { eexists _, [_]. split; reflexivity. }
  destruct (http.StatusCode resp =? 200).
  - eexists _, [_; _]. split; reflexivity.
  - destruct (decode_ErrorResponse (http.RespBody resp)) as [a [e|]];
      (eexists _, [_]; split; reflexivity).
Qed.

(** ** The shape of a run *)

(** How the tail of [main] ends, given the post: on a missing identifier,
    on a missing secret, on a failed authentication, on a failed
    publication, or with the post published.  The traces are newest
    first. *)
Lemma after_getPost_shape post w st :
  let r := after_getPost post w st in
  let username := getenv (env st) "BLUESKY_USERNAME" in
  let password := getenv (env st) "BLUESKY_PASSWORD" in
  let generated := Stdout ("Generated post: " +:+ post) in
  let areq := auth_request username password in
  (username = EmptyString /\ exit_code (fst r) = 1 /\
   trace (snd r)
   = [Logged "BLUESKY_USERNAME environment variable not set"; generated]
     ++ trace st) \/
  (username <> EmptyString /\ password = EmptyString /\
   exit_code (fst r) = 1 /\
   trace (snd r)
   = [Logged "BLUESKY_PASSWORD environment variable not set"; generated]
     ++ trace st) \/
  (username <> EmptyString /\ password <> EmptyString /\
   exists e,
     (forall st0, fst (authenticate username password w st0)
                  = Return (None, Some e)) /\
     exit_code (fst r) = 1 /\
     trace (snd r)
     = [Logged ("Authentication failed: " +:+ e); Sent areq; generated]
       ++ trace st) \/
  (username <> EmptyString /\ password <> EmptyString /\
   exists a,
     (forall st0, fst (authenticate username password w st0)
                  = Return (Some a, None)) /\
     let preq :=
       post_request (AccessJwt a) (Did a) post
         (time.Format (time.UTC (clock w (ticks st))) time.RFC3339) in
     let authenticated :=
       [Sent preq; Stdout ("Authentication successful!" +:+ newline);
        Sent areq; generated] in
     (exists e,
        fst (postMessage (AccessJwt a) (Did a) post w
               (saw [Stdout ("Authentication successful!" +:+ newline);
                     Sent areq; generated] st))
        = Return (Some e) /\
        exit_code (fst r) = 1 /\
        trace (snd r)
        = Logged ("Failed to post message: " +:+ e) :: authenticated
          ++ trace st) \/
     (exit_code (fst r) = 0 /\
      trace (snd r)
      = [Stdout ("Message posted successfully!" +:+ newline);
         Stdout ("Post successful!" +:+ newline)] ++ authenticated
        ++ trace st)).
Proof.
  cbv zeta. rewrite after_getPost_eq. cbv zeta.
  destruct (String.eqb_spec (getenv (env st) "BLUESKY_USERNAME") EmptyString)
    as [Eu|Nu].
  { left. by rewrite Eu. }
  destruct (String.eqb_spec (getenv (env st) "BLUESKY_PASSWORD") EmptyString)
    as [Ep|Np].
  { right; left. by rewrite Ep. }
  right; right.
  set (u := getenv (env st) "BLUESKY_USERNAME") in *.
  set (p := getenv (env st) "BLUESKY_PASSWORD") in *.
  assert (Hval : forall st0 v,
            fst (authenticate u p w
                   (saw [Stdout ("Generated post: " +:+ post)] st)) = v ->
            fst (authenticate u p w st0) = v).
  { intros st0 v <-. apply authenticate_value. }
  revert Hval. rewrite authenticate_eq. cbv zeta.
  destruct (network w (auth_request u p)) as [e|resp].
  { intros Hval. left. do 2 (split; [done|]). eexists. split; [|done].
    intros st0. by apply Hval. }
  destruct (http.StatusCode resp =? 200).
  - destruct (decode_AuthResponse (http.RespBody resp)) as [a [e|]].
    { intros Hval. left. do 2 (split; [done|]). eexists. split; [|done].
      intros st0. by apply Hval. }
    intros Hval. right. do 2 (split; [done|]). exists a.
    split; [intros st0; by apply Hval|]. cbv zeta.
    rewrite !postMessage_eq. cbv zeta. cbn [ticks saw].
    destruct (network w _) as [e|presp].
    { left. eexists. split; [reflexivity|]. done. }
    destruct (http.StatusCode presp =? 200); [by right|].
    destruct (decode_ErrorResponse (http.RespBody presp)) as [r [e|]];
      (left; eexists; split; [reflexivity|]; done).
  - destruct (decode_ErrorResponse (http.RespBody resp)) as [r [e|]];
      (intros Hval; left; do 2 (split; [done|]); eexists; split; [|done];
       intros st0; by apply Hval).
Qed.

(** A run that reaches [getPost]: the generation events [G] come first,
    then whatever the tail of [main] does. *)
Lemma run_body w e :
  env_at_main w = Some e ->
  time.After (clock w 0) exitDate = false ->
  exists post G,
    getPost (clock w 0) w (state_at_body e)
    = (Return post, saw G (state_at_body e)) /\
    (requests G = [] \/
     requests G
     = [openai_request (getenv e "OPENAI_API_KEY") (getPost_prompt (clock w 0))]) /\
    let r := after_getPost post w (saw G (state_at_body e)) in
    run w = (exit_code (fst r), rev (trace (snd r))).
Proof.
  intros He Hafter.
  destruct (getPost_effect (clock w 0) w (state_at_body e))
    as (post & G & Hget & HG).
  exists post, G. split; [exact Hget|]. split; [exact HG|].
  cbv zeta. unfold run. rewrite program_eq, He, Hafter, main_body_eq, Hget.
  by destruct (after_getPost post w (saw G (state_at_body e))).
Qed.

Lemma run_cases w :
  run w = (1, [Logged "Error loading .env file"]) \/
  run w = (0, []) \/
  exists e, env_at_main w = Some e /\
            time.After (clock w 0) exitDate = false.
Proof.
  unfold run. rewrite program_eq.
  destruct (env_at_main w) as [e|]; [|by left].
  destruct (time.After (clock w 0) exitDate) eqn:E; [by right; left|].
  right; right. eauto.
Qed.

(** ** Order of the three calls (claim C7) *)

(** C7.  In every run the requests go out in the order text generation,
    authentication, publication, each at most once, and a publication
    request is directly preceded by the request and the success message
    of [authenticate], which come after the generated post has been
    printed.  [postMessage] cannot run without sending a request.  And
    when [authenticate] returns an error, the run ends with the log line
    "Authentication failed: ..." and status 1, and nothing is sent to the
    publication endpoint. *)
Theorem C7_sequential_order (w : World) :
  let urls := map http.URL (requests (snd (run w))) in
  (exists g a,
     urls = g ++ a /\
     (g = [] \/ g = [openaiURL]) /\
     (a = [] \/ a = [authURL] \/ a = [authURL; postURL])) /\
  (In postURL urls ->
   exists before post areq preq rest,
     snd (run w)
     = before ++
       [Stdout ("Generated post: " +:+ post); Sent areq;
        Stdout ("Authentication successful!" +:+ newline); Sent preq] ++ rest /\
     http.URL areq = authURL /\ http.URL preq = postURL /\
     requests rest = [] /\
     ~ In authURL (map http.URL (requests before)) /\
     ~ In postURL (map http.URL (requests before))) /\
  (forall accessToken did message w' st,
     exists req,
       In (Sent req) (trace (snd (postMessage accessToken did message w' st)))
       /\ http.URL req = postURL) /\
  (forall e err,
     env_at_main w = Some e ->
     time.After (clock w 0) exitDate = false ->
     getenv e "BLUESKY_USERNAME" <> EmptyString ->
     getenv e "BLUESKY_PASSWORD" <> EmptyString ->
     (exists st a,
        fst (authenticate (getenv e "BLUESKY_USERNAME")
               (getenv e "BLUESKY_PASSWORD") w st)
        = Return (a, Some err)) ->
     fst (run w) = 1 /\
     last (snd (run w)) = Some (Logged ("Authentication failed: " +:+ err)) /\
     ~ In postURL urls).
Proof.
  cbv zeta.
  assert (Hurl : forall G e,
            requests G = [] \/
            requests G = [openai_request (getenv e "OPENAI_API_KEY")
                            (getPost_prompt (clock w 0))] ->
            (map http.URL (rev (requests G)) = [] \/
             map http.URL (rev (requests G)) = [openaiURL])).
  { intros G e [->| ->]; [by left|by right]. }
  split; [|split; [|split]].
  - destruct (run_cases w) as [-> | [-> | (e & He & Hafter)]].
    + exists [], []. simpl. tauto.
    + exists [], []. simpl. tauto.
    + destruct (run_body w e He Hafter) as (post & G & _ & HG & ->).
      apply Hurl in HG. cbn [snd].
      destruct (after_getPost_shape post w (saw G (state_at_body e)))
        as [(_ & _ & ->) | [(_ & _ & _ & ->)
            | [(_ & _ & err & _ & _ & ->) | (_ & _ & a & _ & H)]]];
        [| | |cbv zeta in H; destruct H as [(err & _ & _ & ->) | (_ & ->)]];
        rewrite requests_rev, trace_saw; cbn [trace state_at_body];
        rewrite app_nil_r, ?app_comm_cons, ?app_assoc, requests_app,
          rev_app_distr, map_app;
        eexists _, _; (split; [reflexivity|]); (split; [exact HG|]);
        simpl; auto.
  - destruct (run_cases w) as [-> | [-> | (e & He & Hafter)]];
      [simpl; tauto | simpl; tauto |].
    destruct (run_body w e He Hafter) as (post & G & _ & HG & ->).
    apply Hurl in HG. cbn [snd].
    assert (HGa : ~ In authURL (map http.URL (requests (rev G)))).
    { rewrite requests_rev.
      destruct HG as [-> | ->]; simpl; [tauto | intros [?|[]]; done]. }
    assert (HGp : ~ In postURL (map http.URL (requests (rev G)))).
    { rewrite requests_rev.
      destruct HG as [-> | ->]; simpl; [tauto | intros [?|[]]; done]. }
    destruct (after_getPost_shape post w (saw G (state_at_body e)))
      as [(_ & _ & ->) | [(_ & _ & _ & ->)
          | [(_ & _ & err & _ & _ & ->) | (_ & _ & a & _ & H)]]];
      [| | |cbv zeta in H; destruct H as [(err & _ & _ & ->) | (_ & ->)]];
      rewrite trace_saw; cbn [trace state_at_body]; rewrite app_nil_r.
    1-3: rewrite requests_rev, requests_app, rev_app_distr, map_app,
           <- requests_rev, in_app_iff;
         intros [H|H]; [destruct (HGp H)|]; simpl in H; intuition done.
    + intros _. cbn [rev app]. rewrite <- !app_assoc. cbn [app].
      eexists (rev G), post, _, _, [_]. split; [reflexivity|]. done.
    + intros _. cbn [rev app]. rewrite <- !app_assoc. cbn [app].
      eexists (rev G), post, _, _, [_; _]. split; [reflexivity|]. done.
  - intros tok did msg w' st.
    destruct (postMessage_effect tok did msg w' st) as (r & evs & -> & Hreq).
    exists (post_request tok did msg
              (time.Format (time.UTC (clock w' (ticks st))) time.RFC3339)).
    split; [|reflexivity]. cbn [snd]. rewrite trace_saw.
    apply in_or_app. left.
    assert (Hin : In (post_request tok did msg
                        (time.Format (time.UTC (clock w' (ticks st)))
                           time.RFC3339)) (requests evs)).
    { rewrite Hreq. by left. }
    apply list_elem_of_In, list_elem_of_omap in Hin.
    destruct Hin as (ev & Hev & Heq). destruct ev; inversion Heq; subst.
    by apply list_elem_of_In.
  - intros e err He Hafter Hu Hp (st0 & a0 & Hauth).
    destruct (run_body w e He Hafter) as (post & G & _ & HG & ->).
    apply Hurl in HG. cbn [fst snd].
    destruct (after_getPost_shape post w (saw G (state_at_body e)))
      as [(Eu & _) | [(_ & Ep & _)
          | [(_ & _ & err' & Hv & Hcode & Htr) | (_ & _ & a & Hv & _)]]];
      cbn [env saw state_at_body] in *; try done.
    + specialize (Hv st0). rewrite Hauth in Hv. injection Hv as -> ->.
      split; [exact Hcode|]. rewrite Htr. split.
      * cbn [rev app]. by rewrite last_snoc.
      * rewrite requests_rev, trace_saw. cbn [trace state_at_body].
        rewrite app_nil_r, requests_app, rev_app_distr, map_app, in_app_iff.
        intros [Hin|Hin].
        -- destruct HG as [HG | HG]; rewrite HG in Hin; simpl in Hin;
             intuition done.
        -- simpl in Hin. intuition done.
    + specialize (Hv st0). rewrite Hauth in Hv. done.
Qed.

Lemma C7_sequential_order_witness :
  fst (run world_401) = 1 /\
  last (snd (run world_401))
  = Some (Logged "Authentication failed: auth error (401): InvalidCredentials - bad password") /\
  ~ In postURL (map http.URL (requests (snd (run world_401)))).
Proof.
  refine (proj2 (proj2 (proj2 (C7_sequential_order world_401)))
            env_production
            "auth error (401): InvalidCredentials - bad password" _ _ _ _ _).
  - reflexivity.
  - reflexivity.
  - by vm_compute.
  - by vm_compute.
  - exists (initial world_401), None. by vm_compute.
Defined.

(** ** Generation failures (claims C5 and C3) *)

(** A failed generation is logged, and [getPost] returns the empty
    string without exiting. *)
Lemma getPost_failure now w st err :
  generation_error w st now = Some err ->
  let apiKey := getenv (env st) "OPENAI_API_KEY" in
  exists evs,
    getPost now w st
    = (Return EmptyString,
       saw (Logged ("Error getting AI response: " +:+ err) :: evs) st) /\
    ((apiKey = EmptyString /\ evs = []) \/
     (apiKey <> EmptyString /\
      evs = [Sent (openai_request apiKey (getPost_prompt now))])).
Proof.
  intros H. cbv zeta. rewrite getPost_eq.
  destruct (generation_error_cases now w st err H) as [[Hk ->] | [Hk ->]].
  - exists []. split; [reflexivity|]. by left.
  - eexists [_]. rewrite saw_saw. split; [reflexivity|]. by right.
Qed.

(** The five ways in which [makeOpenAIRequest] fails. *)
Lemma generation_failure_modes now w st :
  let apiKey := getenv (env st) "OPENAI_API_KEY" in
  let req := openai_request apiKey (getPost_prompt now) in
  (apiKey = EmptyString ->
   generation_error w st now
   = Some "OPENAI_API_KEY environment variable not set") /\
  (apiKey <> EmptyString ->
   (forall e, network w req = inl e ->
      generation_error w st now = Some ("request failed: " +:+ e)) /\
   (forall resp, network w req = inr resp ->
      (http.StatusCode resp <> 200 ->
       generation_error w st now
       = Some ("received non-200 response status: "
               +:+ Str.itoa (http.StatusCode resp) +:+ " - "
               +:+ http.RespBody resp)) /\
      (http.StatusCode resp = 200 ->
       (forall choices e,
          decode_response (http.RespBody resp) = (choices, Some e) ->
          generation_error w st now
          = Some ("failed to decode response: " +:+ e)) /\
       (decode_response (http.RespBody resp) = ([], None) ->
        generation_error w st now = Some "no response choices returned")))).
Proof.
  cbv zeta. unfold generation_error. rewrite makeOpenAIRequest_eq. cbv zeta.
  split.
  - intros ->. reflexivity.
  - intros Hk.
    destruct (String.eqb_spec (getenv (env st) "OPENAI_API_KEY") EmptyString)
      as [E|_]; [done|].
    split.
    + intros e ->. reflexivity.
    + intros resp ->. split.
      * intros Hs. apply Z.eqb_neq in Hs. by rewrite Hs.
      * intros Hs. apply Z.eqb_eq in Hs. rewrite Hs. split.
        -- intros cs e ->. by destruct cs.
        -- intros ->. reflexivity.
Qed.

(** C5.  However the generation fails (no API key, transport failure,
    non-200 status, undecodable body, no completion), [getPost] does not
    stop the run: it logs "Error getting AI response: ..." and returns the
    empty string.  The run goes on with that empty post: it is printed,
    and once the credentials are there and [authenticate] has returned a
    session, the request [postMessage] sends is the one built from the
    empty message; when the endpoint answers 200 the run exits zero. *)
Theorem C5_generation_failure_is_not_fatal (w : World) :
  (forall now st,
     let apiKey := getenv (env st) "OPENAI_API_KEY" in
     let req := openai_request apiKey (getPost_prompt now) in
     (apiKey = EmptyString ->
      generation_error w st now
      = Some "OPENAI_API_KEY environment variable not set") /\
     (apiKey <> EmptyString ->
      (forall e, network w req = inl e ->
         generation_error w st now = Some ("request failed: " +:+ e)) /\
      (forall resp, network w req = inr resp ->
         (http.StatusCode resp <> 200 ->
          generation_error w st now
          = Some ("received non-200 response status: "
                  +:+ Str.itoa (http.StatusCode resp) +:+ " - "
                  +:+ http.RespBody resp)) /\
         (http.StatusCode resp = 200 ->
          (forall choices e,
             decode_response (http.RespBody resp) = (choices, Some e) ->
             generation_error w st now
             = Some ("failed to decode response: " +:+ e)) /\
          (decode_response (http.RespBody resp) = ([], None) ->
           generation_error w st now
           = Some "no response choices returned"))))) /\
  (forall now st err,
     generation_error w st now = Some err ->
     exists evs,
       getPost now w st
       = (Return EmptyString,
          saw (Logged ("Error getting AI response: " +:+ err) :: evs) st) /\
       (evs = [] \/
        evs = [Sent (openai_request (getenv (env st) "OPENAI_API_KEY")
                       (getPost_prompt now))])) /\
  (forall e err a,
     env_at_main w = Some e ->
     time.After (clock w 0) exitDate = false ->
     generation_error w (state_at_body e) (clock w 0) = Some err ->
     getenv e "BLUESKY_USERNAME" <> EmptyString ->
     getenv e "BLUESKY_PASSWORD" <> EmptyString ->
     (exists st,
        fst (authenticate (getenv e "BLUESKY_USERNAME")
               (getenv e "BLUESKY_PASSWORD") w st)
        = Return (Some a, None)) ->
     let preq :=
       post_request (AccessJwt a) (Did a) EmptyString
         (time.Format (time.UTC (clock w 1)) time.RFC3339) in
     exists before rest,
       snd (run w)
       = before ++
         [Logged ("Error getting AI response: " +:+ err);
          Stdout "Generated post: ";
          Sent (auth_request (getenv e "BLUESKY_USERNAME")
                  (getenv e "BLUESKY_PASSWORD"));
          Stdout ("Authentication successful!" +:+ newline);
          Sent preq] ++ rest /\
       (forall resp,
          network w preq = inr resp -> http.StatusCode resp = 200 ->
          fst (run w) = 0 /\
          rest = [Stdout ("Post successful!" +:+ newline);
                  Stdout ("Message posted successfully!" +:+ newline)])).
Proof.
  split; [|split].
  - intros now st. apply generation_failure_modes.
  - intros now st err H.
    destruct (getPost_failure now w st err H) as (evs & Hget & Hevs).
    exists evs. split; [exact Hget|]. destruct Hevs as [[_ ->] | [_ ->]]; auto.
  - intros e err a He Hafter Hgen Hu Hp (st0 & Hauth). cbv zeta.
    destruct (getPost_failure _ w _ err Hgen) as (evs & Hget & _).
    destruct (run_body w e He Hafter) as (post & G & Hget' & _ & Hrun).
    rewrite Hget in Hget'. injection Hget' as <- HG.
    cbn [app] in HG. rewrite !app_nil_r in HG.
    subst G. cbv zeta in Hrun. rewrite Hrun. cbn [fst snd].
    destruct (after_getPost_shape EmptyString w
                (saw (Logged ("Error getting AI response: " +:+ err) :: evs)
                   (state_at_body e)))
      as [(Eu & _) | [(_ & Ep & _)
          | [(_ & _ & err' & Hv & _) | (_ & _ & a' & Hv & Hpost)]]];
      cbn [env ticks saw state_at_body] in *; try done.
    { specialize (Hv st0). rewrite Hauth in Hv. done. }
    specialize (Hv st0). rewrite Hauth in Hv. injection Hv as <-.
    rewrite postMessage_eq in Hpost. cbv zeta in Hpost.
    cbn [ticks saw state_at_body] in Hpost.
    destruct Hpost as [(perr & Hp1 & Hcode & Htr) | (Hcode & Htr)];
      rewrite Htr, trace_saw; cbn [trace state_at_body];
      rewrite app_nil_r; cbn [rev app]; rewrite <- !app_assoc; cbn [app];
      (eexists (rev evs), _; split; [reflexivity|]).
    all: intros resp Hnet Hs.
    + rewrite Hnet in Hp1. apply Z.eqb_eq in Hs. rewrite Hs in Hp1. done.
    + done.
Qed.

Lemma C5_generation_failure_is_not_fatal_witness :
  generation_error world_no_openai (state_at_body env_production) march_2026
  = Some "request failed: dial tcp: i/o timeout" /\
  fst (run world_no_openai) = 0.
Proof.
  pose proof (C5_generation_failure_is_not_fatal world_no_openai)
    as (Hmodes & _ & Hrun).
  assert (Hgen : generation_error world_no_openai
                   (state_at_body env_production) march_2026
                 = Some "request failed: dial tcp: i/o timeout").
  { refine (proj1 (proj2 (Hmodes march_2026 (state_at_body env_production)) _)
              "dial tcp: i/o timeout" _); [by vm_compute | reflexivity]. }
  split; [exact Hgen|].
  destruct (Hrun env_production "request failed: dial tcp: i/o timeout"
              {| AccessJwt := "jwt-1"; Did := "did:plc:bot" |})
    as (before & rest & _ & Hfin).
  - reflexivity.
  - reflexivity.
  - exact Hgen.
  - by vm_compute.
  - by vm_compute.
  - exists (initial world_no_openai). by vm_compute.
  - destruct (Hfin (http.mkResponse 200 "{}")) as [Hcode _];
      [reflexivity | reflexivity | exact Hcode].
Defined.

(** C3, as amended.  In a run that gets past the [.env] step and the
    retirement check: when the account identifier or the account secret
    is missing, the run ends with the matching log line and status 1, and
    nothing is sent to the session or the publication endpoint: the
    requests of the run are the text-generation request alone when the
    API key is set, and none when it is missing too; when the
    text-generation API
    key is missing, nothing is sent to the text-generation service, the
    failure is logged, and the run goes on with an empty post, on to the
    authentication request when the credentials are set. *)
Theorem C3_missing_configuration (w : World) (e : gmap string string) :
  env_at_main w = Some e ->
  time.After (clock w 0) exitDate = false ->
  let username := getenv e "BLUESKY_USERNAME" in
  let password := getenv e "BLUESKY_PASSWORD" in
  let apiKey := getenv e "OPENAI_API_KEY" in
  let urls := map http.URL (requests (snd (run w))) in
  ((username = EmptyString \/ password = EmptyString) ->
   fst (run w) = 1 /\
   last (snd (run w))
   = Some (Logged (if String.eqb username EmptyString
                   then "BLUESKY_USERNAME environment variable not set"
                   else "BLUESKY_PASSWORD environment variable not set")) /\
   ~ In authURL urls /\ ~ In postURL urls /\
   (apiKey = EmptyString -> urls = []) /\
   (apiKey <> EmptyString -> urls = [openaiURL])) /\
  (apiKey = EmptyString ->
   ~ In openaiURL urls /\
   exists rest,
     snd (run w)
     = [Logged "Error getting AI response: OPENAI_API_KEY environment variable not set";
        Stdout "Generated post: "] ++ rest /\
     (username <> EmptyString -> password <> EmptyString ->
      exists rest', rest = Sent (auth_request username password) :: rest')).
Proof.
  intros He Hafter. cbv zeta.
  destruct (run_body w e He Hafter) as (post & G & Hget & HG & Hrun).
  cbv zeta in Hrun. rewrite Hrun. cbn [fst snd]. clear Hrun.
  pose proof (after_getPost_shape post w (saw G (state_at_body e))) as Hshape.
  cbv zeta in Hshape. cbn [env ticks trace saw state_at_body] in Hshape.
  rewrite !app_nil_r in Hshape.
  assert (HGu : forall u, u <> openaiURL ->
                  ~ In u (map http.URL (rev (requests G)))).
  { intros u Hu. destruct HG as [-> | ->]; simpl; intuition. }
  split.
  - intros Hmiss.
    assert (Hend : exists l,
              exit_code (fst (after_getPost post w (saw G (state_at_body e)))) = 1 /\
              trace (snd (after_getPost post w (saw G (state_at_body e))))
              = [Logged l; Stdout ("Generated post: " +:+ post)] ++ G /\
              l = if String.eqb (getenv e "BLUESKY_USERNAME") EmptyString
                  then "BLUESKY_USERNAME environment variable not set"
                  else "BLUESKY_PASSWORD environment variable not set").
    { destruct Hshape as [(Eu & Hc & Ht) | [(Nu & Ep & Hc & Ht)
        | [(Nu & Np & _) | (Nu & Np & _)]]].
      - eexists. split; [exact Hc|]. split; [exact Ht|]. by rewrite Eu.
      - eexists. split; [exact Hc|]. split; [exact Ht|].
        by destruct (String.eqb_spec (getenv e "BLUESKY_USERNAME") EmptyString).
      - by destruct Hmiss.
      - by destruct Hmiss. }
    destruct Hend as (l & Hc & Ht & ->). rewrite Hc, Ht.
    split; [reflexivity|]. split.
    { cbn [rev app]. by rewrite last_snoc. }
    rewrite requests_rev, requests_app, rev_app_distr, map_app.
    cbn [requests omap rev app map mbind option_bind]. rewrite app_nil_r.
    split; [by apply HGu|]. split; [by apply HGu|]. split.
    + intros Hk.
      destruct (generation_failure_modes (clock w 0) w (state_at_body e))
        as [Hgen _].
      specialize (Hgen Hk).
      destruct (getPost_failure _ w _ _ Hgen)
        as (evs & Hget' & [[_ ->] | [Nk _]]); [|done].
      rewrite Hget in Hget'. injection Hget' as _ HG'.
      rewrite !app_nil_r in HG'. by subst G.
    + intros Nk.
      pose proof (getPost_sends (clock w 0) w (state_at_body e) Nk) as Hsent.
      rewrite Hget in Hsent. cbn [snd trace saw state_at_body] in Hsent.
      rewrite app_nil_r in Hsent.
      change (requests []) with (@nil http.Request) in Hsent.
      by rewrite Hsent.
  - intros Hk.
    destruct (generation_failure_modes (clock w 0) w (state_at_body e))
      as [Hgen _].
    specialize (Hgen Hk).
    destruct (getPost_failure _ w _ _ Hgen) as (evs & Hget' & [[_ ->] | [Nk _]]);
      [|done].
    rewrite Hget in Hget'. injection Hget' as -> HG'.
    rewrite !app_nil_r in HG'. subst G.
    assert (Hurls : forall X,
              In openaiURL (map http.URL (requests X)) <->
              In openaiURL
                (map http.URL
                   (requests
                      (rev (X ++ [Logged "Error getting AI response: OPENAI_API_KEY environment variable not set"]))))).
    { intros X. rewrite requests_rev, requests_app. simpl (requests [_]).
      by rewrite app_nil_r, map_rev, <- in_rev. }
    destruct Hshape as [(Eu & Hc & ->) | [(Nu & Ep & Hc & ->)
        | [(Nu & Np & err & _ & _ & ->) | (Nu & Np & a & _ & Hpost)]]];
      [| | |destruct Hpost as [(err & _ & _ & ->) | (_ & ->)]].
    all: split;
      [rewrite ?app_comm_cons, ?app_assoc, <- Hurls; simpl; intuition done|].
    all: cbn [rev app]; eexists; (split; [reflexivity|]); intros Hu Hp;
      try done; eauto.
Qed.

Lemma C3_missing_configuration_witness :
  fst (run world_no_username) = 1 /\
  ~ In authURL (map http.URL (requests (snd (run world_no_username)))) /\
  map http.URL (requests (snd (run world_no_username))) = [openaiURL].
Proof.
  destruct (C3_missing_configuration world_no_username
              (delete "BLUESKY_USERNAME" env_production) eq_refl eq_refl)
    as [H _].
  destruct H as (Hc & _ & Ha & _ & _ & Hsent); [left; by vm_compute|].
  split; [assumption|]. split; [assumption|].
  apply Hsent. by vm_compute.
Defined.

(** C3 as stated fails twice.  Without an API key the run does not halt:
    it authenticates, publishes and exits zero.  And without an account
    identifier the run does halt, but only after the request to the
    text-generation service has gone out. *)
Lemma C3_counterexample :
  (getenv (environ world_no_key) "OPENAI_API_KEY" = EmptyString /\
   fst (run world_no_key) = 0 /\
   map http.URL (requests (snd (run world_no_key))) = [authURL; postURL]) /\
  (getenv (environ world_no_username) "BLUESKY_USERNAME" = EmptyString /\
   fst (run world_no_username) = 1 /\
   map http.URL (requests (snd (run world_no_username))) = [openaiURL]).
Proof. by vm_compute. Qed.

(** ** The timestamp of a post (claim C6) *)

Lemma all_from_spec (P : Z -> bool) (n : nat) (start : Z) :
  all_from P start n = true ->
  forall x, start <= x < start + Z.of_nat n -> P x = true.
Proof.
  revert start. induction n as [|n IH]; intros start H x Hx; [lia|].
  simpl in H. apply andb_true_iff in H as [H0 H].
  destruct (Z.eq_dec x start) as [->|Hne]; [exact H0|].
  apply (IH (start + 1) H). lia.
Qed.

Lemma forall_below (P : Z -> bool) (n : Z) :
  all_from P 0 (Z.to_nat n) = true ->
  forall x, 0 <= x < n -> P x = true.
Proof.
  intros H x Hx. apply (all_from_spec P (Z.to_nat n) 0 H). lia.
Qed.

Lemma matches_pattern_app (p1 p2 s1 s2 : string) :
  matches_pattern p1 s1 = true ->
  matches_pattern p2 s2 = true ->
  matches_pattern (p1 +:+ p2) (s1 +:+ s2) = true.
Proof.
  revert s1. induction p1 as [|c p1 IH]; intros [|a s1] H1 H2;
    try discriminate; [exact H2|].
  rewrite !append_cons. simpl in *. apply andb_true_iff in H1 as [Hc H1].
  rewrite Hc. by apply IH.
Qed.

Lemma appendInt_2_digits (x : Z) :
  0 <= x < 100 -> matches_pattern "dd" (time.appendInt x 2) = true.
Proof.
  apply (forall_below (fun x => matches_pattern "dd" (time.appendInt x 2)) 100).
  by vm_compute.
Qed.

Lemma appendInt_4_digits (x : Z) :
  0 <= x < 10000 -> matches_pattern "dddd" (time.appendInt x 4) = true.
Proof.
  apply (forall_below (fun x => matches_pattern "dddd" (time.appendInt x 4))
           10000).
  by vm_compute.
Qed.

Lemma day_in_era_range (doe : Z) :
  0 <= doe < 146097 -> 1 <= day_in_era doe <= 31.
Proof.
  intros H.
  pose proof (forall_below
                (fun d => (1 <=? day_in_era d) && (day_in_era d <=? 31))
                146097) as Hall.
  cbv beta in Hall.
  assert (Hd : (1 <=? day_in_era doe) && (day_in_era doe <=? 31) = true).
  { apply Hall; [vm_cast_no_check (eq_refl true) | lia]. }
  apply andb_true_iff in Hd. lia.
Qed.

Lemma Day_range (t : time.Time) : 1 <= time.Day t <= 31.
Proof.
  unfold time.Day, time.civil_from_days. cbv zeta. cbn [snd].
  set (z := time.wall_sec t / 86400 + 719468).
  replace (z - z / 146097 * 146097) with (z mod 146097)
    by (rewrite Z.mod_eq by lia; lia).
  apply (day_in_era_range (z mod 146097)).
  apply Z.mod_pos_bound. lia.
Qed.

(** In UTC and for a year of four digits, the RFC 3339 layout gives
    [YYYY-MM-DDTHH:MM:SSZ]. *)
Lemma RFC3339_UTC_shape (t : time.Time) :
  0 <= time.Year (time.UTC t) <= 9999 ->
  matches_pattern "dddd-dd-ddTdd:dd:ddZ"
    (time.Format (time.UTC t) time.RFC3339) = true.
Proof.
  intros Hy. unfold time.Format, time.RFC3339.
  cbn [time.format_chunks time.format_chunk time.zone_offset time.UTC].
  change (0 =? 0) with true. cbv iota.
  set (u := time.UTC t) in *.
  change "dddd-dd-ddTdd:dd:ddZ"
    with ("dddd" +:+ "-" +:+ "dd" +:+ "-" +:+ "dd" +:+ "T" +:+ "dd" +:+ ":"
          +:+ "dd" +:+ ":" +:+ "dd" +:+ "Z" +:+ EmptyString).
  repeat (apply matches_pattern_app; [|try reflexivity]);
    try reflexivity.
  - apply appendInt_4_digits. lia.
  - apply appendInt_2_digits. destruct (time.Month_of u); simpl; lia.
  - apply appendInt_2_digits. pose proof (Day_range u). lia.
  - apply appendInt_2_digits. unfold time.Hour.
    pose proof (Z.mod_pos_bound (time.wall_sec u) 86400 ltac:(lia)).
    split; [apply Z.div_pos; lia|]. apply Z.div_lt_upper_bound; lia.
  - apply appendInt_2_digits. unfold time.Minute.
    pose proof (Z.mod_pos_bound (time.wall_sec u) 3600 ltac:(lia)).
    split; [apply Z.div_pos; lia|]. apply Z.div_lt_upper_bound; lia.
  - apply appendInt_2_digits. unfold time.Second.
    pose proof (Z.mod_pos_bound (time.wall_sec u) 60 ltac:(lia)). lia.
Qed.

Lemma era_day_ok_all (doe : Z) : 0 <= doe < 146097 -> era_day_ok doe = true.
Proof.
  intros H. apply (forall_below era_day_ok 146097); [|exact H].
  vm_cast_no_check (eq_refl true).
Qed.

Lemma is_leap_era (y era : Z) : is_leap (y + era * 400) = is_leap y.
Proof.
  unfold is_leap.
  replace ((y + era * 400) mod 4) with (y mod 4)
    by (rewrite <- (Z_mod_plus_full y (era * 100) 4); f_equal; lia).
  replace ((y + era * 400) mod 100) with (y mod 100)
    by (rewrite <- (Z_mod_plus_full y (era * 4) 100); f_equal; lia).
  replace ((y + era * 400) mod 400) with (y mod 400)
    by (rewrite <- (Z_mod_plus_full y era 400); f_equal; lia).
  reflexivity.
Qed.

Lemma days_in_month_era (y era m : Z) :
  days_in_month (y + era * 400) m = days_in_month y m.
Proof. unfold days_in_month. by rewrite is_leap_era. Qed.

Lemma days_from_civil_era (era yoe m d doe : Z) :
  0 <= yoe <= 399 ->
  yoe * 365 + yoe / 4 - yoe / 100
  + ((153 * (if 2 <? m then m - 3 else m + 9) + 2) / 5 + d - 1) = doe ->
  time.days_from_civil ((if m <=? 2 then yoe + 1 else yoe) + era * 400) m d
  = era * 146097 + doe - 719468.
Proof.
  intros Hy <-. unfold time.days_from_civil. cbv zeta.
  assert (Hy' : (if m <=? 2
                 then (if m <=? 2 then yoe + 1 else yoe) + era * 400 - 1
                 else (if m <=? 2 then yoe + 1 else yoe) + era * 400)
                = yoe + era * 400).
  { destruct (m <=? 2); lia. }
  rewrite Hy'.
  assert (He : (yoe + era * 400) / 400 = era).
  { clear - Hy. Z.div_mod_to_equations. lia. }
  rewrite He.
  replace (yoe + era * 400 - era * 400) with yoe by lia.
  lia.
Qed.

(** [time.civil_from_days] gives a date of the calendar, of which
    [time.days_from_civil] is the day number. *)
Lemma civil_from_days_spec (z : Z) :
  let '(y, m, d) := time.civil_from_days z in
  1 <= m <= 12 /\ 1 <= d <= days_in_month y m /\
  time.days_from_civil y m d = z.
Proof.
  unfold time.civil_from_days. cbv zeta.
  set (z' := z + 719468).
  set (era := z' / 146097).
  set (doe := z' - era * 146097).
  assert (Hdoe : 0 <= doe < 146097).
  { subst doe era. pose proof (Z.mod_pos_bound z' 146097 ltac:(lia)).
    rewrite Z.mod_eq in H by lia. lia. }
  assert (Hz : z = era * 146097 + doe - 719468) by (subst doe z'; lia).
  pose proof (era_day_ok_all doe Hdoe) as Hok. unfold era_day_ok in Hok.
  cbv zeta in Hok. clearbody doe. clear Hdoe.
  set (yoe := (doe - doe / 1460 + doe / 36524 - doe / 146096) / 365) in *.
  set (doy := doe - (365 * yoe + yoe / 4 - yoe / 100)) in *.
  set (mp := (5 * doy + 2) / 153) in *.
  set (d := doy - (153 * mp + 2) / 5 + 1) in *.
  set (m := if mp <? 10 then mp + 3 else mp - 9) in *.
  clearbody d m. clear mp doy. clearbody yoe.
  repeat (apply andb_true_iff in Hok as [Hok ?]).
  apply Z.leb_le in Hok, H0, H1, H2, H3, H4. apply Z.eqb_eq in H.
  assert (Hy : (if m <=? 2 then yoe + era * 400 + 1 else yoe + era * 400)
               = (if m <=? 2 then yoe + 1 else yoe) + era * 400).
  { destruct (m <=? 2); lia. }
  rewrite Hy. split; [lia|]. split.
  { rewrite days_in_month_era. lia. }
  rewrite Hz. apply days_from_civil_era; [lia | exact H].
Qed.

Lemma appendInt_2_eq (x : Z) :
  0 <= x < 100 ->
  time.appendInt x 2
  = String (Str.digit (x / 10)) (String (Str.digit (x mod 10)) EmptyString).
Proof.
  intros H. apply String.eqb_eq.
  apply (forall_below
           (fun x => String.eqb (time.appendInt x 2)
                       (String (Str.digit (x / 10))
                          (String (Str.digit (x mod 10)) EmptyString)))
           100); [by vm_compute | exact H].
Qed.

Lemma appendInt_4_eq (x : Z) :
  0 <= x < 10000 ->
  time.appendInt x 4
  = String (Str.digit (x / 1000))
      (String (Str.digit (x / 100 mod 10))
         (String (Str.digit (x / 10 mod 10))
            (String (Str.digit (x mod 10)) EmptyString))).
Proof.
  intros H. apply String.eqb_eq.
  apply (forall_below
           (fun x => String.eqb (time.appendInt x 4)
                       (String (Str.digit (x / 1000))
                          (String (Str.digit (x / 100 mod 10))
                             (String (Str.digit (x / 10 mod 10))
                                (String (Str.digit (x mod 10)) EmptyString)))))
           10000); [by vm_compute | exact H].
Qed.

Lemma two_digits_value (x : Z) :
  0 <= x < 100 ->
  decimal_value
    (String (Str.digit (x / 10)) (String (Str.digit (x mod 10)) EmptyString))
  = x.
Proof.
  intros H. unfold decimal_value. cbn [decimal_value_go].
  rewrite !digit_value by (Z.div_mod_to_equations; lia).
  Z.div_mod_to_equations. lia.
Qed.

Lemma four_digits_value (x : Z) :
  0 <= x < 10000 ->
  decimal_value
    (String (Str.digit (x / 1000))
       (String (Str.digit (x / 100 mod 10))
          (String (Str.digit (x / 10 mod 10))
             (String (Str.digit (x mod 10)) EmptyString))))
  = x.
Proof.
  intros H. unfold decimal_value. cbn [decimal_value_go].
  rewrite !digit_value by (Z.div_mod_to_equations; lia).
  Z.div_mod_to_equations. lia.
Qed.

Lemma month_number_of_number (m : Z) :
  1 <= m <= 12 -> time.month_number (time.month_of_number m) = m.
Proof.
  intros H.
  assert (Hm : m = 1 \/ m = 2 \/ m = 3 \/ m = 4 \/ m = 5 \/ m = 6 \/ m = 7
               \/ m = 8 \/ m = 9 \/ m = 10 \/ m = 11 \/ m = 12) by lia.
  repeat destruct Hm as [->|Hm]; try reflexivity. by subst m.
Qed.

(** In UTC and for a year of four digits, what the RFC 3339 layout gives
    is an RFC 3339 timestamp, and the instant it denotes is that of the
    time formatted. *)
Lemma RFC3339_UTC_instant_Format (t : time.Time) :
  0 <= time.Year (time.UTC t) <= 9999 ->
  RFC3339_UTC_instant (time.Format (time.UTC t) time.RFC3339)
  = Some (time.unix_sec t).
Proof.
  intros Hy. unfold RFC3339_UTC_instant. rewrite (RFC3339_UTC_shape t Hy).
  unfold time.Format, time.RFC3339.
  cbn [time.format_chunks time.format_chunk time.zone_offset time.UTC].
  change (0 =? 0) with true. cbv iota.
  set (u := time.UTC t) in *.
  assert (Hw : time.wall_sec u = time.unix_sec t).
  { unfold time.wall_sec, u. cbn [time.unix_sec time.zone_offset time.UTC].
    lia. }
  pose proof (civil_from_days_spec (time.wall_sec u / 86400)) as Hc.
  unfold time.Year, time.Month_of, time.Day, time.Hour, time.Minute,
    time.Second in *.
  destruct (time.civil_from_days (time.wall_sec u / 86400)) as [[y m] d].
  cbn [fst snd] in *. destruct Hc as (Hm & Hd & Hdays).
  rewrite (month_number_of_number m Hm).
  rewrite Hw in *. clearbody u. clear u Hw.
  set (W := time.unix_sec t) in *. clearbody W.
  assert (Hh : 0 <= W mod 86400 / 3600 < 100)
    by (Z.div_mod_to_equations; lia).
  assert (Hmi : 0 <= W mod 3600 / 60 < 100)
    by (Z.div_mod_to_equations; lia).
  assert (Hs : 0 <= W mod 60 < 100) by (Z.div_mod_to_equations; lia).
  assert (Hd' : 0 <= d < 100).
  { unfold days_in_month in Hd.
    destruct (m =? 2), (is_leap y),
      ((m =? 4) || (m =? 6) || (m =? 9) || (m =? 11)); lia. }
  rewrite (appendInt_4_eq y) by lia.
  rewrite (appendInt_2_eq m) by lia.
  rewrite (appendInt_2_eq d) by lia.
  rewrite (appendInt_2_eq (W mod 86400 / 3600)) by lia.
  rewrite (appendInt_2_eq (W mod 3600 / 60)) by lia.
  rewrite (appendInt_2_eq (W mod 60)) by lia.
  cbv [String.append]. cbn [String.substring].
  rewrite (four_digits_value y) by lia.
  rewrite (two_digits_value m) by lia.
  rewrite (two_digits_value d) by lia.
  rewrite (two_digits_value (W mod 86400 / 3600)) by lia.
  rewrite (two_digits_value (W mod 3600 / 60)) by lia.
  rewrite (two_digits_value (W mod 60)) by lia.
  rewrite Hdays.
  replace ((1 <=? m) && (m <=? 12) && (1 <=? d) && (d <=? days_in_month y m)
           && (W mod 86400 / 3600 <=? 23) && (W mod 3600 / 60 <=? 59)
           && (W mod 60 <=? 59)) with true.
  - f_equal. Z.div_mod_to_equations. lia.
  - symmetry. repeat (apply andb_true_iff; split); apply Z.leb_le;
      try lia; Z.div_mod_to_equations; lia.
Qed.

(** What [RFC3339_UTC_instant] accepts: dates of the calendar and times
    of the day only. *)
Lemma RFC3339_UTC_instant_examples :
  RFC3339_UTC_instant "2026-03-15T00:00:07Z" = Some 1773532807 /\
  RFC3339_UTC_instant "2026-13-45T99:99:75Z" = None /\
  RFC3339_UTC_instant "2025-02-29T12:00:00Z" = None /\
  RFC3339_UTC_instant "2024-02-29T23:59:59Z" = Some 1709251199.
Proof. by vm_compute. Qed.

(** C6, as amended.  [postMessage] reads the clock afresh, and the
    [createdAt] of the record it submits is that reading, converted to
    UTC and written in the RFC 3339 layout.  In a run this is the second
    reading of the clock, not the first one kept in [now], so every
    record a run submits is stamped with the time of submission.  When
    the year of the reading, in UTC, has at most four digits, the text is
    an RFC 3339 timestamp in UTC, [YYYY-MM-DDTHH:MM:SSZ] with a date of
    the calendar and a time of the day, and the instant it denotes is the
    second of the reading. *)
Theorem C6_createdAt_is_submission_time (w : World) :
  (forall accessToken did message st,
     let createdAt :=
       time.Format (time.UTC (clock w (ticks st))) time.RFC3339 in
     let st' := snd (postMessage accessToken did message w st) in
     requests (trace st')
     = post_request accessToken did message createdAt :: requests (trace st) /\
     http.Body (post_request accessToken did message createdAt)
     = json.encode
         (json.GoMap
            [("repo", json.GoString did);
             ("collection", json.GoString "app.bsky.feed.post");
             ("record",
              json.GoMap [("$type", json.GoString "app.bsky.feed.post");
                          ("text", json.GoString message);
                          ("createdAt", json.GoString createdAt)])]) /\
     ticks st' = S (ticks st)) /\
  (forall req,
     In req (requests (snd (run w))) -> http.URL req = postURL ->
     exists accessToken did message,
       req = post_request accessToken did message
               (time.Format (time.UTC (clock w 1)) time.RFC3339)) /\
  (forall t,
     time.zone_offset (time.UTC t) = 0 /\
     (0 <= time.Year (time.UTC t) <= 9999 ->
      matches_pattern "dddd-dd-ddTdd:dd:ddZ"
        (time.Format (time.UTC t) time.RFC3339) = true /\
      RFC3339_UTC_instant (time.Format (time.UTC t) time.RFC3339)
      = Some (time.unix_sec t))).
Proof.
  split; [|split].
  - intros tok did msg st. cbv zeta.
    destruct (postMessage_effect tok did msg w st) as (r & evs & -> & Hreq).
    cbn [snd]. rewrite trace_saw, requests_app, Hreq.
    split; [reflexivity|]. split; reflexivity.
  - intros req Hin Hurl.
    destruct (run_cases w) as [Hr | [Hr | (e & He & Hafter)]];
      [by rewrite Hr in Hin | by rewrite Hr in Hin |].
    destruct (run_body w e He Hafter) as (post & G & _ & HG & Hrun).
    cbv zeta in Hrun. rewrite Hrun in Hin. cbn [snd] in Hin.
    pose proof (after_getPost_shape post w (saw G (state_at_body e))) as Hshape.
    cbv zeta in Hshape. cbn [env ticks trace saw state_at_body] in Hshape.
    rewrite !app_nil_r in Hshape.
    rewrite requests_rev, <- in_rev in Hin.
    assert (HinG : ~ In req (requests G)).
    { intros H. destruct HG as [HG|HG]; rewrite HG in H; [done|].
      destruct H as [<-|[]]. done. }
    destruct Hshape as [(_ & _ & Ht) | [(_ & _ & _ & Ht)
        | [(_ & _ & err & _ & _ & Ht) | (_ & _ & a & _ & Hpost)]]];
      [| | |destruct Hpost as [(err & _ & _ & Ht) | (_ & Ht)]];
      rewrite Ht, ?app_comm_cons, ?app_assoc, requests_app, in_app_iff in Hin;
      (destruct Hin as [Hin|Hin]; [|done]); simpl in Hin.
    + done.
    + done.
    + destruct Hin as [<-|[]]. done.
    + destruct Hin as [<-|[<-|[]]]; [|done]. eauto.
    + destruct Hin as [<-|[<-|[]]]; [|done]. eauto.
  - intros t. split; [reflexivity|]. intros Hy.
    split; [by apply RFC3339_UTC_shape | by apply RFC3339_UTC_instant_Format].
Qed.

Lemma C6_createdAt_is_submission_time_witness :
  clock world_2026 0 <> clock world_2026 1 /\
  time.Format (time.UTC (clock world_2026 0)) time.RFC3339
  = "2026-03-15T00:00:00Z" /\
  (forall req,
     In req (requests (snd (run world_2026))) -> http.URL req = postURL ->
     exists accessToken did message,
       req = post_request accessToken did message "2026-03-15T00:00:07Z") /\
  matches_pattern "dddd-dd-ddTdd:dd:ddZ"
    (time.Format (time.UTC (clock world_2026 1)) time.RFC3339) = true /\
  RFC3339_UTC_instant (time.Format (time.UTC (clock world_2026 1)) time.RFC3339)
  = Some (time.unix_sec (clock world_2026 1)).
Proof.
  split; [by vm_compute|]. split; [reflexivity|]. split.
  - exact (proj1 (proj2 (C6_createdAt_is_submission_time world_2026))).
  - apply (proj2 (proj2 (C6_createdAt_is_submission_time world_2026))).
    by vm_compute.
Defined.

(** C6 as stated fails when the clock reads a year of more than four
    digits: the layout then writes all the digits of the year, and the
    text submitted is not an RFC 3339 timestamp. *)
Lemma C6_counterexample :
  time.Format (time.UTC (clock world_year_10000 1)) time.RFC3339
  = "10000-01-01T00:00:00Z" /\
  In (post_request "jwt-1" "did:plc:bot"
        "1041 days until the end of the term. Hang in there! #TheFinalTrumpDown"
        "10000-01-01T00:00:00Z")
     (requests (snd (run world_year_10000))) /\
  matches_pattern "dddd-dd-ddTdd:dd:ddZ" "10000-01-01T00:00:00Z" = false /\
  RFC3339_UTC_instant "10000-01-01T00:00:00Z" = None.
Proof.
  split; [by vm_compute|]. split; [vm_compute; tauto|]. by vm_compute.
Qed.

(** ** Credentials and what a run shows (claim C9) *)

Lemma getenv_same (e1 e2 : gmap string string) (key : string) :
  same_except_credentials e1 e2 ->
  key <> "BLUESKY_USERNAME" -> key <> "BLUESKY_PASSWORD" ->
  getenv e1 key = getenv e2 key.
Proof. intros H Hu Hp. unfold getenv. by rewrite (H key Hu Hp). Qed.

Lemma same_except_credentials_union (e1 e2 d1 d2 : gmap string string) :
  same_except_credentials e1 e2 ->
  same_except_credentials d1 d2 ->
  same_except_credentials (e1 ∪ d1) (e2 ∪ d2).
Proof.
  intros He Hd key Hu Hp. by rewrite !lookup_union, (He key), (Hd key).
Qed.

Lemma output_saw (es1 es2 : list event) (st1 st2 : State) :
  output es1 = output es2 ->
  output (trace st1) = output (trace st2) ->
  output (trace (saw es1 st1)) = output (trace (saw es2 st2)).
Proof. intros H1 H2. by rewrite !trace_saw, !output_app, H1, H2. Qed.

Lemma trace_tick (st : State) : trace (tick st) = trace st.
Proof. reflexivity. Qed.

Ltac same_output Hout :=
  cbn [fst snd exit_code]; split; [reflexivity|];
  repeat first
    [ exact Hout
    | rewrite !trace_tick
    | apply output_saw; [reflexivity|] ].

(** The exit status and the output of the tail of [main] are the same in
    two worlds whose networks answer alike, whatever the credentials. *)
Lemma after_getPost_output post w1 w2 st1 st2 :
  (forall n, clock w1 n = clock w2 n) ->
  ticks st1 = ticks st2 ->
  output (trace st1) = output (trace st2) ->
  let u1 := getenv (env st1) "BLUESKY_USERNAME" in
  let p1 := getenv (env st1) "BLUESKY_PASSWORD" in
  let u2 := getenv (env st2) "BLUESKY_USERNAME" in
  let p2 := getenv (env st2) "BLUESKY_PASSWORD" in
  (u1 = EmptyString <-> u2 = EmptyString) ->
  (p1 = EmptyString <-> p2 = EmptyString) ->
  (forall req, http.URL req <> authURL -> network w1 req = network w2 req) ->
  network w1 (auth_request u1 p1) = network w2 (auth_request u2 p2) ->
  let r1 := after_getPost post w1 st1 in
  let r2 := after_getPost post w2 st2 in
  exit_code (fst r1) = exit_code (fst r2) /\
  output (trace (snd r1)) = output (trace (snd r2)).
Proof.
  intros Hclock Hticks Hout u1 p1 u2 p2 Hu Hp Hnet Hauth. cbv zeta.
  rewrite !after_getPost_eq. cbv zeta. fold u1 p1 u2 p2.
  destruct (String.eqb_spec u1 EmptyString) as [E1|N1];
    destruct (String.eqb_spec u2 EmptyString) as [E2|N2];
    try (exfalso; tauto).
  { same_output Hout. }
  destruct (String.eqb_spec p1 EmptyString) as [F1|M1];
    destruct (String.eqb_spec p2 EmptyString) as [F2|M2];
    try (exfalso; tauto).
  { same_output Hout. }
  rewrite !authenticate_eq. cbv zeta. rewrite Hauth.
  destruct (network w2 (auth_request u2 p2)) as [err|resp].
  { same_output Hout. }
  assert (Hpost : forall a,
            let s1 := saw [Stdout ("Authentication successful!" +:+ newline);
                           Sent (auth_request u1 p1)]
                        (saw [Stdout ("Generated post: " +:+ post)] st1) in
            let s2 := saw [Stdout ("Authentication successful!" +:+ newline);
                           Sent (auth_request u2 p2)]
                        (saw [Stdout ("Generated post: " +:+ post)] st2) in
            let q1 := postMessage (AccessJwt a) (Did a) post w1 s1 in
            let q2 := postMessage (AccessJwt a) (Did a) post w2 s2 in
            fst q1 = fst q2 /\
            output (trace (snd q1)) = output (trace (snd q2))).
  { intros a. cbv zeta. rewrite !postMessage_eq. cbv zeta.
    cbn [ticks saw]. rewrite Hclock, Hticks.
    rewrite (Hnet (post_request _ _ _ _)) by done.
    destruct (network w2 _) as [err|presp].
    { same_output Hout. }
    destruct (http.StatusCode presp =? 200).
    { same_output Hout. }
    destruct (decode_ErrorResponse (http.RespBody presp)) as [r [e|]];
      same_output Hout. }
  destruct (http.StatusCode resp =? 200).
  - destruct (decode_AuthResponse (http.RespBody resp)) as [a [e|]].
    { same_output Hout. }
    specialize (Hpost a). cbv zeta in Hpost. destruct Hpost as [Hv Ho].
    destruct (postMessage (AccessJwt a) (Did a) post w1 _) as [q1 t1].
    destruct (postMessage (AccessJwt a) (Did a) post w2 _) as [q2 t2].
    cbn [fst snd] in Hv, Ho. subst q2.
    destruct q1 as [[e|]|code]; same_output Ho.
  - destruct (decode_ErrorResponse (http.RespBody resp)) as [r [e|]];
      same_output Hout.
Qed.

(** [getPost] depends on the environment through the API key only. *)
Lemma getPost_same now w1 w2 st1 st2 :
  getenv (env st1) "OPENAI_API_KEY" = getenv (env st2) "OPENAI_API_KEY" ->
  (forall req, http.URL req <> authURL -> network w1 req = network w2 req) ->
  exists post G,
    getPost now w1 st1 = (Return post, saw G st1) /\
    getPost now w2 st2 = (Return post, saw G st2).
Proof.
  intros Hkey Hnet. rewrite !getPost_eq, !makeOpenAIRequest_eq. cbv zeta.
  rewrite Hkey.
  destruct (String.eqb (getenv (env st2) "OPENAI_API_KEY") EmptyString).
  { by eexists _, [_]. }
  rewrite (Hnet (openai_request _ _)) by done.
  destruct (network w2 _) as [e|resp].
  { eexists _, [_; _]. by rewrite !saw_saw. }
  destruct (http.StatusCode resp =? 200).
  - destruct (decode_response (http.RespBody resp)) as [[|c cs] [e|]];
      try (eexists _, [_; _]; by rewrite !saw_saw).
    by eexists _, [_].
  - eexists _, [_; _]. by rewrite !saw_saw.
Qed.

(** C9, as amended.  Take two runs that differ only in the credentials: same
    environment and [.env] file apart from the two credential variables,
    each credential set in both or in neither, same clock, and a network
    that answers both runs alike (the same answer to the two
    authentication requests, and to every other request).  Then the two
    runs exit with the same status and show the same text on standard
    output and in the log: nothing shown is computed from the
    credentials. *)
Theorem C9_output_independent_of_credentials (w1 w2 : World) :
  same_except_credentials (environ w1) (environ w2) ->
  match dotenv w1, dotenv w2 with
  | Some d1, Some d2 => same_except_credentials d1 d2
  | None, None => True
  | _, _ => False
  end ->
  (forall n, clock w1 n = clock w2 n) ->
  (forall e1 e2,
     env_at_main w1 = Some e1 -> env_at_main w2 = Some e2 ->
     (getenv e1 "BLUESKY_USERNAME" = EmptyString
      <-> getenv e2 "BLUESKY_USERNAME" = EmptyString) /\
     (getenv e1 "BLUESKY_PASSWORD" = EmptyString
      <-> getenv e2 "BLUESKY_PASSWORD" = EmptyString) /\
     network w1 (auth_request (getenv e1 "BLUESKY_USERNAME")
                   (getenv e1 "BLUESKY_PASSWORD"))
     = network w2 (auth_request (getenv e2 "BLUESKY_USERNAME")
                     (getenv e2 "BLUESKY_PASSWORD"))) ->
  (forall req, http.URL req <> authURL -> network w1 req = network w2 req) ->
  fst (run w1) = fst (run w2) /\
  output (snd (run w1)) = output (snd (run w2)).
Proof.
  intros Henv Hdot Hclock Hcred Hnet.
  assert (Hmain : match env_at_main w1, env_at_main w2 with
                  | Some e1, Some e2 => same_except_credentials e1 e2
                  | None, None => True
                  | _, _ => False
                  end).
  { unfold env_at_main.
    rewrite (getenv_same _ _ "ENVIRONMENT" Henv) by done.
    destruct (String.eqb (getenv (environ w2) "ENVIRONMENT") "production");
      [exact Henv|].
    destruct (dotenv w1) as [d1|], (dotenv w2) as [d2|]; try done.
    by apply same_except_credentials_union. }
  unfold run. rewrite !program_eq.
  destruct (env_at_main w1) as [e1|] eqn:E1, (env_at_main w2) as [e2|] eqn:E2;
    try done.
  rewrite <- Hclock.
  destruct (time.After (clock w1 0) exitDate); [done|].
  rewrite !main_body_eq.
  destruct (getPost_same (clock w1 0) w1 w2 (state_at_body e1)
              (state_at_body e2)) as (post & G & -> & ->).
  { by apply getenv_same. }
  { exact Hnet. }
  destruct (Hcred e1 e2 eq_refl eq_refl) as (Hu & Hp & Hauth).
  destruct (after_getPost_output post w1 w2 (saw G (state_at_body e1))
              (saw G (state_at_body e2)) Hclock eq_refl eq_refl Hu Hp Hnet
              Hauth) as [Hcode Hout].
  destruct (after_getPost post w1 _) as [r1 t1].
  destruct (after_getPost post w2 _) as [r2 t2].
  cbn [fst snd] in *. by rewrite !output_rev, Hcode, Hout.
Qed.

Lemma C9_output_independent_of_credentials_witness :
  getenv (environ world_2026) "BLUESKY_PASSWORD"
  <> getenv (environ world_2026_other_account) "BLUESKY_PASSWORD" /\
  fst (run world_2026) = fst (run world_2026_other_account) /\
  output (snd (run world_2026)) = output (snd (run world_2026_other_account)).
Proof.
  split; [by vm_compute|].
  apply C9_output_independent_of_credentials.
  - intros key Hu Hp. cbn [environ world_2026 world_2026_other_account].
    unfold env_other_account. by rewrite !lookup_insert_ne.
  - exact I.
  - reflexivity.
  - intros e1 e2 [= <-] [= <-]. by vm_compute.
  - reflexivity.
Defined.

(** C9 as stated fails: what the session endpoint answers to a refused
    authentication is logged as it comes.  Against an endpoint that
    quotes the request in its error message, two runs that differ in the
    credentials alone log different lines, and the line of each holds
    its password. *)
Lemma C9_counterexample :
  same_except_credentials (environ world_echo)
    (environ world_echo_other_account) /\
  dotenv world_echo = dotenv world_echo_other_account /\
  clock world_echo = clock world_echo_other_account /\
  network world_echo = network world_echo_other_account /\
  output (snd (run world_echo)) <> output (snd (run world_echo_other_account)) /\
  match last (snd (run world_echo)) with
  | Some (Logged line) => Str.contains line "app-password"
  | _ => false
  end = true.
Proof.
  split.
  { intros key Hu Hp. cbn [environ world_echo world_echo_other_account].
    unfold env_other_account. by rewrite !lookup_insert_ne. }
  do 3 (split; [reflexivity|]).
  split; [|by vm_compute].
  vm_compute. intros H. discriminate H.
Qed.

(** ** UTF-8 ([unicode/utf8]) *)

Import utf8.
Lemma byte_range (a : ascii) : 0 <= byte a < 256.
Proof.
  unfold byte. pose proof (N_ascii_bounded a). lia.
Qed.

Lemma chr_byte (a : ascii) : chr (byte a) = a.
Proof. unfold chr, byte. rewrite N2Z.id. apply ascii_N_embedding. Qed.

Lemma byte_chr (z : Z) : 0 <= z < 256 -> byte (chr z) = z.
Proof.
  intros H. unfold chr, byte. rewrite N_ascii_embedding by lia. lia.
Qed.

Lemma chr_eq (a : ascii) (z : Z) : z = byte a -> chr z = a.
Proof. intros ->. apply chr_byte. Qed.

(** What [first] says about a leading byte. *)
Lemma first_lead (b : Z) (sz : nat) (lo hi : Z) :
  first b = fi_lead sz lo hi ->
  (sz = 2%nat /\ 0xC2 <= b <= 0xDF /\ lo = 0x80 /\ hi = 0xBF) \/
  (sz = 3%nat /\ 0xE0 <= b <= 0xEF /\ 0x80 <= lo /\ hi <= 0xBF /\
   (b = 0xE0 -> lo = 0xA0) /\ (b = 0xED -> hi = 0x9F)) \/
  (sz = 4%nat /\ 0xF0 <= b <= 0xF4 /\ 0x80 <= lo /\ hi <= 0xBF /\
   (b = 0xF0 -> lo = 0x90) /\ (b = 0xF4 -> hi = 0x8F)).
Proof.
  unfold first.
  repeat match goal with
         | |- context [?x <? ?y] => destruct (Z.ltb_spec x y)
         | |- context [?x =? ?y] => destruct (Z.eqb_spec x y)
         end; intros [=]; subst; lia.
Qed.

Ltac bool_cases :=
  repeat match goal with
         | H : (_ || _) = false |- _ => apply orb_false_iff in H as [? ?]
         | H : (_ && _) = true |- _ => apply andb_true_iff in H as [? ?]
         | H : negb _ = false |- _ => apply negb_false_iff in H
         | H : (_ <? _) = false |- _ => apply Z.ltb_ge in H
         | H : (_ <=? _) = true |- _ => apply Z.leb_le in H
         | H : (_ <? _) = true |- _ => apply Z.ltb_lt in H
         | H : (_ <=? _) = false |- _ => apply Z.leb_gt in H
         end.

Ltac decide_tests :=
  repeat match goal with
         | |- context [?x <? ?y] =>
             first [ replace (x <? y) with true by (symmetry; apply Z.ltb_lt; lia)
                   | replace (x <? y) with false by (symmetry; apply Z.ltb_ge; lia) ]
         | |- context [?x <=? ?y] =>
             first [ replace (x <=? y) with true by (symmetry; apply Z.leb_le; lia)
                   | replace (x <=? y) with false by (symmetry; apply Z.leb_gt; lia) ]
         | |- context [?x =? ?y] =>
             first [ replace (x =? y) with true by (symmetry; apply Z.eqb_eq; lia)
                   | replace (x =? y) with false by (symmetry; apply Z.eqb_neq; lia) ]
         end.

Lemma DecodeRune_multibyte (s : string) (c : Z) (size : nat) :
  DecodeRuneInString s = (c, size) -> (1 < size)%nat ->
  take size s +:+ drop size s = s /\
  String.length (take size s) = size /\
  EncodeRune c = take size s /\
  (forall X, DecodeRuneInString (take size s +:+ X) = (c, size)) /\
  (forall X, drop size (take size s +:+ X) = X) /\
  (exists a bs, take size s = String a bs /\ 0x80 <= byte a) /\
  0x80 <= c.
Proof.
  destruct s as [|a0 r0]; [intros [= <- <-]; lia|].
  unfold DecodeRuneInString.
  destruct (first (byte a0)) as [| |sz lo hi] eqn:F;
    [intros [= <- <-]; lia | intros [= <- <-]; lia |].
  pose proof (byte_range a0) as R0.
  destruct r0 as [|a1 r1]; [intros [= <- <-]; lia|].
  pose proof (byte_range a1) as R1.
  destruct ((byte a1 <? lo) || (hi <? byte a1)) eqn:C1;
    [intros [= <- <-]; lia|].
  pose proof (eq_sym C1) as C1'. bool_cases.
  pose proof (first_lead _ _ _ _ F) as [(-> & L)|[(-> & L)|(-> & L)]];
    cbn [Nat.leb].
  - (* two bytes *)
    intros [= <- <-] _. cbn [take drop].
    assert (0x80 <= byte a0 mod 32 * 64 + byte a1 mod 64 <= 0x7FF)
      by (Z.div_mod_to_equations; lia).
    split; [reflexivity|]. split; [reflexivity|]. split; [|split; [|split; [reflexivity|split]]].
    + unfold EncodeRune. cbv zeta. decide_tests. cbn [andb orb].
      f_equal; [|f_equal]; apply chr_eq; Z.div_mod_to_equations; lia.
    + intros X. rewrite !append_cons. unfold DecodeRuneInString.
      by rewrite F, <- C1'.
    + exists a0, (String a1 EmptyString). split; [reflexivity|lia].
    + lia.
  - (* three bytes *)
    destruct r1 as [|a2 r2]; [intros [= <- <-]; lia|].
    pose proof (byte_range a2) as R2.
    destruct (negb (is_cont (byte a2))) eqn:C2; [intros [= <- <-]; lia|].
    pose proof (eq_sym C2) as C2'. unfold is_cont in C2. bool_cases.
    intros [= <- <-] _. cbn [take drop].
    assert (0x800 <= byte a0 mod 16 * 4096 + byte a1 mod 64 * 64
                     + byte a2 mod 64 <= 0xFFFF /\
            ~ (0xD800 <= byte a0 mod 16 * 4096 + byte a1 mod 64 * 64
                         + byte a2 mod 64 <= 0xDFFF))
      by (Z.div_mod_to_equations; lia).
    split; [reflexivity|]. split; [reflexivity|]. split; [|split; [|split; [reflexivity|split]]].
    + unfold EncodeRune, MaxRune. cbv zeta.
      set (c := byte a0 mod 16 * 4096 + byte a1 mod 64 * 64 + byte a2 mod 64) in *.
      replace ((0 <=? c) && (c <=? 0x7F)) with false
        by (symmetry; apply andb_false_iff; right; apply Z.leb_gt; lia).
      replace ((0 <=? c) && (c <=? 0x7FF)) with false
        by (symmetry; apply andb_false_iff; right; apply Z.leb_gt; lia).
      replace ((c <? 0) || (0x10FFFF <? c) || ((0xD800 <=? c) && (c <=? 0xDFFF)))
        with false.
      2:{ symmetry. rewrite !orb_false_iff, andb_false_iff, !Z.ltb_ge,
            !Z.leb_gt. lia. }
      replace (c <=? 0xFFFF) with true by (symmetry; apply Z.leb_le; lia).
      subst c.
      f_equal; [|f_equal; [|f_equal]]; apply chr_eq; Z.div_mod_to_equations; lia.
    + intros X. rewrite !append_cons. unfold DecodeRuneInString.
      by rewrite F, <- C1', <- C2'.
    + exists a0, (String a1 (String a2 EmptyString)). split; [reflexivity|lia].
    + lia.
  - (* four bytes *)
    destruct r1 as [|a2 r2]; [intros [= <- <-]; lia|].
    pose proof (byte_range a2) as R2.
    destruct (negb (is_cont (byte a2))) eqn:C2; [intros [= <- <-]; lia|].
    pose proof (eq_sym C2) as C2'. unfold is_cont in C2. bool_cases.
    destruct r2 as [|a3 r3]; [intros [= <- <-]; lia|].
    pose proof (byte_range a3) as R3.
    destruct (negb (is_cont (byte a3))) eqn:C3; [intros [= <- <-]; lia|].
    pose proof (eq_sym C3) as C3'. unfold is_cont in C3. bool_cases.
    intros [= <- <-] _. cbn [take drop].
    assert (0x10000 <= byte a0 mod 8 * 262144 + byte a1 mod 64 * 4096
                       + byte a2 mod 64 * 64 + byte a3 mod 64 <= 0x10FFFF)
      by (Z.div_mod_to_equations; lia).
    split; [reflexivity|]. split; [reflexivity|]. split; [|split; [|split; [reflexivity|split]]].
    + unfold EncodeRune, MaxRune. cbv zeta.
      set (c := byte a0 mod 8 * 262144 + byte a1 mod 64 * 4096
                + byte a2 mod 64 * 64 + byte a3 mod 64) in *.
      replace ((0 <=? c) && (c <=? 0x7F)) with false
        by (symmetry; apply andb_false_iff; right; apply Z.leb_gt; lia).
      replace ((0 <=? c) && (c <=? 0x7FF)) with false
        by (symmetry; apply andb_false_iff; right; apply Z.leb_gt; lia).
      replace ((c <? 0) || (0x10FFFF <? c) || ((0xD800 <=? c) && (c <=? 0xDFFF)))
        with false.
      2:{ symmetry. rewrite !orb_false_iff, andb_false_iff, !Z.ltb_ge,
            !Z.leb_gt. lia. }
      replace (c <=? 0xFFFF) with false by (symmetry; apply Z.leb_gt; lia).
      subst c.
      f_equal; [|f_equal; [|f_equal; [|f_equal]]]; apply chr_eq;
        Z.div_mod_to_equations; lia.
    + intros X. rewrite !append_cons. unfold DecodeRuneInString.
      by rewrite F, <- C1', <- C2', <- C3'.
    + exists a0, (String a1 (String a2 (String a3 EmptyString))).
      split; [reflexivity|lia].
    + lia.
Qed.

(** ** JSON strings: reading back what [appendString] wrote *)
Lemma unquote_escape_ascii (a : ascii) (X : string) (fuel : nat) :
  byte a < 0x80 ->
  json.unquote_go (S fuel) (json.escape_ascii a +:+ X)
  = match json.unquote_go fuel X with
    | Some (t, r) => Some (String a t, r)
    | None => None
    end.
Proof.
  destruct a as [b0 b1 b2 b3 b4 b5 b6 b7].
  destruct b7; [intros H; exfalso; revert H;
                destruct b0, b1, b2, b3, b4, b5, b6; by vm_compute|].
  intros _. destruct b0, b1, b2, b3, b4, b5, b6; reflexivity.
Qed.

Lemma escape_ascii_length (a : ascii) :
  (1 <= String.length (json.escape_ascii a))%nat.
Proof.
  unfold json.escape_ascii. cbv zeta.
  repeat match goal with
         | |- context [if ?c then _ else _] => destruct c
         end; simpl; lia.
Qed.

Lemma DecodeRune_size_pos (a : ascii) (s : string) (c : Z) (size : nat) :
  DecodeRuneInString (String a s) = (c, size) -> (1 <= size)%nat.
Proof.
  unfold DecodeRuneInString.
  repeat match goal with
         | |- context [match ?x with _ => _ end] => destruct x
         end; intros [= <- <-]; lia.
Qed.

(** One step of [unquote_go] on a byte that starts a multi-byte rune. *)
Lemma unquote_go_raw (a : ascii) (Y : string) (fuel : nat) :
  0x80 <= byte a ->
  json.unquote_go (S fuel) (String a Y)
  = let '(rr, size) := DecodeRuneInString (String a Y) in
    match json.unquote_go fuel (drop size (String a Y)) with
    | Some (t, rest') => Some (EncodeRune rr +:+ t, rest')
    | None => None
    end.
Proof.
  intros H. cbn [json.unquote_go]. unfold RuneSelf. cbv zeta.
  decide_tests. reflexivity.
Qed.

Lemma unquote_go_u202 (c : Z) (X : string) (fuel : nat) :
  c = 0x2028 \/ c = 0x2029 ->
  json.unquote_go (S fuel)
    ((String json.backslash "u202" +:+ String (json.hex (c mod 16)) EmptyString)
     +:+ X)
  = match json.unquote_go fuel X with
    | Some (t, r) => Some (EncodeRune c +:+ t, r)
    | None => None
    end.
Proof. intros [-> | ->]; reflexivity. Qed.

Lemma length_take_drop (n : nat) (s : string) :
  take n s +:+ drop n s = s ->
  String.length s = (String.length (take n s) + String.length (drop n s))%nat.
Proof. intros H. by rewrite <- length_append, H. Qed.

(** Reading back what [appendString] wrote between the quotes gives the
    source, when the source is valid UTF-8. *)
Lemma unquote_quote_go (n : nat) :
  forall (s : string) (fv f1 f2 : nat) (rest : string),
    (String.length s <= n)%nat ->
    (String.length s <= f1)%nat ->
    (String.length (json.quote_go f1 s) < f2)%nat ->
    valid_go fv s = true ->
    json.unquote_go f2 (json.quote_go f1 s +:+ String json.dquote rest)
    = Some (s, rest).
Proof.
  induction n as [|n IH]; intros [|a s1] fv f1 f2 rest Hn H1 H2 Hv;
    try (simpl in Hn; lia).
  - destruct f2; [simpl in H2; lia|]. by destruct f1.
  - destruct f2; [simpl in H2; lia|]. by destruct f1.
  - destruct f1 as [|f1]; [simpl in H1; lia|].
    destruct fv as [|fv]; [discriminate|].
    destruct f2 as [|f2]; [lia|].
    cbn [json.quote_go valid_go] in *.
    destruct (byte a <? RuneSelf) eqn:Ha.
    + (* an ASCII byte *)
      apply Z.ltb_lt in Ha. rewrite append_assoc.
      rewrite unquote_escape_ascii by exact Ha.
      rewrite length_append in H2. pose proof (escape_ascii_length a).
      rewrite (IH s1 fv f1 f2 rest); [reflexivity| | | |exact Hv];
        simpl in *; lia.
    + (* a multi-byte rune *)
      apply Z.ltb_ge in Ha. unfold RuneSelf in Ha.
      destruct (DecodeRuneInString (String a s1)) as [c size] eqn:D.
      pose proof (DecodeRune_size_pos _ _ _ _ D) as Hpos.
      destruct (Nat.eqb_spec size 1) as [->|Hne]; [discriminate|].
      assert (Hsize : (1 < size)%nat) by lia.
      destruct (DecodeRune_multibyte _ _ _ D Hsize)
        as (Hsplit & Hlen & Henc & Hdec & Hdrop & (a0 & bs & Htake & Ha0) & Hc).
      pose proof (length_take_drop _ _ Hsplit) as Hl.
      rewrite andb_false_r in *.
      assert (Hrec : forall f2',
                (String.length (json.quote_go f1 (drop size (String a s1))) < f2')%nat ->
                json.unquote_go f2'
                  (json.quote_go f1 (drop size (String a s1))
                   +:+ String json.dquote rest)
                = Some (drop size (String a s1), rest)).
      { intros f2' Hf. apply (IH _ fv); [| |exact Hf|exact Hv];
          simpl in *; lia. }
      destruct ((c =? 0x2028) || (c =? 0x2029)) eqn:Hsep.
      * apply orb_true_iff in Hsep. rewrite !Z.eqb_eq in Hsep.
        change (String json.backslash "u202" +:+
                String (json.hex (c mod 16))
                  (json.quote_go f1 (drop size (String a s1))))
          with ((String json.backslash "u202" +:+
                 String (json.hex (c mod 16)) EmptyString) +:+
                json.quote_go f1 (drop size (String a s1))) in *.
        rewrite append_assoc, unquote_go_u202 by exact Hsep.
        rewrite !length_append in H2.
        rewrite Hrec by (simpl in *; lia).
        by rewrite Henc, Hsplit.
      * rewrite append_assoc, Htake, append_cons.
        rewrite unquote_go_raw by exact Ha0.
        rewrite <- append_cons, <- Htake, Hdec, Hdrop.
        rewrite length_append in H2.
        rewrite Hrec by (simpl in *; lia).
        by rewrite Henc, Hsplit.
Qed.

Lemma append_nil_l (s : string) : EmptyString +:+ s = s.
Proof. reflexivity. Qed.

Lemma appendString_app (s rest : string) :
  json.appendString s +:+ rest
  = String json.dquote (json.quote_body s +:+ String json.dquote rest).
Proof.
  unfold json.appendString. by rewrite append_cons, append_assoc, append_cons.
Qed.

(** Reading a string literal written by [appendString]. *)
Lemma unquote_appendString (s rest : string) :
  ValidString s = true ->
  json.unquote (json.quote_body s +:+ String json.dquote rest) = Some (s, rest).
Proof.
  intros Hv. unfold json.unquote, json.quote_body.
  apply (unquote_quote_go (String.length s) s (String.length s));
    [lia | lia | | exact Hv].
  rewrite length_append. simpl. lia.
Qed.

Lemma read_value_string (f : nat) (d : Z) (s rest : string) :
  ValidString s = true ->
  json.read_value (S f) d (json.appendString s +:+ rest) = Some (json.Str s, rest).
Proof.
  intros Hv. rewrite appendString_app. cbn [json.read_value].
  change (json.skip_space (String json.dquote ?x)) with (String json.dquote x).
  cbv beta iota.
  change (byte json.dquote) with 34. cbv zeta.
  change (34 =? 123) with false. change (34 =? 91) with false.
  change (34 =? 34) with true. cbv iota.
  by rewrite unquote_appendString.
Qed.

Lemma read_value_object (f : nat) (d : Z) (k Y : string) :
  json.read_value (S f) d (String "{" (json.appendString k +:+ Y))
  = if json.maxNestingDepth <? d + 1 then None
    else
      match json.read_members f (d + 1) (json.appendString k +:+ Y) with
      | Some (ms, rest) => Some (json.Object ms, rest)
      | None => None
      end.
Proof.
  rewrite appendString_app. cbn [json.read_value].
  change (json.skip_space (String "{" ?x)) with (String "{"%char x).
  cbv beta iota. change (byte "{") with 123. cbv zeta.
  change (123 =? 123) with true. cbv iota.
  destruct (json.maxNestingDepth <? d + 1); [reflexivity|].
  change (json.skip_space (String json.dquote ?x)) with (String json.dquote x).
  reflexivity.
Qed.

Lemma read_members_more (f : nat) (d : Z) (k V : string) (v : json.value)
    (rest : string) :
  ValidString k = true ->
  json.read_value f d V = Some (v, String "," rest) ->
  json.read_members (S f) d (json.appendString k +:+ String ":" V)
  = match json.read_members f d rest with
    | Some (ms, r) => Some ((k, v) :: ms, r)
    | None => None
    end.
Proof.
  intros Hk HV. rewrite appendString_app. cbn [json.read_members].
  change (json.skip_space (String json.dquote ?x)) with (String json.dquote x).
  cbv beta iota. change (byte json.dquote =? 34) with true. cbv iota.
  rewrite unquote_appendString by exact Hk.
  change (json.skip_space (String ":" ?x)) with (String ":"%char x).
  cbv beta iota. rewrite HV.
  change (json.skip_space (String "," ?x)) with (String ","%char x).
  reflexivity.
Qed.

Lemma read_members_last (f : nat) (d : Z) (k V : string) (v : json.value)
    (rest : string) :
  ValidString k = true ->
  json.read_value f d V = Some (v, String "}" rest) ->
  json.read_members (S f) d (json.appendString k +:+ String ":" V)
  = Some ([(k, v)], rest).
Proof.
  intros Hk HV. rewrite appendString_app. cbn [json.read_members].
  change (json.skip_space (String json.dquote ?x)) with (String json.dquote x).
  cbv beta iota. change (byte json.dquote =? 34) with true. cbv iota.
  rewrite unquote_appendString by exact Hk.
  change (json.skip_space (String ":" ?x)) with (String ":"%char x).
  cbv beta iota. rewrite HV.
  change (json.skip_space (String "}" ?x)) with (String "}"%char x).
  reflexivity.
Qed.

(** ** JSON objects: reading back what [json.Marshal] wrote *)
Ltac sort_keys :=
  repeat (cbn [json.encode map fst snd json.sort_by_key json.insert_by_key
               json.join];
          match goal with
          | |- context [String.leb ?a ?b] =>
              let v := eval vm_compute in (String.leb a b) in
              change (String.leb a b) with v
          end; cbv iota).

(** The members of an object whose values are strings, read back. *)
Lemma read_members_string_more (f : nat) (d : Z) (k v rest : string) :
  ValidString k = true -> ValidString v = true ->
  json.read_members (S (S f)) d
    (json.appendString k +:+ String ":" (json.appendString v +:+ String "," rest))
  = match json.read_members (S f) d rest with
    | Some (ms, r) => Some ((k, json.Str v) :: ms, r)
    | None => None
    end.
Proof.
  intros Hk Hv. apply read_members_more; [exact Hk|].
  by apply read_value_string.
Qed.

Lemma read_members_string_last (f : nat) (d : Z) (k v rest : string) :
  ValidString k = true -> ValidString v = true ->
  json.read_members (S (S f)) d
    (json.appendString k +:+ String ":" (json.appendString v +:+ String "}" rest))
  = Some ([(k, json.Str v)], rest).
Proof.
  intros Hk Hv. apply read_members_last; [exact Hk|].
  by apply read_value_string.
Qed.

(** The body of a publication request, read back as a JSON value. *)
Lemma read_encode_postBody (did message createdAt : string) :
  ValidString did = true ->
  ValidString message = true ->
  ValidString createdAt = true ->
  json.read (json.encode (postBody did message createdAt))
  = Some (json.Object
            [("collection", json.Str "app.bsky.feed.post");
             ("record",
              json.Object [("$type", json.Str "app.bsky.feed.post");
                           ("createdAt", json.Str createdAt);
                           ("text", json.Str message)]);
             ("repo", json.Str did)],
          EmptyString).
Proof.
  intros Hd Hm Hc. unfold json.read, postBody. sort_keys.
  cbn [json.encode map fst snd json.sort_by_key json.insert_by_key json.join].
  repeat rewrite ?append_assoc, ?append_cons, ?append_nil_l.
  match goal with |- json.read_value (S (String.length ?b)) _ _ = _ =>
    assert (Hlen : (14 <= String.length b)%nat);
    [repeat (cbn [String.length]; rewrite ?length_append); lia|];
    generalize dependent (String.length b) end.
  intros F HF.
  do 10 (destruct F as [|F]; [lia|]). clear HF.
  rewrite read_value_object. change (json.maxNestingDepth <? 0 + 1) with false.
  cbv iota.
  rewrite read_members_string_more by reflexivity.
  assert (Hrecord : forall rest,
            json.read_value (S (S (S (S (S (S (S (S F)))))))) (0 + 1)
              (String "{"
                 (json.appendString "$type" +:+
                  String ":"
                    (json.appendString "app.bsky.feed.post" +:+
                     String ","
                       (json.appendString "createdAt" +:+
                        String ":"
                          (json.appendString createdAt +:+
                           String ","
                             (json.appendString "text" +:+
                              String ":"
                                (json.appendString message +:+ String "}" rest)))))))
            = Some (json.Object [("$type", json.Str "app.bsky.feed.post");
                                 ("createdAt", json.Str createdAt);
                                 ("text", json.Str message)], rest)).
  { intros rest. rewrite read_value_object.
    change (json.maxNestingDepth <? 0 + 1 + 1) with false. cbv iota.
    rewrite read_members_string_more by (reflexivity || assumption).
    rewrite read_members_string_more by (reflexivity || assumption).
    rewrite read_members_string_last by (reflexivity || assumption).
    reflexivity. }
  rewrite (read_members_more _ _ "record" _ _ _ eq_refl (Hrecord _)).
  rewrite read_members_string_last by (reflexivity || assumption).
  reflexivity.
Qed.

(** ** Timestamps are ASCII, hence valid UTF-8 *)

Lemma all_ascii_app (s t : string) :
  all_ascii s = true -> all_ascii t = true -> all_ascii (s +:+ t) = true.
Proof.
  intros Hs Ht. induction s as [|a s IH]; [exact Ht|].
  rewrite append_cons. simpl in *. apply andb_true_iff in Hs as [Ha Hs].
  by rewrite Ha, IH.
Qed.

Lemma all_ascii_valid (s : string) (fv : nat) :
  all_ascii s = true -> (String.length s <= fv)%nat -> valid_go fv s = true.
Proof.
  revert fv. induction s as [|a s IH]; intros fv Hs Hl; [by destruct fv|].
  destruct fv as [|fv]; [simpl in Hl; lia|].
  simpl in Hs. apply andb_true_iff in Hs as [Ha Hs].
  cbn [valid_go]. unfold RuneSelf. rewrite Ha. apply IH; [exact Hs|].
  simpl in Hl. lia.
Qed.

Lemma digit_ascii (d : Z) :
  0 <= d < 10 -> (byte (Str.digit d) <? 0x80) = true.
Proof.
  intros H. unfold Str.digit. fold (chr (48 + d)).
  rewrite byte_chr by lia. apply Z.ltb_lt. lia.
Qed.

Lemma digits_go_ascii (fuel : nat) (n : Z) (acc : string) :
  all_ascii acc = true -> all_ascii (Str.digits_go fuel n acc) = true.
Proof.
  revert n acc. induction fuel as [|fuel IH]; intros n acc Hacc.
  - simpl. rewrite digit_ascii by (apply Z.mod_pos_bound; lia). exact Hacc.
  - cbn [Str.digits_go]. cbv zeta.
    assert (Hacc' : all_ascii (String (Str.digit (n mod 10)) acc) = true).
    { simpl. rewrite digit_ascii by (apply Z.mod_pos_bound; lia). exact Hacc. }
    destruct (n <? 10); [exact Hacc'|]. by apply IH.
Qed.

Lemma repeat0_ascii (n : nat) (s : string) :
  all_ascii s = true -> all_ascii (Str.repeat0 n s) = true.
Proof. intros H. induction n as [|n IH]; [exact H|]. simpl. exact IH. Qed.

Lemma appendInt_ascii (x : Z) (width : nat) :
  all_ascii (time.appendInt x width) = true.
Proof.
  unfold time.appendInt. cbv zeta.
  assert (H : all_ascii
                (Str.repeat0 (width - String.length (Str.digits (Z.abs x)))
                   (Str.digits (Z.abs x))) = true).
  { apply repeat0_ascii. unfold Str.digits. by apply digits_go_ascii. }
  destruct (x <? 0); [|exact H]. simpl. exact H.
Qed.

Lemma Format_RFC3339_UTC_ascii (t : time.Time) :
  all_ascii (time.Format (time.UTC t) time.RFC3339) = true.
Proof.
  unfold time.Format, time.RFC3339.
  cbn [time.format_chunks time.format_chunk time.zone_offset time.UTC].
  change (0 =? 0) with true. cbv iota.
  repeat (apply all_ascii_app; [first [apply appendInt_ascii | reflexivity]|]).
  reflexivity.
Qed.

Lemma Format_RFC3339_UTC_valid (t : time.Time) :
  ValidString (time.Format (time.UTC t) time.RFC3339) = true.
Proof.
  unfold ValidString. apply all_ascii_valid; [|lia].
  apply Format_RFC3339_UTC_ascii.
Qed.

(** ** Decoded strings are valid UTF-8 *)

(** Enough fuel is enough: [valid_go] does not depend on it. *)
Lemma valid_go_fuel (n : nat) :
  forall (s : string) (f f' : nat),
    (String.length s <= n)%nat ->
    (String.length s <= f)%nat -> (String.length s <= f')%nat ->
    valid_go f s = valid_go f' s.
Proof.
  induction n as [|n IH]; intros [|a s] f f' Hn Hf Hf';
    try (simpl in Hn; lia); try (by destruct f, f').
  destruct f as [|f]; [simpl in Hf; lia|].
  destruct f' as [|f']; [simpl in Hf'; lia|].
  cbn [valid_go]. simpl in Hn, Hf, Hf'.
  destruct (byte a <? RuneSelf); [apply IH; lia|].
  destruct (DecodeRuneInString (String a s)) as [c size] eqn:D.
  pose proof (DecodeRune_size_pos _ _ _ _ D) as Hpos.
  destruct (Nat.eqb_spec size 1) as [->|Hne]; [reflexivity|].
  destruct (DecodeRune_multibyte _ _ _ D ltac:(lia)) as (Hsplit & Hlen & _).
  pose proof (length_take_drop _ _ Hsplit) as Hl. simpl in Hl.
  apply IH; lia.
Qed.

Lemma ValidString_ascii_cons (a : ascii) (t : string) :
  byte a < 0x80 -> ValidString t = true -> ValidString (String a t) = true.
Proof.
  intros Ha Ht. unfold ValidString. cbn [String.length valid_go].
  unfold RuneSelf. by replace (byte a <? 128) with true
    by (symmetry; apply Z.ltb_lt; lia).
Qed.

(** A complete multi-byte rune in front of a valid string. *)
Lemma ValidString_rune_app (bytes t : string) (c : Z) (size : nat) :
  (forall X, DecodeRuneInString (bytes +:+ X) = (c, size)) ->
  (forall X, drop size (bytes +:+ X) = X) ->
  (exists a bs, bytes = String a bs /\ 0x80 <= byte a) ->
  (1 < size)%nat ->
  ValidString t = true -> ValidString (bytes +:+ t) = true.
Proof.
  intros Hdec Hdrop (a & bs & -> & Ha) Hsize Ht. unfold ValidString.
  rewrite append_cons. cbn [String.length valid_go]. unfold RuneSelf.
  replace (byte a <? 128) with false by (symmetry; apply Z.ltb_ge; lia).
  rewrite <- append_cons, Hdec, Hdrop.
  destruct (Nat.eqb_spec size 1); [lia|].
  rewrite <- Ht.
  apply (valid_go_fuel (String.length t)); [lia| |lia].
  rewrite length_append. lia.
Qed.

Ltac split_tests :=
  repeat match goal with
         | |- context [?x <? ?y] => destruct (Z.ltb_spec x y)
         | |- context [?x <=? ?y] => destruct (Z.leb_spec x y)
         | |- context [?x =? ?y] => destruct (Z.eqb_spec x y)
         end.

Lemma first_two (b : Z) :
  0xC2 <= b <= 0xDF -> first b = fi_lead 2 0x80 0xBF.
Proof. intros H. unfold first. by decide_tests. Qed.

Lemma first_three (b : Z) :
  0xE0 <= b <= 0xEF ->
  first b = fi_lead 3 (if b =? 0xE0 then 0xA0 else 0x80)
                      (if b =? 0xED then 0x9F else 0xBF).
Proof.
  intros H. unfold first. split_tests; try lia; reflexivity.
Qed.

Lemma first_four (b : Z) :
  0xF0 <= b <= 0xF4 ->
  first b = fi_lead 4 (if b =? 0xF0 then 0x90 else 0x80)
                      (if b =? 0xF4 then 0x8F else 0xBF).
Proof.
  intros H. unfold first. split_tests; try lia; reflexivity.
Qed.

Ltac decide_div_tests :=
  repeat match goal with
         | |- context [?x <? ?y] =>
             first [ replace (x <? y) with true
                       by (symmetry; apply Z.ltb_lt; Z.div_mod_to_equations; lia)
                   | replace (x <? y) with false
                       by (symmetry; apply Z.ltb_ge; Z.div_mod_to_equations; lia) ]
         | |- context [?x <=? ?y] =>
             first [ replace (x <=? y) with true
                       by (symmetry; apply Z.leb_le; Z.div_mod_to_equations; lia)
                   | replace (x <=? y) with false
                       by (symmetry; apply Z.leb_gt; Z.div_mod_to_equations; lia) ]
         end.

(** The encoding of any rune is valid UTF-8, and stays so in front of a
    valid string. *)
Lemma ValidString_EncodeRune_app (r : Z) (t : string) :
  ValidString t = true -> ValidString (EncodeRune r +:+ t) = true.
Proof.
  intros Ht.
  assert (Hthree : forall c,
            0x800 <= c <= 0xFFFF -> ~ (0xD800 <= c <= 0xDFFF) ->
            ValidString
              (String (chr (0xE0 + c / 4096))
                 (String (chr (0x80 + (c / 64) mod 64))
                    (String (chr (0x80 + c mod 64)) EmptyString)) +:+ t) = true).
  { intros c Hc Hs.
    assert (Hlead : 0xE0 <= 0xE0 + c / 4096 <= 0xEF)
      by (Z.div_mod_to_equations; lia).
    apply (ValidString_rune_app _ t c 3);
      [| |eexists _, _; split; [reflexivity|]|lia|exact Ht].
    - intros X. rewrite !append_cons. unfold DecodeRuneInString.
      rewrite !byte_chr by (Z.div_mod_to_equations; lia).
      rewrite (first_three _ Hlead). unfold is_cont.
      destruct (Z.eqb_spec (0xE0 + c / 4096) 0xE0);
        destruct (Z.eqb_spec (0xE0 + c / 4096) 0xED); try lia;
        decide_div_tests; cbn [andb orb negb Nat.leb];
        (f_equal; Z.div_mod_to_equations; lia).
    - reflexivity.
    - rewrite byte_chr by lia. lia. }
  unfold EncodeRune. cbv zeta.
  destruct ((0 <=? r) && (r <=? 0x7F)) eqn:E1.
  { apply andb_true_iff in E1 as [? ?]. rewrite append_cons.
    apply ValidString_ascii_cons; [rewrite byte_chr; lia | exact Ht]. }
  destruct ((0 <=? r) && (r <=? 0x7FF)) eqn:E2.
  { apply andb_true_iff in E2 as [? ?]. apply andb_false_iff in E1.
    assert (0x80 <= r <= 0x7FF) by lia.
    assert (Hlead : 0xC2 <= 0xC0 + r / 64 <= 0xDF)
      by (Z.div_mod_to_equations; lia).
    apply (ValidString_rune_app _ t r 2);
      [| |eexists _, _; split; [reflexivity|]|lia|exact Ht].
    - intros X. rewrite !append_cons. unfold DecodeRuneInString.
      rewrite !byte_chr by (Z.div_mod_to_equations; lia).
      rewrite (first_two _ Hlead).
      decide_div_tests; cbn [andb orb negb Nat.leb].
      f_equal; Z.div_mod_to_equations; lia.
    - reflexivity.
    - rewrite byte_chr by lia. lia. }
  destruct ((r <? 0) || (MaxRune <? r) || ((0xD800 <=? r) && (r <=? 0xDFFF)))
    eqn:E3.
  { apply Hthree; unfold RuneError; lia. }
  unfold MaxRune in E3.
  apply orb_false_iff in E3 as [E3 E4]. apply orb_false_iff in E3 as [E3 E5].
  apply andb_false_iff in E1, E2, E4.
  destruct (Z.leb_spec r 0xFFFF).
  { apply Hthree; lia. }
  assert (0x10000 <= r <= 0x10FFFF) by lia.
  assert (Hlead : 0xF0 <= 0xF0 + r / 262144 <= 0xF4)
    by (Z.div_mod_to_equations; lia).
  apply (ValidString_rune_app _ t r 4);
    [| |eexists _, _; split; [reflexivity|]|lia|exact Ht].
  - intros X. rewrite !append_cons. unfold DecodeRuneInString.
    rewrite !byte_chr by (Z.div_mod_to_equations; lia).
    rewrite (first_four _ Hlead). unfold is_cont.
    destruct (Z.eqb_spec (0xF0 + r / 262144) 0xF0);
      destruct (Z.eqb_spec (0xF0 + r / 262144) 0xF4); try lia;
      decide_div_tests; cbn [andb orb negb Nat.leb];
      (f_equal; Z.div_mod_to_equations; lia).
  - reflexivity.
  - rewrite byte_chr by lia. lia.
Qed.

Lemma simple_escape_ascii (e a : ascii) :
  json.simple_escape e = Some a -> byte a < 0x80.
Proof.
  unfold json.simple_escape. cbv zeta.
  repeat match goal with
         | |- context [if ?c then _ else _] => destruct c eqn:?
         end; intros [= <-]; try (by vm_compute).
  bool_cases.
  repeat match goal with
         | H : (_ || _) = true |- _ => apply orb_true_iff in H as [H|H]
         | H : (_ =? _) = true |- _ => apply Z.eqb_eq in H
         end; lia.
Qed.

(** What [unquote_go] decodes is valid UTF-8. *)
Lemma unquote_go_valid (fuel : nat) :
  forall (s t rest : string),
    json.unquote_go fuel s = Some (t, rest) -> ValidString t = true.
Proof.
  induction fuel as [|fuel IH]; intros s t rest H; [discriminate|].
  cbn [json.unquote_go] in H. cbv zeta in H.
  assert (Hplain : forall r X,
            match json.unquote_go fuel X with
            | Some (t', rest') => Some (EncodeRune r +:+ t', rest')
            | None => None
            end = Some (t, rest) -> ValidString t = true).
  { intros r X HX.
    destruct (json.unquote_go fuel X) as [[t' rest']|] eqn:E; [|discriminate].
    injection HX as <- <-. apply ValidString_EncodeRune_app. by eapply IH. }
  destruct s as [|c s1]; [discriminate|].
  destruct (byte c =? 34); [by injection H as <- <-|].
  destruct (byte c =? 92).
  { destruct s1 as [|e s2]; [discriminate|].
    destruct (byte e =? 117).
    - destruct (json.hex4 s2) as [[rr s3]|]; [|discriminate].
      destruct (json.isSurrogate rr); [|by eapply Hplain].
      destruct s3 as [|e1 [|e2 s4]]; try (by eapply Hplain).
      destruct ((byte e1 =? 92) && (byte e2 =? 117)); [|by eapply Hplain].
      destruct (json.hex4 s4) as [[rr1 s5]|]; [|by eapply Hplain].
      destruct (json.utf16_DecodeRune rr rr1 =? RuneError); by eapply Hplain.
    - destruct (json.simple_escape e) as [a|] eqn:Ee; [|discriminate].
      destruct (json.unquote_go fuel s2) as [[t' rest']|] eqn:E; [|discriminate].
      injection H as <- <-. apply ValidString_ascii_cons.
      + by eapply simple_escape_ascii.
      + by eapply IH. }
  destruct (byte c <? 32); [discriminate|].
  destruct (Z.ltb_spec (byte c) RuneSelf) as [Hc|Hc].
  { destruct (json.unquote_go fuel s1) as [[t' rest']|] eqn:E; [|discriminate].
    injection H as <- <-. apply ValidString_ascii_cons; [exact Hc|].
    by eapply IH. }
  destruct (DecodeRuneInString (String c s1)) as [rr size].
  by eapply Hplain.
Qed.

Ltac read_cases H :=
  repeat match type of H with
         | context [match ?x with _ => _ end] =>
             lazymatch x with
             | json.read_value _ _ _ => fail
             | json.read_members _ _ _ => fail
             | json.read_elements _ _ _ => fail
             | json.unquote _ => fail
             | _ => destruct x; try discriminate H
             end
         end.

(** Every string of a value that was read is valid UTF-8. *)
Lemma read_valid (fuel : nat) :
  (forall d s v r,
     json.read_value fuel d s = Some (v, r) -> strings_valid v = true) /\
  (forall d s ms r,
     json.read_members fuel d s = Some (ms, r) ->
     forallb (fun kv => strings_valid (snd kv)) ms = true) /\
  (forall d s es r,
     json.read_elements fuel d s = Some (es, r) ->
     forallb strings_valid es = true).
Proof.
  induction fuel as [|fuel (IHv & IHm & IHe)]; [by repeat split|].
  split; [|split].
  - intros d s v r H. cbn [json.read_value] in H. cbv zeta in H.
    destruct (json.skip_space s) as [|c s1]; [discriminate|].
    destruct (byte c =? 123).
    { destruct (json.maxNestingDepth <? d + 1); [discriminate|].
      assert (Hm : forall X,
                match json.read_members fuel (d + 1) X with
                | Some (ms, rest) => Some (json.Object ms, rest)
                | None => None
                end = Some (v, r) -> strings_valid v = true).
      { intros X HX.
        destruct (json.read_members fuel (d + 1) X) as [[ms rest]|] eqn:E;
          [|discriminate].
        injection HX as <- <-. by eapply IHm. }
      destruct (json.skip_space s1) as [|c2 s2]; [by eapply Hm|].
      destruct (Ascii.ascii_dec c2 "}") as [->|Hne].
      - by injection H as <- <-.
      - revert H. destruct c2 as [[] [] [] [] [] [] [] []];
          try (by apply Hm); by destruct Hne. }
    destruct (byte c =? 91).
    { destruct (json.maxNestingDepth <? d + 1); [discriminate|].
      assert (He : forall X,
                match json.read_elements fuel (d + 1) X with
                | Some (es, rest) => Some (json.Array es, rest)
                | None => None
                end = Some (v, r) -> strings_valid v = true).
      { intros X HX.
        destruct (json.read_elements fuel (d + 1) X) as [[es rest]|] eqn:E;
          [|discriminate].
        injection HX as <- <-. by eapply IHe. }
      destruct (json.skip_space s1) as [|c2 s2]; [by eapply He|].
      destruct (Ascii.ascii_dec c2 "]") as [->|Hne].
      - by injection H as <- <-.
      - revert H. destruct c2 as [[] [] [] [] [] [] [] []];
          try (by apply He); by destruct Hne. }
    destruct (byte c =? 34).
    { destruct (json.unquote s1) as [[t rest]|] eqn:E; [|discriminate].
      injection H as <- <-. by eapply unquote_go_valid. }
    read_cases H; by injection H as <- <-.
  - intros d s ms r H. cbn [json.read_members] in H.
    destruct (json.skip_space s) as [|c s1]; [discriminate|].
    destruct (byte c =? 34); [|discriminate].
    destruct (json.unquote s1) as [[k s2]|]; [|discriminate].
    destruct (json.skip_space s2) as [|c3 s3]; [discriminate|].
    destruct (Ascii.ascii_dec c3 ":") as [->|Hne];
      [|exfalso; revert H; destruct c3 as [[] [] [] [] [] [] [] []];
        try discriminate; by destruct Hne].
    destruct (json.read_value fuel d s3) as [[v s4]|] eqn:Ev; [|discriminate].
    apply IHv in Ev.
    destruct (json.skip_space s4) as [|c5 s5]; [discriminate|].
    destruct (Ascii.ascii_dec c5 ",") as [->|Hne1].
    { destruct (json.read_members fuel d s5) as [[ms' rest]|] eqn:Em;
        [|discriminate].
      injection H as <- <-. simpl. rewrite Ev. by eapply IHm. }
    destruct (Ascii.ascii_dec c5 "}") as [->|Hne2].
    { injection H as <- <-. simpl. by rewrite Ev. }
    exfalso. revert H. destruct c5 as [[] [] [] [] [] [] [] []];
      try discriminate; by (destruct Hne1 || destruct Hne2).
  - intros d s es r H. cbn [json.read_elements] in H.
    destruct (json.read_value fuel d s) as [[v s1]|] eqn:Ev; [|discriminate].
    apply IHv in Ev.
    destruct (json.skip_space s1) as [|c2 s2]; [discriminate|].
    destruct (Ascii.ascii_dec c2 ",") as [->|Hne1].
    { destruct (json.read_elements fuel d s2) as [[es' rest]|] eqn:Ee;
        [|discriminate].
      injection H as <- <-. simpl. rewrite Ev. by eapply IHe. }
    destruct (Ascii.ascii_dec c2 "]") as [->|Hne2].
    { injection H as <- <-. simpl. by rewrite Ev. }
    exfalso. revert H. destruct c2 as [[] [] [] [] [] [] [] []];
      try discriminate; by (destruct Hne1 || destruct Hne2).
Qed.

Lemma zero_valid : forall t, goval_valid (json.zero t) = true.
Proof.
  fix IH 1. intros [|fields|elem]; [reflexivity| |reflexivity].
  cbn [json.zero goval_valid]. revert fields. fix IHf 1.
  intros [|[name ft] fields]; [reflexivity|].
  cbn [map forallb fst snd]. by rewrite IH, IHf.
Qed.

Lemma find_field_valid (key : string) (fields : list (string * json.goval))
    (name : string) (v : json.goval) :
  forallb (fun f => goval_valid (snd f)) fields = true ->
  json.find_field key fields = Some (name, v) -> goval_valid v = true.
Proof.
  intros Hf. unfold json.find_field.
  rewrite forallb_forall in Hf.
  destruct (find _ fields) as [f|] eqn:E1.
  - intros [= ->]. apply find_some in E1 as [Hin _]. by apply (Hf _ Hin).
  - intros E2. apply find_some in E2 as [Hin _]. by apply (Hf _ Hin).
Qed.

Lemma set_field_valid (name : string) (v : json.goval)
    (fields : list (string * json.goval)) :
  goval_valid v = true ->
  forallb (fun f => goval_valid (snd f)) fields = true ->
  forallb (fun f => goval_valid (snd f)) (json.set_field name v fields) = true.
Proof.
  intros Hv. induction fields as [|[n w] fs IH]; [done|].
  cbn [forallb snd json.set_field]. intros H.
  apply andb_true_iff in H as [Hw Hfs].
  destruct (String.eqb n name); cbn [forallb snd].
  - by rewrite Hv, Hfs.
  - by rewrite Hw, IH.
Qed.

(** Assigning a value whose strings are valid to a valid target gives a
    valid target. *)
Lemma assign_valid :
  forall (j : json.value) (t : json.gotype) (cur : json.goval),
    strings_valid j = true -> goval_valid cur = true ->
    goval_valid (fst (json.assign j t cur)) = true.
Proof.
  fix IH 1. intros [|b|n|s|elems|members] t cur Hj Hcur.
  - destruct t; done.
  - done.
  - done.
  - destruct t; done.
  - destruct t as [| |et]; try done.
    cbn [json.assign].
    match goal with
    | |- context [?g elems] => is_fix g; set (go := g)
    end.
    enough (H : forallb goval_valid (fst (go elems)) = true).
    { by destruct (go elems). }
    cbn [strings_valid] in Hj. revert elems Hj. fix IHl 1.
    intros [|e l] Hj; [reflexivity|].
    cbn [forallb] in Hj. apply andb_true_iff in Hj as [He Hl].
    specialize (IH e et (json.zero et) He (zero_valid et)).
    specialize (IHl l Hl).
    cbn [go]. fold go.
    destruct (json.assign e et (json.zero et)) as [v err].
    destruct (go l) as [vs err']. cbn [fst forallb] in *.
    by rewrite IH, IHl.
  - destruct t as [|ftypes|]; try done.
    cbn [json.assign].
    match goal with
    | |- context [?g members ?f0] => is_fix g; set (go := g); set (fields0 := f0)
    end.
    enough (H : forallb (fun f => goval_valid (snd f)) (fst (go members fields0))
                = true).
    { by destruct (go members fields0). }
    assert (H0 : forallb (fun f => goval_valid (snd f)) fields0 = true).
    { subst fields0. by destruct cur. }
    clearbody fields0. cbn [strings_valid] in Hj.
    revert members Hj fields0 H0. fix IHm 1.
    intros [|[k jv] ms] Hj fields Hf; [exact Hf|].
    cbn [forallb snd] in Hj. apply andb_true_iff in Hj as [Hjv Hms].
    cbn [go]. fold go.
    destruct (json.find_field k ftypes) as [[name ft]|]; [|by apply IHm].
    set (curf := match json.find_field name fields with
                 | Some (_, w) => w
                 | None => json.zero ft
                 end).
    assert (Hcurf : goval_valid curf = true).
    { subst curf. destruct (json.find_field name fields) as [[n w]|] eqn:E.
      - by eapply find_field_valid.
      - apply zero_valid. }
    specialize (IH jv ft curf Hjv Hcurf).
    destruct (json.assign jv ft curf) as [v err]. cbn [fst] in IH.
    specialize (IHm ms Hms (json.set_field name v fields)
                  (set_field_valid _ _ _ IH Hf)).
    by destruct (go ms (json.set_field name v fields)).
Qed.

Lemma Decode_valid (body : string) (t : json.gotype) (cur : json.goval) :
  goval_valid cur = true ->
  goval_valid (fst (json.Decode body t cur)) = true.
Proof.
  intros Hcur. unfold json.Decode.
  destruct (json.skip_space body); [exact Hcur|].
  unfold json.read.
  destruct (json.read_value _ 0 body) as [[j rest]|] eqn:E; [|exact Hcur].
  apply assign_valid; [|exact Hcur].
  by eapply (proj1 (read_valid _)).
Qed.

Lemma field_string_valid (name : string) (v : json.goval) :
  goval_valid v = true -> ValidString (field_string name v) = true.
Proof.
  intros Hv. unfold field_string. destruct v as [|fs|]; try reflexivity.
  destruct (json.find_field name fs) as [[n [s| |]]|] eqn:E; try reflexivity.
  by apply (find_field_valid _ _ _ _ Hv E).
Qed.

Lemma decode_AuthResponse_valid (body : string) :
  ValidString (Did (fst (decode_AuthResponse body))) = true.
Proof.
  unfold decode_AuthResponse.
  pose proof (Decode_valid body AuthResponse_type (json.zero AuthResponse_type)
                (zero_valid _)) as H.
  destruct (json.Decode body AuthResponse_type _) as [v err].
  cbn [fst Did]. by apply field_string_valid.
Qed.

Lemma Choices_valid (v : json.goval) :
  goval_valid v = true -> forallb ValidString (Choices v) = true.
Proof.
  intros Hv. unfold Choices. destruct v as [|fs|]; try reflexivity.
  destruct (json.find_field "choices" fs) as [[n [|  |l]]|] eqn:E;
    try reflexivity.
  pose proof (find_field_valid _ _ _ _ Hv E) as Hl. cbn [goval_valid] in Hl.
  clear E. induction l as [|c l IH]; [reflexivity|].
  cbn [forallb map] in *. apply andb_true_iff in Hl as [Hc Hl].
  rewrite (IH Hl), andb_true_r.
  destruct c as [|cfs|]; try reflexivity.
  destruct (json.find_field "message" cfs) as [[n' m]|] eqn:Em;
    [|reflexivity].
  apply field_string_valid. by apply (find_field_valid _ _ _ _ Hc Em).
Qed.

Lemma decode_response_valid (body : string) :
  forallb ValidString (fst (decode_response body)) = true.
Proof.
  unfold decode_response.
  pose proof (Decode_valid body response_type (json.zero response_type)
                (zero_valid _)) as H.
  destruct (json.Decode body response_type _) as [v err].
  cbn [fst]. by apply Choices_valid.
Qed.

(** The post [getPost] returns is valid UTF-8. *)
Lemma getPost_valid now w st post st' :
  getPost now w st = (Return post, st') -> ValidString post = true.
Proof.
  rewrite getPost_eq, makeOpenAIRequest_eq. cbv zeta.
  destruct (String.eqb _ EmptyString); [by intros [= <- _]|].
  destruct (network w _) as [e|resp]; [by intros [= <- _]|].
  destruct (http.StatusCode resp =? 200); [|by intros [= <- _]].
  pose proof (decode_response_valid (http.RespBody resp)) as Hv.
  destruct (decode_response (http.RespBody resp)) as [[|c cs] [e|]];
    try (by intros [= <- _]).
  intros [= <- _]. cbn [fst forallb] in Hv. by apply andb_true_iff in Hv as [? _].
Qed.

(** The account identifier of a session [authenticate] returns is valid
    UTF-8. *)
Lemma authenticate_valid identifier password w st a :
  fst (authenticate identifier password w st) = Return (Some a, None) ->
  ValidString (Did a) = true.
Proof.
  rewrite authenticate_eq. cbv zeta.
  destruct (network w _) as [e|resp]; [discriminate|].
  destruct (http.StatusCode resp =? 200).
  - pose proof (decode_AuthResponse_valid (http.RespBody resp)) as Hv.
    destruct (decode_AuthResponse (http.RespBody resp)) as [a' [e|]];
      [discriminate|].
    by intros [= <-].
  - by destruct (decode_ErrorResponse (http.RespBody resp)) as [r [e|]].
Qed.

(** Every publication request of a run carries an account identifier and
    a message that are valid UTF-8, and the second reading of the clock. *)
Lemma run_post_request (w : World) (req : http.Request) :
  In req (requests (snd (run w))) -> http.URL req = postURL ->
  exists accessToken did message,
    req = post_request accessToken did message
            (time.Format (time.UTC (clock w 1)) time.RFC3339) /\
    ValidString did = true /\ ValidString message = true.
Proof.
  intros Hin Hurl.
  destruct (run_cases w) as [Hr | [Hr | (e & He & Hafter)]];
    [by rewrite Hr in Hin | by rewrite Hr in Hin |].
  destruct (run_body w e He Hafter) as (post & G & Hget & HG & Hrun).
  apply getPost_valid in Hget.
  cbv zeta in Hrun. rewrite Hrun in Hin. cbn [snd] in Hin.
  pose proof (after_getPost_shape post w (saw G (state_at_body e))) as Hshape.
  cbv zeta in Hshape. cbn [env ticks trace saw state_at_body] in Hshape.
  rewrite !app_nil_r in Hshape.
  rewrite requests_rev, <- in_rev in Hin.
  assert (HinG : ~ In req (requests G)).
  { intros H. destruct HG as [HG|HG]; rewrite HG in H; [done|].
    destruct H as [<-|[]]. done. }
  destruct Hshape as [(_ & _ & Ht) | [(_ & _ & _ & Ht)
      | [(_ & _ & err & _ & _ & Ht) | (_ & _ & a & Ha & Hpost)]]];
    [| | |destruct Hpost as [(err & _ & _ & Ht) | (_ & Ht)]];
    rewrite Ht, ?app_comm_cons, ?app_assoc, requests_app, in_app_iff in Hin;
    (destruct Hin as [Hin|Hin]; [|done]); simpl in Hin.
  - done.
  - done.
  - destruct Hin as [<-|[]]. done.
  - destruct Hin as [<-|[<-|[]]]; [|done].
    eexists _, _, _. split; [reflexivity|]. split; [|exact Hget].
    by eapply (authenticate_valid _ _ w (initial w)).
  - destruct Hin as [<-|[<-|[]]]; [|done].
    eexists _, _, _. split; [reflexivity|]. split; [|exact Hget].
    by eapply (authenticate_valid _ _ w (initial w)).
Qed.


(** ** The body of a publication request, read back (claim C8) *)

(** C8, as amended.  For every access token, and for every account
    identifier and message that are valid UTF-8, the body of the request
    [postMessage] sends is one JSON object which, read back, has exactly
    the members [repo] (the account identifier), [collection]
    ("app.bsky.feed.post") and [record], the latter an object with exactly
    the members [$type] ("app.bsky.feed.post"), [text] (the message) and
    [createdAt] (the timestamp), in some order.  The identifiers and
    messages a run passes to [postMessage] are valid UTF-8, so this holds
    of every publication request of every run. *)
Theorem C8_post_body_round_trip (w : World) :
  (forall accessToken did message st,
     utf8.ValidString did = true ->
     utf8.ValidString message = true ->
     let createdAt :=
       time.Format (time.UTC (clock w (ticks st))) time.RFC3339 in
     let req := post_request accessToken did message createdAt in
     requests (trace (snd (postMessage accessToken did message w st)))
     = req :: requests (trace st) /\
     exists members record,
       json.read (http.Body req) = Some (json.Object members, EmptyString) /\
       members ≡ₚ [("repo", json.Str did);
                   ("collection", json.Str "app.bsky.feed.post");
                   ("record", json.Object record)] /\
       record ≡ₚ [("$type", json.Str "app.bsky.feed.post");
                  ("text", json.Str message);
                  ("createdAt", json.Str createdAt)]) /\
  (forall req,
     In req (requests (snd (run w))) -> http.URL req = postURL ->
     exists did message members record,
       json.read (http.Body req) = Some (json.Object members, EmptyString) /\
       members ≡ₚ [("repo", json.Str did);
                   ("collection", json.Str "app.bsky.feed.post");
                   ("record", json.Object record)] /\
       record ≡ₚ [("$type", json.Str "app.bsky.feed.post");
                  ("text", json.Str message);
                  ("createdAt",
                   json.Str (time.Format (time.UTC (clock w 1)) time.RFC3339))]).
Proof.
  assert (Hread : forall accessToken did message t,
            utf8.ValidString did = true ->
            utf8.ValidString message = true ->
            let createdAt := time.Format (time.UTC t) time.RFC3339 in
            exists members record,
              json.read
                (http.Body (post_request accessToken did message createdAt))
              = Some (json.Object members, EmptyString) /\
              members ≡ₚ [("repo", json.Str did);
                          ("collection", json.Str "app.bsky.feed.post");
                          ("record", json.Object record)] /\
              record ≡ₚ [("$type", json.Str "app.bsky.feed.post");
                         ("text", json.Str message);
                         ("createdAt", json.Str createdAt)]).
  { intros accessToken did message t Hd Hm. cbv zeta. eexists _, _. split.
    - cbn [http.Body post_request].
      apply read_encode_postBody; [exact Hd | exact Hm |].
      apply Format_RFC3339_UTC_valid.
    - split.
      + etrans; [apply Permutation_skip, Permutation_swap|].
        apply Permutation_swap.
      + apply Permutation_skip, Permutation_swap. }
  split.
  - intros accessToken did message st Hd Hm. cbv zeta. split.
    + destruct (postMessage_effect accessToken did message w st)
        as (r & evs & -> & Hreq).
      cbn [snd]. by rewrite trace_saw, requests_app, Hreq.
    + by apply Hread.
  - intros req Hin Hurl.
    destruct (run_post_request w req Hin Hurl)
      as (accessToken & did & message & -> & Hd & Hm).
    exists did, message. by apply Hread.
Qed.

Lemma C8_post_body_round_trip_witness :
  let message :=
    "1041 days until the end of the term. Hang in there! #TheFinalTrumpDown" in
  exists members record,
    json.read
      (http.Body
         (post_request "jwt-1" "did:plc:bot" message "2026-03-15T00:00:07Z"))
    = Some (json.Object members, EmptyString) /\
    members ≡ₚ [("repo", json.Str "did:plc:bot");
                ("collection", json.Str "app.bsky.feed.post");
                ("record", json.Object record)] /\
    record ≡ₚ [("$type", json.Str "app.bsky.feed.post");
               ("text", json.Str message);
               ("createdAt", json.Str "2026-03-15T00:00:07Z")].
Proof.
  exact (proj2 (proj1 (C8_post_body_round_trip world_2026) "jwt-1" "did:plc:bot"
                  "1041 days until the end of the term. Hang in there! #TheFinalTrumpDown"
                  (state_at_body env_production) eq_refl eq_refl)).
Defined.

(** C8 as stated fails on a message that is not valid UTF-8: the byte
    0xFF is written as the escape of U+FFFD, so the text read back is the
    three-byte encoding of U+FFFD, not the message. *)
Lemma C8_counterexample :
  let message := String (utf8.chr 255) EmptyString in
  json.read
    (http.Body (post_request "jwt-1" "did:plc:bot" message "2026-03-15T00:00:07Z"))
  = Some (json.Object
            [("collection", json.Str "app.bsky.feed.post");
             ("record",
              json.Object
                [("$type", json.Str "app.bsky.feed.post");
                 ("createdAt", json.Str "2026-03-15T00:00:07Z");
                 ("text", json.Str (utf8.EncodeRune utf8.RuneError))]);
             ("repo", json.Str "did:plc:bot")],
          EmptyString) /\
  utf8.EncodeRune utf8.RuneError <> message /\
  utf8.ValidString message = false.
Proof. by vm_compute. Qed.

(** ** The three calls, one by one *)

(** X1.  [postMessage] reads the clock once, sends exactly one request and
    returns [nil] exactly when the endpoint answers with status 200,
    whatever the body of that answer; it prints "Post successful!" exactly
    then and nothing otherwise.  A transport failure is reported as
    "post request failed: ...", any other status with the decoded error
    body and the status, or as a decoding failure. *)
Theorem postMessage_nil_iff_status_200
    (accessToken did message : string) (w : World) (st : State) :
  let req :=
    post_request accessToken did message
      (time.Format (time.UTC (clock w (ticks st))) time.RFC3339) in
  let r := postMessage accessToken did message w st in
  let accepted :=
    match network w req with
    | inr resp => http.StatusCode resp =? 200
    | inl _ => false
    end in
  snd r
  = saw ((if accepted then [Stdout ("Post successful!" +:+ newline)] else [])
         ++ [Sent req]) (tick st) /\
  (fst r = Return None <-> accepted = true) /\
  (forall e, network w req = inl e ->
     fst r = Return (Some ("post request failed: " +:+ e))) /\
  (forall resp, network w req = inr resp -> http.StatusCode resp <> 200 ->
     fst r
     = Return
         (Some
            match decode_ErrorResponse (http.RespBody resp) with
            | (er, None) =>
                "post error (" +:+ Str.itoa (http.StatusCode resp) +:+ "): "
                +:+ Error er +:+ " - " +:+ Message er
            | (_, Some e) => "failed to decode error response: " +:+ e
            end)).
Proof.
  cbv zeta. rewrite postMessage_eq. cbv zeta.
  destruct (network w _) as [e|resp] eqn:Hnet.
  { cbn [fst snd app]. repeat split; try done.
    - intros e' [= <-]. reflexivity. }
  destruct (http.StatusCode resp =? 200) eqn:Hs.
  { cbn [fst snd app]. repeat split; try done.
    intros resp' [= <-] Hne. apply Z.eqb_eq in Hs. contradiction. }
  destruct (decode_ErrorResponse (http.RespBody resp)) as [er [e|]] eqn:Hd;
    cbn [fst snd app]; repeat split; try done;
    intros resp' [= <-] _; by rewrite Hd.
Qed.

Lemma postMessage_nil_iff_status_200_witness :
  fst (postMessage "jwt-1" "did:plc:bot" "hello" world_post_rejected
         (initial world_post_rejected))
  = Return (Some "post error (400): InvalidRequest - Record/text must not be longer than 300 graphemes").
Proof.
  etrans.
  - apply (proj2 (proj2 (proj2 (postMessage_nil_iff_status_200 "jwt-1"
             "did:plc:bot" "hello" world_post_rejected
             (initial world_post_rejected))))
             (http.mkResponse 400
                (json.encode
                   (json.GoMap
                      [("error", json.GoString "InvalidRequest");
                       ("message",
                        json.GoString "Record/text must not be longer than 300 graphemes")]))));
      [reflexivity | by vm_compute].
  - by vm_compute.
Defined.

(** X2.  [authenticate] sends one POST to the session endpoint, with the
    JSON content type and no [Authorization] header.  It returns a
    session exactly when the answer has status 200 and its body decodes;
    in every other case it returns [nil] with an error, never both and
    never neither.  It prints "Authentication successful!" exactly when
    it returns a session.  A transport failure is reported as
    "auth request failed: ...", an undecodable 200 answer as
    "failed to decode auth response: ...". *)
Theorem authenticate_session_iff_decoded_200
    (identifier password : string) (w : World) (st : State) :
  let req := auth_request identifier password in
  let r := authenticate identifier password w st in
  let session :=
    match network w req with
    | inr resp =>
        if http.StatusCode resp =? 200 then
          match decode_AuthResponse (http.RespBody resp) with
          | (a, None) => Some a
          | (_, Some _) => None
          end
        else None
    | inl _ => None
    end in
  snd r
  = saw ((if session is Some _
          then [Stdout ("Authentication successful!" +:+ newline)] else [])
         ++ [Sent req]) st /\
  (forall a, fst r = Return (Some a, None) <-> session = Some a) /\
  ((exists e, fst r = Return (None, Some e)) <-> session = None) /\
  (forall e, network w req = inl e ->
     fst r = Return (None, Some ("auth request failed: " +:+ e))) /\
  (forall resp a e,
     network w req = inr resp -> http.StatusCode resp = 200 ->
     decode_AuthResponse (http.RespBody resp) = (a, Some e) ->
     fst r = Return (None, Some ("failed to decode auth response: " +:+ e))) /\
  http.Method req = "POST" /\ http.URL req = authURL /\
  http.Header req !! "Content-Type" = Some "application/json" /\
  http.Header req !! "Authorization" = None.
Proof.
  cbv zeta. rewrite authenticate_eq. cbv zeta.
  assert (Hreq : http.Method (auth_request identifier password) = "POST" /\
                 http.URL (auth_request identifier password) = authURL /\
                 http.Header (auth_request identifier password) !! "Content-Type"
                 = Some "application/json" /\
                 http.Header (auth_request identifier password) !! "Authorization"
                 = None).
  { by cbn. }
  destruct Hreq as (Hm & Hu & Hc & Ha).
  destruct (network w _) as [e|resp] eqn:Hnet.
  { cbn [fst snd app]. repeat split; try done; try assumption.
    all: try (by eexists).
    all: try (intros e' [= <-]; reflexivity).
    all: idtac. }
  destruct (http.StatusCode resp =? 200) eqn:Hs.
  - destruct (decode_AuthResponse (http.RespBody resp)) as [a [e|]] eqn:Hd;
      cbn [fst snd app]; repeat split; try done; try assumption;
      try congruence; try (by eexists).
    all: try (intros resp' a' e' [= <-] _ Hd'; rewrite Hd in Hd'; congruence).
    all: try (intros [e' He']; discriminate).
  - apply Z.eqb_neq in Hs.
    destruct (decode_ErrorResponse (http.RespBody resp)) as [er [e|]] eqn:Hd;
      cbn [fst snd app]; repeat split; try done; try assumption;
      try (by eexists);
      try (intros resp' a' e' [= <-] Hs'; contradiction).
Qed.

Lemma authenticate_session_iff_decoded_200_witness :
  fst (authenticate "bot.bsky.social" "app-password" world_no_session
         (initial world_no_session))
  = Return (None, Some "auth request failed: dial tcp: i/o timeout").
Proof.
  apply (proj1 (proj2 (proj2 (proj2 (authenticate_session_iff_decoded_200
           "bot.bsky.social" "app-password" world_no_session
           (initial world_no_session)))))).
  reflexivity.
Defined.

(** X3.  [makeOpenAIRequest] returns a [nil] error exactly when the API key
    is set, the service answers 200 and the body decodes to at least one
    choice; what it returns then is the content of the first choice, the
    others being ignored.  With an error the string returned is always
    empty.  It always returns, having sent one request, or none when the
    API key is missing. *)
Theorem makeOpenAIRequest_first_choice (prompt : string) (w : World) (st : State) :
  let apiKey := getenv (env st) "OPENAI_API_KEY" in
  let req := openai_request apiKey prompt in
  let r := makeOpenAIRequest prompt w st in
  (forall content,
     fst r = Return (content, None) <->
     apiKey <> EmptyString /\
     exists resp others,
       network w req = inr resp /\ http.StatusCode resp = 200 /\
       decode_response (http.RespBody resp) = (content :: others, None)) /\
  (forall content e, fst r = Return (content, Some e) -> content = EmptyString) /\
  (exists content err, fst r = Return (content, err)) /\
  snd r = (if String.eqb apiKey EmptyString then st else saw [Sent req] st).
Proof.
  cbv zeta. rewrite makeOpenAIRequest_eq. cbv zeta.
  destruct (String.eqb_spec (getenv (env st) "OPENAI_API_KEY") EmptyString)
    as [Hk|Hk].
  { cbn [fst snd]. split; [|split; [|split]].
    - intros content. split; [discriminate|]. by intros [Hne _].
    - by intros content e [= <- _].
    - by eexists _, _.
    - reflexivity. }
  destruct (network w _) as [e|resp] eqn:Hnet.
  { cbn [fst snd]. split; [|split; [|split]].
    - intros content. split; [discriminate|].
      intros (_ & resp & others & Hr & _). discriminate.
    - by intros content e' [= <- _].
    - by eexists _, _.
    - reflexivity. }
  destruct (http.StatusCode resp =? 200) eqn:Hs.
  - apply Z.eqb_eq in Hs.
    destruct (decode_response (http.RespBody resp)) as [[|c cs] [e|]] eqn:Hd;
      cbn [fst snd]; (split; [|split; [|split]]);
      try reflexivity; try (by eexists _, _);
      try (by intros content e' [= <- _]);
      try (intros content e' [= _ Hf]; discriminate);
      intros content.
    + split; [discriminate|].
      intros (_ & resp' & others & [= <-] & _ & Hd'). congruence.
    + split; [discriminate|].
      intros (_ & resp' & others & [= <-] & _ & Hd'). congruence.
    + split; [discriminate|].
      intros (_ & resp' & others & [= <-] & _ & Hd'). congruence.
    + split.
      * intros [= <-]. split; [exact Hk|]. by exists resp, cs.
      * intros (_ & resp' & others & [= <-] & _ & Hd'). congruence.
  - apply Z.eqb_neq in Hs.
    cbn [fst snd]. split; [|split; [|split]].
    + intros content. split; [discriminate|].
      intros (_ & resp' & others & [= <-] & Hs' & _). contradiction.
    + by intros content e' [= <- _].
    + by eexists _, _.
    + reflexivity.
Qed.

Lemma makeOpenAIRequest_first_choice_witness :
  fst (makeOpenAIRequest (getPost_prompt march_2026) world_2026
         (initial world_2026))
  = Return ("1041 days until the end of the term. Hang in there! #TheFinalTrumpDown", None).
Proof.
  apply (proj1 (makeOpenAIRequest_first_choice (getPost_prompt march_2026)
                  world_2026 (initial world_2026))).
  split; [by vm_compute|].
  exists (http.mkResponse 200 completion_body), [].
  split; [reflexivity|]. split; [reflexivity|]. by vm_compute.
Defined.

(** ** A run as a function of what the world answers *)

Lemma run_unfold (w : World) :
  run w =
  match env_at_main w with
  | None => (1, [Logged "Error loading .env file"])
  | Some e =>
      if time.After (clock w 0) exitDate then (0, [])
      else
        let r := main_body (clock w 0) w (state_at_body e) in
        (exit_code (fst r), rev (trace (snd r)))
  end.
Proof.
  unfold run. rewrite program_eq.
  destruct (env_at_main w) as [e|]; [|reflexivity].
  destruct (time.After (clock w 0) exitDate); [reflexivity|].
  cbv zeta. by destruct (main_body (clock w 0) w (state_at_body e)).
Qed.

Lemma eqb_empty_false (s : string) :
  s <> EmptyString -> String.eqb s EmptyString = false.
Proof. intros H. by apply String.eqb_neq. Qed.

Lemma getPost_outcome (w : World) (st : State) :
  getPost (clock w 0) w st
  = (Return (fst (generation_outcome w (env st))),
     saw (rev (snd (generation_outcome w (env st)))) st).
Proof.
  rewrite getPost_eq, makeOpenAIRequest_eq. unfold generation_outcome.
  cbv zeta.
  assert (Hsaw : saw [] st = st) by by destruct st.
  destruct (String.eqb _ EmptyString); [reflexivity|].
  destruct (network w _) as [err|resp]; [by rewrite saw_saw|].
  destruct (http.StatusCode resp =? 200); [|by rewrite saw_saw].
  destruct (decode_response _) as [[|c cs] [err|]];
    by rewrite ?saw_saw.
Qed.

Lemma after_getPost_outcome (post : string) (w : World) (st : State) :
  ticks st = 1%nat ->
  let r := after_getPost post w st in
  let o := publication_outcome w (env st) post in
  exit_code (fst r) = fst o /\
  trace (snd r)
  = rev (Stdout ("Generated post: " +:+ post) :: snd o) ++ trace st.
Proof.
  intros Ht. cbv zeta. rewrite after_getPost_eq. unfold publication_outcome.
  cbv zeta.
  destruct (String.eqb _ EmptyString); [done|].
  destruct (String.eqb _ EmptyString); [done|].
  rewrite authenticate_eq. cbv zeta.
  destruct (network w _) as [err|resp]; [done|].
  destruct (http.StatusCode resp =? 200).
  - destruct (decode_AuthResponse _) as [a [err|]]; [done|].
    rewrite postMessage_eq. cbv zeta. cbn [ticks saw]. rewrite Ht.
    destruct (network w _) as [err|presp]; [done|].
    destruct (http.StatusCode presp =? 200); [done|].
    by destruct (decode_ErrorResponse _) as [r [err|]].
  - by destruct (decode_ErrorResponse _) as [r [err|]].
Qed.

(** The whole of a run. *)
Lemma run_eq (w : World) :
  run w =
  match env_at_main w with
  | None => (1, [Logged "Error loading .env file"])
  | Some e =>
      if time.After (clock w 0) exitDate then (0, [])
      else
        let '(post, G) := generation_outcome w e in
        let '(code, T) := publication_outcome w e post in
        (code, G ++ Stdout ("Generated post: " +:+ post) :: T)
  end.
Proof.
  rewrite run_unfold.
  destruct (env_at_main w) as [e|]; [|reflexivity].
  destruct (time.After (clock w 0) exitDate); [reflexivity|].
  cbv zeta. rewrite main_body_eq, getPost_outcome. cbn [env state_at_body].
  destruct (generation_outcome w e) as [post G]. cbn [fst snd].
  destruct (after_getPost_outcome post w (saw (rev G) (state_at_body e)) eq_refl)
    as [Hcode Htr].
  rewrite Hcode, Htr. cbn [env saw state_at_body trace].
  destruct (publication_outcome w e post) as [code T]. cbn [fst snd].
  rewrite app_nil_r, rev_app_distr, !rev_involutive. reflexivity.
Qed.

Lemma last_app_cons {A} (l1 l2 : list A) (x : A) :
  last (l1 ++ x :: l2) = last (x :: l2).
Proof.
  induction l1 as [|a l1 IH]; [reflexivity|].
  cbn [app]. destruct (l1 ++ x :: l2) eqn:E; [by destruct l1|]. exact IH.
Qed.

Ltac publication_cases :=
  unfold publication_outcome; cbv zeta;
  repeat match goal with
  | |- context [String.eqb ?s EmptyString] =>
      destruct (String.eqb_spec s EmptyString)
  | |- context [network ?w ?r] => destruct (network w r) eqn:?
  | |- context [http.StatusCode ?r =? 200] =>
      destruct (Z.eqb_spec (http.StatusCode r) 200)
  | |- context [decode_AuthResponse ?b] =>
      destruct (decode_AuthResponse b) as [? [?|]] eqn:?
  | |- context [decode_ErrorResponse ?b] =>
      destruct (decode_ErrorResponse b) as [? [?|]] eqn:?
  end.

Ltac generation_cases :=
  unfold generation_outcome; cbv zeta;
  repeat match goal with
  | |- context [String.eqb ?s EmptyString] =>
      destruct (String.eqb_spec s EmptyString)
  | |- context [network ?w ?r] => destruct (network w r) eqn:?
  | |- context [http.StatusCode ?r =? 200] =>
      destruct (Z.eqb_spec (http.StatusCode r) 200)
  | |- context [decode_response ?b] =>
      destruct (decode_response b) as [[|? ?] [?|]] eqn:?
  end.

Ltac in_cases H :=
  first [ destruct H as [<-|[<-|[]]]
        | destruct H as [<-|[]]
        | destruct H as [] ].

(** ** Whole runs *)

(** X4.  The run in which everything succeeds.  When the run gets past the
    [.env] step and the retirement check, the three variables are set
    and each of the three services answers 200 with a body that decodes,
    the run is exactly: the text-generation request, the post printed,
    the authentication request, "Authentication successful!", the
    publication request carrying the token and identifier of the session
    and the content of the first choice, "Post successful!" and
    "Message posted successfully!", with exit status 0. *)
Theorem successful_run (w : World) (e : gmap string string)
    (generated session published : http.Response)
    (content : string) (others : list string) (a : AuthResponse) :
  env_at_main w = Some e ->
  time.After (clock w 0) exitDate = false ->
  let apiKey := getenv e "OPENAI_API_KEY" in
  let username := getenv e "BLUESKY_USERNAME" in
  let password := getenv e "BLUESKY_PASSWORD" in
  let greq := openai_request apiKey (getPost_prompt (clock w 0)) in
  let areq := auth_request username password in
  let preq :=
    post_request (AccessJwt a) (Did a) content
      (time.Format (time.UTC (clock w 1)) time.RFC3339) in
  apiKey <> EmptyString ->
  username <> EmptyString ->
  password <> EmptyString ->
  network w greq = inr generated -> http.StatusCode generated = 200 ->
  decode_response (http.RespBody generated) = (content :: others, None) ->
  network w areq = inr session -> http.StatusCode session = 200 ->
  decode_AuthResponse (http.RespBody session) = (a, None) ->
  network w preq = inr published -> http.StatusCode published = 200 ->
  run w
  = (0, [Sent greq;
         Stdout ("Generated post: " +:+ content);
         Sent areq;
         Stdout ("Authentication successful!" +:+ newline);
         Sent preq;
         Stdout ("Post successful!" +:+ newline);
         Stdout ("Message posted successfully!" +:+ newline)]).
Proof.
  intros He Hafter apiKey username password greq areq preq Hk Hu Hp
    Hg Hgs Hgd Ha Has Had Hpn Hps.
  rewrite run_unfold, He, Hafter. cbv zeta.
  rewrite main_body_eq, getPost_eq, makeOpenAIRequest_eq. cbv zeta.
  cbn [env state_at_body]. fold apiKey. fold greq.
  rewrite (eqb_empty_false _ Hk), Hg, Hgs, Hgd. cbv iota beta.
  change (200 =? 200) with true. cbv iota.
  rewrite after_getPost_eq. cbv zeta. cbn [env saw state_at_body].
  fold username password.
  rewrite (eqb_empty_false _ Hu), (eqb_empty_false _ Hp).
  rewrite authenticate_eq. cbv zeta. fold areq. rewrite Ha, Has, Had.
  change (200 =? 200) with true. cbv iota.
  rewrite postMessage_eq. cbv zeta. cbn [ticks saw state_at_body].
  fold preq. rewrite Hpn, Hps. change (200 =? 200) with true. cbv iota.
  reflexivity.
Qed.

Lemma successful_run_witness :
  run world_2026
  = (0, [Sent (openai_request "sk-test" (getPost_prompt march_2026));
         Stdout "Generated post: 1041 days until the end of the term. Hang in there! #TheFinalTrumpDown";
         Sent (auth_request "bot.bsky.social" "app-password");
         Stdout ("Authentication successful!" +:+ newline);
         Sent (post_request "jwt-1" "did:plc:bot"
                 "1041 days until the end of the term. Hang in there! #TheFinalTrumpDown"
                 "2026-03-15T00:00:07Z");
         Stdout ("Post successful!" +:+ newline);
         Stdout ("Message posted successfully!" +:+ newline)]).
Proof.
  apply (successful_run world_2026 env_production
           (http.mkResponse 200 completion_body)
           (http.mkResponse 200 session_body)
           (http.mkResponse 200 "{}")
           "1041 days until the end of the term. Hang in there! #TheFinalTrumpDown"
           [] {| AccessJwt := "jwt-1"; Did := "did:plc:bot" |});
    try reflexivity; by vm_compute.
Defined.

(** X5.  A publishing error aborts the run.  When [authenticate] returns a
    session and [postMessage] returns the error [err], the run ends with
    the log line "Failed to post message: err" and status 1, after
    "Authentication successful!" was printed; neither "Post successful!"
    nor "Message posted successfully!" is printed. *)
Theorem publishing_failure_is_fatal (w : World) (e : gmap string string)
    (post : string) (a : AuthResponse) (err : string) :
  env_at_main w = Some e ->
  time.After (clock w 0) exitDate = false ->
  let username := getenv e "BLUESKY_USERNAME" in
  let password := getenv e "BLUESKY_PASSWORD" in
  username <> EmptyString ->
  password <> EmptyString ->
  fst (getPost (clock w 0) w (state_at_body e)) = Return post ->
  (exists st,
     fst (authenticate username password w st) = Return (Some a, None)) ->
  (exists st,
     ticks st = 1%nat /\
     fst (postMessage (AccessJwt a) (Did a) post w st) = Return (Some err)) ->
  fst (run w) = 1 /\
  last (snd (run w)) = Some (Logged ("Failed to post message: " +:+ err)) /\
  In (Stdout ("Authentication successful!" +:+ newline)) (snd (run w)) /\
  ~ In (Stdout ("Post successful!" +:+ newline)) (snd (run w)) /\
  ~ In (Stdout ("Message posted successfully!" +:+ newline)) (snd (run w)).
Proof.
  intros He Hafter username password Hu Hp Hget (st1 & Hauth) (st2 & Ht & Hpost).
  rewrite run_eq, He, Hafter.
  rewrite getPost_outcome in Hget. cbn [fst env state_at_body] in Hget.
  injection Hget as Hget.
  destruct (generation_outcome w e) as [post' G] eqn:HG. cbn [fst] in Hget.
  subst post'.
  assert (HGs : forall s, ~ In (Stdout (String "P" s)) G /\
                          ~ In (Stdout (String "M" s)) G).
  { intros s. revert HG. generation_cases; intros [= <- <-]; cbn [In];
      split; intros H; repeat destruct H as [H|H]; done. }
  revert Hauth Hpost. rewrite authenticate_eq, postMessage_eq. cbv zeta.
  rewrite Ht. unfold publication_outcome. cbv zeta. fold username password.
  rewrite (eqb_empty_false _ Hu), (eqb_empty_false _ Hp).
  destruct (network w (auth_request username password)) as [aerr|resp];
    [done|].
  destruct (http.StatusCode resp =? 200).
  2:{ by destruct (decode_ErrorResponse _) as [r [derr|]]. }
  destruct (decode_AuthResponse _) as [a' [derr|]]; [done|].
  cbn [fst]. intros [= ->].
  destruct (network w _) as [perr|presp].
  { cbn [fst snd]. intros [= <-]. rewrite last_app_cons. cbn [app last].
    split; [done|]. split; [done|].
    rewrite !in_app_iff. cbn [In].
    split; [by auto|]. 
    split; intros [H|H]; try (by apply (HGs _) in H);
      repeat destruct H as [H|H]; done. }
  destruct (http.StatusCode presp =? 200); [done|].
  destruct (decode_ErrorResponse _) as [r [derr|]];
    cbn [fst snd]; intros [= <-]; rewrite last_app_cons; cbn [app last];
    (split; [done|]); (split; [done|]);
    rewrite !in_app_iff; cbn [In];
    (split; [by auto|]);
    split; intros [H|H]; try (by apply (HGs _) in H);
      repeat destruct H as [H|H]; done.
Qed.

Lemma publishing_failure_is_fatal_witness :
  fst (run world_post_rejected) = 1 /\
  last (snd (run world_post_rejected))
  = Some (Logged "Failed to post message: post error (400): InvalidRequest - Record/text must not be longer than 300 graphemes") /\
  ~ In (Stdout ("Message posted successfully!" +:+ newline))
      (snd (run world_post_rejected)).
Proof.
  destruct (publishing_failure_is_fatal world_post_rejected env_production
              "1041 days until the end of the term. Hang in there! #TheFinalTrumpDown"
              {| AccessJwt := "jwt-1"; Did := "did:plc:bot" |}
              "post error (400): InvalidRequest - Record/text must not be longer than 300 graphemes")
    as (Hcode & Hlast & _ & _ & Hnot).
  - reflexivity.
  - reflexivity.
  - by vm_compute.
  - by vm_compute.
  - by vm_compute.
  - exists (initial world_post_rejected). by vm_compute.
  - exists (state_at_body env_production). split; [reflexivity|]. by vm_compute.
  - exact (conj Hcode (conj Hlast Hnot)).
Defined.

(** X6.  The exit status of a run is 0 or 1.  It is 1 exactly when the last
    thing the run does is write a log line, and 0 exactly when the run
    does nothing at all or ends by printing "Message posted
    successfully!".  That line is printed only by a run that exits 0 and
    whose request to the publication endpoint was answered with status
    200. *)
Theorem exit_status_and_last_event (w : World) :
  let success := Stdout ("Message posted successfully!" +:+ newline) in
  (fst (run w) = 0 \/ fst (run w) = 1) /\
  (fst (run w) = 1 <-> exists msg, last (snd (run w)) = Some (Logged msg)) /\
  (fst (run w) = 0 <->
   snd (run w) = [] \/ last (snd (run w)) = Some success) /\
  (In success (snd (run w)) ->
   fst (run w) = 0 /\
   exists preq published,
     In preq (requests (snd (run w))) /\ http.URL preq = postURL /\
     network w preq = inr published /\ http.StatusCode published = 200).
Proof.
  cbv zeta. rewrite run_eq.
  destruct (env_at_main w) as [e|].
  2:{ cbn [fst snd last In].
      split; [by auto|]. split; [split; [intros _; by eexists | done]|].
      split; [split; [done | intros [H|H]; done]|].
      intros [H|[]]; done. }
  destruct (time.After (clock w 0) exitDate).
  { cbn [fst snd last In].
    split; [by auto|]. split; [split; [done | by intros [msg ?]]|].
    split; [split; [by auto | done]|]. done. }
  destruct (generation_outcome w e) as [post G] eqn:HG.
  destruct (publication_outcome w e post) as [code T] eqn:HT.
  cbn [fst snd]. rewrite last_app_cons.
  assert (HGs : ~ In (Stdout ("Message posted successfully!" +:+ newline)) G).
  { revert HG. generation_cases; intros [= <- <-]; cbn [In]; intros H;
      repeat destruct H as [H|H]; done. }
  assert (Hne : G ++ Stdout ("Generated post: " +:+ post) :: T <> [])
    by by destruct G.
  revert HT. publication_cases; intros [= <- <-]; cbn [app last].
  all: split; [by auto|].
  all: split; [split; [try done; intros _; by eexists | try done; by intros [msg ?]]|].
  all: split; [split; [try done; by auto | intros [H|H]; done]|].
  all: rewrite in_app_iff; cbn [In]; intros H.
  all: try (exfalso; repeat destruct H as [H|H]; done).
  all: split; [reflexivity|].
  all: eexists _, _; split; [|split; [|split]]; [| |eassumption|assumption];
         [|reflexivity].
  all: rewrite requests_app, in_app_iff; right; cbn; by auto.
Qed.

(** X15.  A run does nothing at all exactly when it got past the [.env]
    step and started after the cutoff, and it then exits 0: every other
    run prints or logs something, so no run fails silently. *)
Theorem silent_exactly_when_retired (w : World) :
  (snd (run w) = [] <->
   env_at_main w <> None /\ time.After (clock w 0) exitDate = true) /\
  (snd (run w) = [] -> fst (run w) = 0).
Proof.
  rewrite run_eq.
  destruct (env_at_main w) as [e|].
  2:{ split; [split; [done|by intros [? _]]|done]. }
  destruct (time.After (clock w 0) exitDate).
  { split; [done|]. by intros _. }
  destruct (generation_outcome w e) as [post G].
  destruct (publication_outcome w e post) as [code T].
  cbn [fst snd].
  split; [split; [|by intros [_ ?]]|]; intros H; by destruct G.
Qed.

(** X7.  Every request of a run is a POST with the JSON content type, sent
    by a run that got past the [.env] step and the retirement check, and
    is one of three: the text-generation request, for the prompt of the
    start-up time, with the API key as bearer token, the key being set;
    the authentication request, with no [Authorization] header, both
    credentials being set; or the publication request, which carries the
    token and the identifier decoded from the 200 answer to this run's
    authentication request and the post [getPost] returned. *)
Theorem requests_of_a_run (w : World) (req : http.Request) :
  In req (requests (snd (run w))) ->
  http.Method req = "POST" /\
  http.Header req !! "Content-Type" = Some "application/json" /\
  exists e,
    env_at_main w = Some e /\
    time.After (clock w 0) exitDate = false /\
    let apiKey := getenv e "OPENAI_API_KEY" in
    let username := getenv e "BLUESKY_USERNAME" in
    let password := getenv e "BLUESKY_PASSWORD" in
    let areq := auth_request username password in
    (req = openai_request apiKey (getPost_prompt (clock w 0)) /\
     apiKey <> EmptyString /\
     http.Header req !! "Authorization" = Some ("Bearer " +:+ apiKey)) \/
    (req = areq /\ username <> EmptyString /\ password <> EmptyString /\
     http.Header req !! "Authorization" = None) \/
    (exists session a post,
       network w areq = inr session /\
       http.StatusCode session = 200 /\
       decode_AuthResponse (http.RespBody session) = (a, None) /\
       fst (getPost (clock w 0) w (state_at_body e)) = Return post /\
       req = post_request (AccessJwt a) (Did a) post
               (time.Format (time.UTC (clock w 1)) time.RFC3339) /\
       http.Header req !! "Authorization"
       = Some ("Bearer " +:+ AccessJwt a)).
Proof.
  rewrite run_eq.
  destruct (env_at_main w) as [e|]; [|by intros []].
  destruct (time.After (clock w 0) exitDate) eqn:Hafter; [by intros []|].
  pose proof (getPost_outcome w (state_at_body e)) as Hget.
  apply (f_equal fst) in Hget. cbn [fst env state_at_body] in Hget.
  destruct (generation_outcome w e) as [post G] eqn:HG.
  destruct (publication_outcome w e post) as [code T] eqn:HT.
  cbn [fst snd] in *.
  change (G ++ Stdout ("Generated post: " +:+ post) :: T)
    with (G ++ [Stdout ("Generated post: " +:+ post)] ++ T).
  rewrite !requests_app. cbn [requests omap app]. rewrite in_app_iff.
  intros [Hin|Hin].
  - revert HG Hin. generation_cases; intros [= <- <-]; cbn; intros Hin;
      in_cases Hin.
    all: split; [reflexivity|]; split; [reflexivity|].
    all: exists e; split; [reflexivity|]; split; [reflexivity|]; left.
    all: split; [reflexivity|]; split; [assumption|reflexivity].
  - revert HT Hin. publication_cases; intros [= <- <-]; cbn; intros Hin;
      in_cases Hin.
    all: split; [reflexivity|]; split; [reflexivity|].
    all: exists e; split; [reflexivity|]; split; [reflexivity|]; right.
    all: try (left; split; [reflexivity|]; split; [assumption|];
              split; [assumption|reflexivity]).
    all: right; eexists _, _, post.
    all: split; [eassumption|]; split; [assumption|]; split; [eassumption|].
    all: split; [exact Hget|]; split; reflexivity.
Qed.

Lemma requests_of_a_run_witness :
  let req :=
    post_request "jwt-1" "did:plc:bot"
      "1041 days until the end of the term. Hang in there! #TheFinalTrumpDown"
      "2026-03-15T00:00:07Z" in
  In req (requests (snd (run world_2026))) /\
  http.Method req = "POST" /\
  http.Header req !! "Content-Type" = Some "application/json".
Proof.
  cbv zeta.
  assert (Hin : In (post_request "jwt-1" "did:plc:bot"
                      "1041 days until the end of the term. Hang in there! #TheFinalTrumpDown"
                      "2026-03-15T00:00:07Z")
                   (requests (snd (run world_2026)))).
  { vm_compute. tauto. }
  split; [exact Hin|].
  destruct (requests_of_a_run world_2026 _ Hin) as (Hm & Hc & _).
  exact (conj Hm Hc).
Defined.

(** X8.  In production the [.env] file is not consulted: with [ENVIRONMENT]
    set to "production" the run is the same whatever the file holds, and
    whether it exists or not. *)
Theorem production_ignores_dotenv (w : World)
    (d : option (gmap string string)) :
  getenv (environ w) "ENVIRONMENT" = "production" ->
  run (mkWorld (environ w) d (clock w) (network w)) = run w.
Proof.
  intros Hprod. rewrite !run_eq. unfold env_at_main.
  cbn [environ dotenv clock network]. rewrite Hprod.
  change (String.eqb "production" "production") with true. cbv iota.
  reflexivity.
Qed.

Lemma production_ignores_dotenv_witness :
  run (mkWorld env_production (Some dotenv_other_account)
         (clock_of march_2026 march_2026_later) network_ok)
  = run world_2026.
Proof.
  apply (production_ignores_dotenv world_2026 (Some dotenv_other_account)).
  by vm_compute.
Defined.

Lemma beside_authentication_app (tr1 tr2 : list event) :
  beside_authentication (tr1 ++ tr2)
  = beside_authentication tr1 ++ beside_authentication tr2.
Proof. apply List.filter_app. Qed.

(** X9.  The credentials reach the session endpoint only.  Two runs that
    differ in the two credential variables alone (each set in both or in
    neither), with the same clock and a network that answers both alike,
    exit with the same status and agree on everything but the
    authentication request: the same text-generation and publication
    requests, headers and bodies included, and the same output and log,
    in the same order. *)
Theorem credentials_reach_only_the_session_endpoint (w1 w2 : World) :
  same_except_credentials (environ w1) (environ w2) ->
  match dotenv w1, dotenv w2 with
  | Some d1, Some d2 => same_except_credentials d1 d2
  | None, None => True
  | _, _ => False
  end ->
  (forall n, clock w1 n = clock w2 n) ->
  (forall e1 e2,
     env_at_main w1 = Some e1 -> env_at_main w2 = Some e2 ->
     (getenv e1 "BLUESKY_USERNAME" = EmptyString
      <-> getenv e2 "BLUESKY_USERNAME" = EmptyString) /\
     (getenv e1 "BLUESKY_PASSWORD" = EmptyString
      <-> getenv e2 "BLUESKY_PASSWORD" = EmptyString) /\
     network w1 (auth_request (getenv e1 "BLUESKY_USERNAME")
                   (getenv e1 "BLUESKY_PASSWORD"))
     = network w2 (auth_request (getenv e2 "BLUESKY_USERNAME")
                     (getenv e2 "BLUESKY_PASSWORD"))) ->
  (forall req, http.URL req <> authURL -> network w1 req = network w2 req) ->
  fst (run w1) = fst (run w2) /\
  beside_authentication (snd (run w1)) = beside_authentication (snd (run w2)).
Proof.
  intros Henv Hdot Hclock Hcred Hnet.
  assert (Hmain : match env_at_main w1, env_at_main w2 with
                  | Some e1, Some e2 => same_except_credentials e1 e2
                  | None, None => True
                  | _, _ => False
                  end).
  { unfold env_at_main.
    rewrite (getenv_same _ _ "ENVIRONMENT" Henv) by done.
    destruct (String.eqb (getenv (environ w2) "ENVIRONMENT") "production");
      [exact Henv|].
    destruct (dotenv w1) as [d1|], (dotenv w2) as [d2|]; try done.
    by apply same_except_credentials_union. }
  rewrite !run_eq.
  destruct (env_at_main w1) as [e1|] eqn:E1, (env_at_main w2) as [e2|] eqn:E2;
    try done.
  rewrite <- Hclock.
  destruct (time.After (clock w1 0) exitDate); [done|].
  assert (HG : generation_outcome w1 e1 = generation_outcome w2 e2).
  { unfold generation_outcome. cbv zeta.
    rewrite (getenv_same e1 e2 "OPENAI_API_KEY" Hmain) by done.
    rewrite <- Hclock. by rewrite (Hnet (openai_request _ _)). }
  rewrite <- HG. destruct (generation_outcome w1 e1) as [post G].
  destruct (Hcred e1 e2 eq_refl eq_refl) as (Hu & Hp & Hauth).
  assert (HT : fst (publication_outcome w1 e1 post)
               = fst (publication_outcome w2 e2 post) /\
               beside_authentication (snd (publication_outcome w1 e1 post))
               = beside_authentication (snd (publication_outcome w2 e2 post))).
  { unfold publication_outcome. cbv zeta.
    destruct (String.eqb_spec (getenv e1 "BLUESKY_USERNAME") EmptyString);
      destruct (String.eqb_spec (getenv e2 "BLUESKY_USERNAME") EmptyString);
      try (exfalso; tauto); [done|].
    destruct (String.eqb_spec (getenv e1 "BLUESKY_PASSWORD") EmptyString);
      destruct (String.eqb_spec (getenv e2 "BLUESKY_PASSWORD") EmptyString);
      try (exfalso; tauto); [done|].
    rewrite Hauth.
    destruct (network w2 (auth_request _ _)) as [err|resp]; [done|].
    destruct (http.StatusCode resp =? 200).
    2:{ by destruct (decode_ErrorResponse _) as [r [err|]]. }
    destruct (decode_AuthResponse _) as [a [err|]]; [done|].
    rewrite <- Hclock. rewrite (Hnet (post_request _ _ _ _)) by done.
    destruct (network w2 _) as [err|presp]; [done|].
    destruct (http.StatusCode presp =? 200); [done|].
    by destruct (decode_ErrorResponse _) as [r [err|]]. }
  destruct HT as [Hcode HT].
  destruct (publication_outcome w1 e1 post) as [c1 T1].
  destruct (publication_outcome w2 e2 post) as [c2 T2].
  cbn [fst snd] in *. split; [exact Hcode|].
  change (G ++ ?x :: ?T) with (G ++ [x] ++ T).
  by rewrite !beside_authentication_app, HT.
Qed.

Lemma credentials_reach_only_the_session_endpoint_witness :
  getenv (environ world_2026) "BLUESKY_PASSWORD"
  <> getenv (environ world_2026_other_account) "BLUESKY_PASSWORD" /\
  fst (run world_2026) = fst (run world_2026_other_account) /\
  beside_authentication (snd (run world_2026))
  = beside_authentication (snd (run world_2026_other_account)).
Proof.
  split; [by vm_compute|].
  apply credentials_reach_only_the_session_endpoint.
  - intros key Hu Hp. cbn [environ world_2026 world_2026_other_account].
    unfold env_other_account. by rewrite !lookup_insert_ne.
  - exact I.
  - reflexivity.
  - intros e1 e2 [= <-] [= <-]. by vm_compute.
  - reflexivity.
Defined.

Lemma beside_generation_app (tr1 tr2 : list event) :
  beside_generation (tr1 ++ tr2)
  = beside_generation tr1 ++ beside_generation tr2.
Proof. apply List.filter_app. Qed.

Lemma same_except_api_key_union (e1 e2 d1 d2 : gmap string string) :
  same_except_api_key e1 e2 ->
  same_except_api_key d1 d2 ->
  same_except_api_key (e1 ∪ d1) (e2 ∪ d2).
Proof.
  intros He Hd key Hk. by rewrite !lookup_union, (He key), (Hd key).
Qed.

(** X16.  The API key reaches the text-generation service only.  Two runs
    that differ in [OPENAI_API_KEY] alone (set in both), with the same
    clock and a network that answers both alike, exit with the same
    status and agree on everything but the text-generation request: the
    same authentication and publication requests and the same output and
    log, in the same order. *)
Theorem api_key_reaches_only_the_generation_service (w1 w2 : World) :
  same_except_api_key (environ w1) (environ w2) ->
  match dotenv w1, dotenv w2 with
  | Some d1, Some d2 => same_except_api_key d1 d2
  | None, None => True
  | _, _ => False
  end ->
  (forall n, clock w1 n = clock w2 n) ->
  (forall e1 e2,
     env_at_main w1 = Some e1 -> env_at_main w2 = Some e2 ->
     getenv e1 "OPENAI_API_KEY" <> EmptyString /\
     getenv e2 "OPENAI_API_KEY" <> EmptyString /\
     forall prompt,
       network w1 (openai_request (getenv e1 "OPENAI_API_KEY") prompt)
       = network w2 (openai_request (getenv e2 "OPENAI_API_KEY") prompt)) ->
  (forall req, http.URL req <> openaiURL -> network w1 req = network w2 req) ->
  fst (run w1) = fst (run w2) /\
  beside_generation (snd (run w1)) = beside_generation (snd (run w2)).
Proof.
  intros Henv Hdot Hclock Hkey Hnet.
  assert (Hmain : match env_at_main w1, env_at_main w2 with
                  | Some e1, Some e2 => same_except_api_key e1 e2
                  | None, None => True
                  | _, _ => False
                  end).
  { unfold env_at_main, getenv. rewrite (Henv "ENVIRONMENT") by done.
    destruct (String.eqb (default EmptyString (environ w2 !! "ENVIRONMENT"))
                "production"); [exact Henv|].
    destruct (dotenv w1) as [d1|], (dotenv w2) as [d2|]; try done.
    by apply same_except_api_key_union. }
  rewrite !run_eq.
  destruct (env_at_main w1) as [e1|] eqn:E1, (env_at_main w2) as [e2|] eqn:E2;
    try done.
  rewrite <- Hclock.
  destruct (time.After (clock w1 0) exitDate); [done|].
  destruct (Hkey e1 e2 eq_refl eq_refl) as (Hk1 & Hk2 & Hgen).
  assert (HG : fst (generation_outcome w1 e1) = fst (generation_outcome w2 e2)
               /\ beside_generation (snd (generation_outcome w1 e1))
                  = beside_generation (snd (generation_outcome w2 e2))).
  { unfold generation_outcome. cbv zeta.
    rewrite (eqb_empty_false _ Hk1), (eqb_empty_false _ Hk2).
    rewrite <- Hclock, Hgen.
    destruct (network w2 _) as [err|resp]; [done|].
    destruct (http.StatusCode resp =? 200); [|done].
    by destruct (decode_response _) as [[|c cs] [err|]]. }
  destruct HG as [Hpost HG].
  destruct (generation_outcome w1 e1) as [post G1].
  destruct (generation_outcome w2 e2) as [post' G2].
  cbn [fst snd] in Hpost, HG. subst post'.
  assert (HT : publication_outcome w1 e1 post = publication_outcome w2 e2 post).
  { unfold publication_outcome, getenv. cbv zeta.
    rewrite (Hmain "BLUESKY_USERNAME"), (Hmain "BLUESKY_PASSWORD") by done.
    destruct (String.eqb _ EmptyString); [reflexivity|].
    destruct (String.eqb _ EmptyString); [reflexivity|].
    rewrite (Hnet (auth_request _ _)) by done.
    destruct (network w2 (auth_request _ _)) as [err|resp]; [reflexivity|].
    destruct (http.StatusCode resp =? 200); [|reflexivity].
    destruct (decode_AuthResponse _) as [a [err|]]; [reflexivity|].
    rewrite <- Hclock. by rewrite (Hnet (post_request _ _ _ _)). }
  rewrite HT. destruct (publication_outcome w2 e2 post) as [code T].
  cbn [fst snd]. split; [reflexivity|].
  by rewrite !beside_generation_app, HG.
Qed.

Lemma api_key_reaches_only_the_generation_service_witness :
  getenv (environ world_2026) "OPENAI_API_KEY"
  <> getenv (environ world_2026_other_key) "OPENAI_API_KEY" /\
  fst (run world_2026) = fst (run world_2026_other_key) /\
  beside_generation (snd (run world_2026))
  = beside_generation (snd (run world_2026_other_key)).
Proof.
  split; [by vm_compute|].
  apply api_key_reaches_only_the_generation_service.
  - intros key Hk. cbn [environ world_2026 world_2026_other_key].
    unfold env_other_key. by rewrite lookup_insert_ne.
  - exact I.
  - reflexivity.
  - intros e1 e2 [= <-] [= <-]. split; [by vm_compute|].
    split; [by vm_compute|]. reflexivity.
  - reflexivity.
Defined.

(** ** Request bodies, read back *)

Lemma read_value_array (f : nat) (d : Z) (Y : string) :
  json.read_value (S f) d (String "[" (String "{" Y))
  = if json.maxNestingDepth <? d + 1 then None
    else
      match json.read_elements f (d + 1) (String "{" Y) with
      | Some (es, rest) => Some (json.Array es, rest)
      | None => None
      end.
Proof.
  cbn [json.read_value].
  change (json.skip_space (String "[" ?x)) with (String "["%char x).
  cbv beta iota. change (byte "[") with 91. cbv zeta.
  change (91 =? 123) with false. change (91 =? 91) with true. cbv iota.
  destruct (json.maxNestingDepth <? d + 1); [reflexivity|].
  change (json.skip_space (String "{" ?x)) with (String "{"%char x).
  reflexivity.
Qed.

Lemma read_elements_more (f : nat) (d : Z) (V : string) (v : json.value)
    (rest : string) :
  json.read_value f d V = Some (v, String "," rest) ->
  json.read_elements (S f) d V
  = match json.read_elements f d rest with
    | Some (es, r) => Some (v :: es, r)
    | None => None
    end.
Proof.
  intros HV. cbn [json.read_elements]. rewrite HV.
  change (json.skip_space (String "," ?x)) with (String ","%char x).
  reflexivity.
Qed.

Lemma read_elements_last (f : nat) (d : Z) (V : string) (v : json.value)
    (rest : string) :
  json.read_value f d V = Some (v, String "]" rest) ->
  json.read_elements (S f) d V = Some ([v], rest).
Proof.
  intros HV. cbn [json.read_elements]. rewrite HV.
  change (json.skip_space (String "]" ?x)) with (String "]"%char x).
  reflexivity.
Qed.

(** An object of two string members, read back. *)
Lemma read_value_two_strings (f : nat) (d : Z) (k1 v1 k2 v2 rest : string) :
  d + 1 <= json.maxNestingDepth ->
  ValidString k1 = true -> ValidString v1 = true ->
  ValidString k2 = true -> ValidString v2 = true ->
  json.read_value (S (S (S (S f)))) d
    (String "{"
       (json.appendString k1 +:+
        String ":"
          (json.appendString v1 +:+
           String ","
             (json.appendString k2 +:+
              String ":" (json.appendString v2 +:+ String "}" rest)))))
  = Some (json.Object [(k1, json.Str v1); (k2, json.Str v2)], rest).
Proof.
  intros Hd Hk1 Hv1 Hk2 Hv2. rewrite read_value_object.
  destruct (json.maxNestingDepth <? d + 1) eqn:E; [apply Z.ltb_lt in E; lia|].
  rewrite read_members_string_more by assumption.
  by rewrite read_members_string_last by assumption.
Qed.

Lemma read_encode_authBody (identifier password : string) :
  ValidString identifier = true ->
  ValidString password = true ->
  json.read
    (json.encode (json.GoMap [("identifier", json.GoString identifier);
                              ("password", json.GoString password)]))
  = Some (json.Object [("identifier", json.Str identifier);
                       ("password", json.Str password)],
          EmptyString).
Proof.
  intros Hi Hp. unfold json.read. sort_keys.
  cbn [json.encode map fst snd json.sort_by_key json.insert_by_key json.join].
  repeat rewrite ?append_assoc, ?append_cons, ?append_nil_l.
  match goal with |- json.read_value (S (String.length ?b)) _ _ = _ =>
    assert (Hlen : (4 <= String.length b)%nat);
    [repeat (cbn [String.length]; rewrite ?length_append); lia|];
    generalize dependent (String.length b) end.
  intros F HF.
  do 3 (destruct F as [|F]; [lia|]). clear HF.
  by apply read_value_two_strings.
Qed.

Lemma read_encode_requestBody (prompt : string) :
  ValidString prompt = true ->
  json.read (json.encode (requestBody prompt))
  = Some (json.Object
            [("messages",
              json.Array
                [json.Object [("content", json.Str systemPrompt);
                              ("role", json.Str "system")];
                 json.Object [("content", json.Str prompt);
                              ("role", json.Str "user")]]);
             ("model", json.Str "gpt-4o-mini")],
          EmptyString).
Proof.
  intros Hp.
  assert (Hsys : ValidString systemPrompt = true) by by vm_compute.
  unfold json.read, requestBody. sort_keys.
  cbn [json.encode map fst snd json.sort_by_key json.insert_by_key json.join].
  repeat rewrite ?append_assoc, ?append_cons, ?append_nil_l.
  match goal with |- json.read_value (S (String.length ?b)) _ _ = _ =>
    assert (Hlen : (14 <= String.length b)%nat);
    [repeat (cbn [String.length]; rewrite ?length_append); lia|];
    generalize dependent (String.length b) end.
  intros F HF.
  do 12 (destruct F as [|F]; [lia|]). clear HF.
  generalize dependent systemPrompt. intros sys Hsys.
  rewrite read_value_object. change (json.maxNestingDepth <? 0 + 1) with false.
  cbv iota.
  erewrite read_members_more; [|reflexivity|].
  2:{ rewrite read_value_array.
      change (json.maxNestingDepth <? 0 + 1 + 1) with false. cbv iota.
      erewrite read_elements_more;
        [|apply read_value_two_strings; (reflexivity || assumption || done)].
      erewrite read_elements_last;
        [|apply read_value_two_strings; (reflexivity || assumption || done)].
      reflexivity. }
  rewrite read_members_string_last by reflexivity.
  reflexivity.
Qed.

Lemma month_name_ascii (m : time.Month) : all_ascii (time.month_name m) = true.
Proof. by destruct m. Qed.

(** The prompt is ASCII whatever the start-up time. *)
Lemma getPost_prompt_ascii (now : time.Time) :
  all_ascii (getPost_prompt now) = true.
Proof.
  assert (Hdate : all_ascii (time.Format now time.layout_January_2_2006) = true).
  { unfold time.Format, time.layout_January_2_2006.
    cbn [time.format_chunks time.format_chunk].
    repeat apply all_ascii_app;
      first [ apply month_name_ascii | apply appendInt_ascii | reflexivity ]. }
  destruct (time.Before now inaugurationDate) eqn:E.
  - rewrite (getPost_prompt_before now E).
    generalize dependent (time.Format now time.layout_January_2_2006).
    intros dateStr Hdate.
    repeat apply all_ascii_app; first [exact Hdate | reflexivity].
  - rewrite (getPost_prompt_not_before now E).
    generalize dependent (time.Format now time.layout_January_2_2006).
    intros dateStr Hdate.
    repeat apply all_ascii_app; first [exact Hdate | reflexivity].
Qed.

Lemma getPost_prompt_valid (now : time.Time) :
  ValidString (getPost_prompt now) = true.
Proof.
  unfold ValidString. apply all_ascii_valid; [apply getPost_prompt_ascii|lia].
Qed.

(** X10.  The body of the request [authenticate] sends reads back as the
    JSON object with exactly the two members [identifier] and
    [password], holding the two strings unchanged, if and only if the
    identifier and the password are valid UTF-8. *)
Theorem authentication_request_read_back
    (identifier password : string) (w : World) (st : State) :
  let req := auth_request identifier password in
  requests (trace (snd (authenticate identifier password w st)))
  = req :: requests (trace st) /\
  (json.read (http.Body req)
   = Some (json.Object [("identifier", json.Str identifier);
                        ("password", json.Str password)],
           EmptyString)
   <-> ValidString identifier = true /\ ValidString password = true).
Proof.
  cbv zeta. split.
  - destruct (authenticate_effect identifier password w st)
      as (r & evs & -> & Hreq & _).
    cbn [snd]. by rewrite trace_saw, requests_app, Hreq.
  - split.
    + generalize (http.Body (auth_request identifier password)).
      intros body Hread. unfold json.read in Hread.
      pose proof (proj1 (read_valid _) _ _ _ _ Hread) as Hv.
      clear Hread. rename Hv into Hread.
      cbn [strings_valid forallb snd] in Hread.
      apply andb_true_iff in Hread as [Hi Hp].
      apply andb_true_iff in Hp as [Hp _]. by split.
    + intros [Hi Hp]. by apply read_encode_authBody.
Qed.

Lemma authentication_request_read_back_witness :
  json.read (http.Body (auth_request "bot.bsky.social" "app-password"))
  = Some (json.Object [("identifier", json.Str "bot.bsky.social");
                       ("password", json.Str "app-password")],
          EmptyString).
Proof.
  apply (proj2 (authentication_request_read_back "bot.bsky.social"
                  "app-password" world_2026 (initial world_2026))).
  split; reflexivity.
Defined.

(** X11.  The body of a text-generation request reads back as the object
    with the members [messages] and [model]: the model "gpt-4o-mini" and
    two messages, the fixed system prompt under the role "system", then
    the prompt under the role "user".  This holds exactly for the
    prompts that are valid UTF-8, and so for the text-generation request
    of every run, whose prompt is the one built from the start-up time. *)
Theorem generation_request_read_back (w : World) :
  let body (prompt : string) :=
    json.Object
      [("messages",
        json.Array
          [json.Object [("content", json.Str systemPrompt);
                        ("role", json.Str "system")];
           json.Object [("content", json.Str prompt);
                        ("role", json.Str "user")]]);
       ("model", json.Str "gpt-4o-mini")] in
  (forall apiKey prompt,
     json.read (http.Body (openai_request apiKey prompt))
     = Some (body prompt, EmptyString)
     <-> ValidString prompt = true) /\
  (forall req,
     In req (requests (snd (run w))) -> http.URL req = openaiURL ->
     json.read (http.Body req)
     = Some (body (getPost_prompt (clock w 0)), EmptyString)).
Proof.
  cbv zeta. split.
  - intros apiKey prompt. split; [|by apply read_encode_requestBody].
    generalize (http.Body (openai_request apiKey prompt)).
    intros text Hread. unfold json.read in Hread.
    pose proof (proj1 (read_valid _) _ _ _ _ Hread) as Hv.
    cbn [strings_valid forallb snd] in Hv.
    rewrite !andb_true_iff in Hv. tauto.
  - intros req Hin Hurl.
    enough (Hreq : exists apiKey,
               req = openai_request apiKey (getPost_prompt (clock w 0))).
    { destruct Hreq as [apiKey ->]. apply read_encode_requestBody.
      apply getPost_prompt_valid. }
    revert Hin. rewrite run_eq.
    destruct (env_at_main w) as [e|]; [|by intros []].
    destruct (time.After (clock w 0) exitDate); [by intros []|].
    destruct (generation_outcome w e) as [post G] eqn:HG.
    destruct (publication_outcome w e post) as [code T] eqn:HT.
    cbn [snd].
    change (G ++ Stdout ("Generated post: " +:+ post) :: T)
      with (G ++ [Stdout ("Generated post: " +:+ post)] ++ T).
    rewrite !requests_app. cbn [requests omap app]. rewrite in_app_iff.
    intros [Hin|Hin].
    + revert HG Hin. generation_cases; intros [= <- <-]; cbn; intros Hin;
        in_cases Hin; by eexists.
    + exfalso. revert HT Hin.
      publication_cases; intros [= <- <-]; cbn; intros Hin;
        in_cases Hin; discriminate Hurl.
Qed.

Lemma generation_request_read_back_witness :
  json.read
    (http.Body (openai_request "sk-test" "Today is March 15, 2026. Write."))
  = Some (json.Object
            [("messages",
              json.Array
                [json.Object [("content", json.Str systemPrompt);
                              ("role", json.Str "system")];
                 json.Object [("content",
                               json.Str "Today is March 15, 2026. Write.");
                              ("role", json.Str "user")]]);
             ("model", json.Str "gpt-4o-mini")],
          EmptyString).
Proof.
  exact (proj2 (proj1 (generation_request_read_back world_2026) "sk-test"
                  "Today is March 15, 2026. Write.") eq_refl).
Defined.

(** ** Response bodies, decoded *)

Lemma assign_object_cons (k : string) (jv : json.value)
    (ms : list (string * json.value)) (ftypes : list (string * json.gotype))
    (fields : list (string * json.goval)) :
  json.assign (json.Object ((k, jv) :: ms)) (json.TStruct ftypes)
    (json.VStruct fields)
  = match json.find_field k ftypes with
    | None =>
        json.assign (json.Object ms) (json.TStruct ftypes) (json.VStruct fields)
    | Some (name, ft) =>
        let curf :=
          match json.find_field name fields with
          | Some (_, w) => w
          | None => json.zero ft
          end in
        let '(v, err) := json.assign jv ft curf in
        let '(r, err') :=
          json.assign (json.Object ms) (json.TStruct ftypes)
            (json.VStruct (json.set_field name v fields)) in
        (r, json.save_error err err')
    end.
Proof.
  cbn [json.assign].
  match goal with
  | |- context [?g ms fields] => is_fix g; set (go := g)
  end.
  cbn [go]. fold go.
  destruct (json.find_field k ftypes) as [[name ft]|]; [|reflexivity].
  cbv zeta.
  destruct (json.assign jv ft _) as [v err].
  by destruct (go ms (json.set_field name v fields)).
Qed.

Lemma assign_array (elems : list json.value) (et : json.gotype)
    (cur : json.goval) (g : json.value -> json.goval) :
  (forall e, In e elems -> json.assign e et (json.zero et) = (g e, None)) ->
  json.assign (json.Array elems) (json.TSlice et) cur
  = (json.VSlice (map g elems), None).
Proof.
  intros H. cbn [json.assign].
  match goal with
  | |- context [?f elems] => is_fix f; set (go := f)
  end.
  enough (Hgo : go elems = (map g elems, None)) by by rewrite Hgo.
  induction elems as [|e l IH]; [reflexivity|].
  cbn [go]. fold go. rewrite (H e) by by left.
  rewrite IH by (intros e' He'; apply H; by right). reflexivity.
Qed.

Lemma fold_case_eqb (a b : string) :
  String.eqb a b = true ->
  String.eqb (json.fold_case a) (json.fold_case b) = true.
Proof. intros H. apply String.eqb_eq in H as ->. apply String.eqb_refl. Qed.

(** A struct of one field: which member goes to it. *)
Lemma find_field_one {A} (k name : string) (x : A) :
  json.find_field k [(name, x)]
  = if String.eqb (json.fold_case k) (json.fold_case name)
    then Some (name, x) else None.
Proof.
  unfold json.find_field. cbn [find fst].
  rewrite (String.eqb_sym (json.fold_case k)).
  destruct (String.eqb name k) eqn:E; [by rewrite (fold_case_eqb _ _ E)|].
  by destruct (String.eqb (json.fold_case name) (json.fold_case k)).
Qed.

Lemma assign_one_field_none (name : string) (ft : json.gotype)
    (members : list (string * json.value)) (cur : json.goval) :
  members_named name members = [] ->
  json.assign (json.Object members) (json.TStruct [(name, ft)])
    (json.VStruct [(name, cur)])
  = (json.VStruct [(name, cur)], None).
Proof.
  unfold members_named. induction members as [|[k jv] ms IH]; [reflexivity|].
  cbn [List.filter fst]. rewrite assign_object_cons, find_field_one.
  destruct (String.eqb (json.fold_case k) (json.fold_case name));
    [by cbn [map]|].
  exact IH.
Qed.

Lemma assign_one_field (name : string) (ft : json.gotype)
    (members : list (string * json.value)) (cur : json.goval)
    (jv : json.value) :
  members_named name members = [jv] ->
  json.assign (json.Object members) (json.TStruct [(name, ft)])
    (json.VStruct [(name, cur)])
  = (json.VStruct [(name, fst (json.assign jv ft cur))],
     snd (json.assign jv ft cur)).
Proof.
  unfold members_named. induction members as [|[k v] ms IH]; [done|].
  cbn [List.filter fst]. rewrite assign_object_cons, find_field_one.
  destruct (String.eqb (json.fold_case k) (json.fold_case name)); [|exact IH].
  cbn [map snd]. intros [= -> Hms]. cbv zeta.
  rewrite find_field_one, String.eqb_refl.
  destruct (json.assign jv ft cur) as [v' err]. cbn [json.set_field fst snd].
  rewrite String.eqb_refl.
  rewrite (assign_one_field_none name ft ms v' Hms).
  by destruct err.
Qed.

(** A struct of two fields whose names differ even up to case. *)
Lemma find_field_two {A} (k n1 n2 : string) (x y : A) :
  json.fold_case n1 <> json.fold_case n2 ->
  json.find_field k [(n1, x); (n2, y)]
  = if String.eqb (json.fold_case k) (json.fold_case n1) then Some (n1, x)
    else if String.eqb (json.fold_case k) (json.fold_case n2) then Some (n2, y)
    else None.
Proof.
  intros Hne. unfold json.find_field. cbn [find fst].
  rewrite !(String.eqb_sym (json.fold_case k)).
  destruct (String.eqb_spec n1 k) as [<-|N1]; [by rewrite String.eqb_refl|].
  destruct (String.eqb_spec n2 k) as [<-|N2].
  { apply String.eqb_neq in Hne. by rewrite Hne, String.eqb_refl. }
  destruct (String.eqb (json.fold_case n1) (json.fold_case k)); [reflexivity|].
  by destruct (String.eqb (json.fold_case n2) (json.fold_case k)).
Qed.

Lemma members_named_cons (name k : string) (v : json.value)
    (ms : list (string * json.value)) :
  members_named name ((k, v) :: ms)
  = if String.eqb (json.fold_case k) (json.fold_case name)
    then v :: members_named name ms else members_named name ms.
Proof.
  unfold members_named. cbn [List.filter fst].
  by destruct (String.eqb (json.fold_case k) (json.fold_case name)).
Qed.

(** Assigning a JSON object to a struct of two string fields: each field
    takes the string of its one member, and keeps its value when the
    object has no member for it. *)
Lemma assign_two_string_fields (n1 n2 : string)
    (members : list (string * json.value)) :
  json.fold_case n1 <> json.fold_case n2 ->
  forall (x y s1 s2 : string),
    match members_named n1 members with
    | [] => Some x | [json.Str s] => Some s | _ => None
    end = Some s1 ->
    match members_named n2 members with
    | [] => Some y | [json.Str s] => Some s | _ => None
    end = Some s2 ->
    json.assign (json.Object members)
      (json.TStruct [(n1, json.TString); (n2, json.TString)])
      (json.VStruct [(n1, json.VString x); (n2, json.VString y)])
    = (json.VStruct [(n1, json.VString s1); (n2, json.VString s2)], None).
Proof.
  intros Hne.
  assert (Hn : n1 <> n2) by (intros ->; done).
  induction members as [|[k jv] ms IH]; intros x y s1 s2.
  { by intros [= <-] [= <-]. }
  rewrite !members_named_cons, assign_object_cons, find_field_two by exact Hne.
  destruct (String.eqb_spec (json.fold_case k) (json.fold_case n1)) as [E1|N1].
  - assert (E2 : String.eqb (json.fold_case k) (json.fold_case n2) = false).
    { apply String.eqb_neq. congruence. }
    rewrite E2.
    destruct jv as [| | |s| |]; try done.
    destruct (members_named n1 ms) eqn:Hms; [|done].
    intros [= <-] H2. cbv zeta.
    change (json.assign (json.Str s) json.TString ?c)
      with (json.VString s, @None string).
    cbv iota beta. cbn [json.set_field].
    rewrite String.eqb_refl.
    rewrite (IH s y s s2); [reflexivity | done | exact H2].
  - destruct (String.eqb_spec (json.fold_case k) (json.fold_case n2)) as [E2|N2].
    + destruct jv as [| | |s| |]; try (intros _; done).
      destruct (members_named n2 ms) eqn:Hms; [|intros _; done].
      intros H1 [= <-]. cbv zeta.
      change (json.assign (json.Str s) json.TString ?c)
        with (json.VString s, @None string).
      cbv iota beta. cbn [json.set_field].
      apply String.eqb_neq in Hn. rewrite Hn, String.eqb_refl.
      rewrite (IH x s s1 s); [reflexivity | exact H1 | done].
    + apply IH.
Qed.

Lemma read_not_blank (body : string) (j : json.value) (rest : string) :
  json.read body = Some (j, rest) -> json.skip_space body <> EmptyString.
Proof.
  unfold json.read. cbn [json.read_value]. by destruct (json.skip_space body).
Qed.

Lemma Decode_read (body : string) (t : json.gotype) (cur : json.goval)
    (j : json.value) (rest : string) :
  json.read body = Some (j, rest) ->
  json.Decode body t cur = json.assign j t cur.
Proof.
  intros H. unfold json.Decode. rewrite H.
  pose proof (read_not_blank _ _ _ H).
  by destruct (json.skip_space body).
Qed.

Lemma decode_AuthResponse_members (body : string)
    (members : list (string * json.value)) (rest jwt did : string) :
  json.read body = Some (json.Object members, rest) ->
  string_member "accessJwt" members = Some jwt ->
  string_member "did" members = Some did ->
  decode_AuthResponse body = ({| AccessJwt := jwt; Did := did |}, None).
Proof.
  intros Hread Hj Hd. unfold decode_AuthResponse.
  rewrite (Decode_read _ _ _ _ _ Hread).
  change (json.zero AuthResponse_type)
    with (json.VStruct [("accessJwt", json.VString EmptyString);
                        ("did", json.VString EmptyString)]).
  unfold AuthResponse_type.
  by rewrite (assign_two_string_fields "accessJwt" "did" members
                ltac:(done) EmptyString EmptyString jwt did Hj Hd).
Qed.

Lemma decode_ErrorResponse_members (body : string)
    (members : list (string * json.value)) (rest error message : string) :
  json.read body = Some (json.Object members, rest) ->
  string_member "error" members = Some error ->
  string_member "message" members = Some message ->
  decode_ErrorResponse body
  = ({| Error := error; Message := message |}, None).
Proof.
  intros Hread He Hm. unfold decode_ErrorResponse.
  rewrite (Decode_read _ _ _ _ _ Hread).
  change (json.zero ErrorResponse_type)
    with (json.VStruct [("error", json.VString EmptyString);
                        ("message", json.VString EmptyString)]).
  unfold ErrorResponse_type.
  by rewrite (assign_two_string_fields "error" "message" members
                ltac:(done) EmptyString EmptyString error message He Hm).
Qed.

Lemma Choices_contents (contents : list string) :
  Choices
    (json.VStruct
       [("choices",
         json.VSlice
           (map (fun c =>
                   json.VStruct
                     [("message",
                       json.VStruct [("content", json.VString c)])])
                contents))])
  = contents.
Proof.
  unfold Choices.
  change (json.find_field "choices" [("choices", ?v)])
    with (Some ("choices", v)).
  cbv iota beta. rewrite map_map.
  induction contents as [|c l IH]; [reflexivity|].
  cbn [map]. by rewrite IH.
Qed.

Lemma decode_response_members (body : string)
    (members : list (string * json.value)) (rest : string)
    (elems : list json.value) (contents : list string) :
  json.read body = Some (json.Object members, rest) ->
  members_named "choices" members = [json.Array elems] ->
  map choice_content elems = map Some contents ->
  decode_response body = (contents, None).
Proof.
  intros Hread Hm He. unfold decode_response.
  rewrite (Decode_read _ _ _ _ _ Hread).
  change (json.zero response_type)
    with (json.VStruct [("choices", json.VSlice [])]).
  unfold response_type.
  rewrite (assign_one_field "choices" _ members _ _ Hm).
  set (et := json.TStruct [("message", json.TStruct [("content", json.TString)])]).
  set (g := fun e : json.value =>
              match choice_content e with
              | Some c =>
                  json.VStruct
                    [("message", json.VStruct [("content", json.VString c)])]
              | None => json.zero et
              end).
  rewrite (assign_array elems et (json.VSlice []) g).
  - cbn [fst snd].
    replace (map g elems)
      with (map (fun c =>
                   json.VStruct
                     [("message",
                       json.VStruct [("content", json.VString c)])])
              contents).
    { by rewrite Choices_contents. }
    clear Hm. revert contents He. induction elems as [|e l IH]; intros [|c cs];
      try done.
    cbn [map]. intros [= Hc Hl]. rewrite (IH cs Hl). unfold g at 2.
    by rewrite Hc.
  - intros e Hin.
    assert (Hc : exists c, choice_content e = Some c).
    { apply (in_map choice_content) in Hin. rewrite He in Hin.
      apply in_map_iff in Hin as (c & Hc & _). eauto. }
    destruct Hc as [c Hc]. unfold g. rewrite Hc.
    unfold choice_content in Hc.
    destruct e as [| | | | |cm]; try done.
    destruct (members_named "message" cm) as [|[| | | | |mm] [|]] eqn:Hcm;
      try done.
    destruct (members_named "content" mm) as [|[| | |c'| |] [|]] eqn:Hmm;
      try done.
    injection Hc as ->.
    change (json.zero et)
      with (json.VStruct [("message",
                           json.VStruct [("content", json.VString EmptyString)])]).
    unfold et.
    rewrite (assign_one_field "message" _ cm _ _ Hcm).
    by rewrite (assign_one_field "content" _ mm _ _ Hmm).
Qed.

(** X12.  What [authenticate] takes from a 200 answer.  When the body
    starts with a JSON object whose keys are ASCII, the session returned
    holds the string of the member [accessJwt] and that of the member
    [did] (keys compared ignoring the case of letters); a member the
    object does not have gives the empty string, without an error; every
    other member is ignored, whatever its value, and so is anything that
    follows the object. *)
Theorem authenticate_reads_the_session_members
    (identifier password : string) (w : World) (st : State)
    (session : http.Response) (members : list (string * json.value))
    (rest jwt did : string) :
  network w (auth_request identifier password) = inr session ->
  http.StatusCode session = 200 ->
  json.read (http.RespBody session) = Some (json.Object members, rest) ->
  keys_ascii (json.Object members) = true ->
  string_member "accessJwt" members = Some jwt ->
  string_member "did" members = Some did ->
  fst (authenticate identifier password w st)
  = Return (Some {| AccessJwt := jwt; Did := did |}, None).
Proof.
  intros Hnet Hs Hread _ Hj Hd. rewrite authenticate_eq. cbv zeta.
  rewrite Hnet, Hs. change (200 =? 200) with true. cbv iota.
  by rewrite (decode_AuthResponse_members _ _ _ _ _ Hread Hj Hd).
Qed.

Lemma authenticate_reads_the_session_members_witness :
  fst (authenticate "bot.bsky.social" "app-password" world_full_session
         (initial world_full_session))
  = Return (Some {| AccessJwt := "jwt-1"; Did := "did:plc:bot" |}, None).
Proof.
  apply (authenticate_reads_the_session_members _ _ _ _
           (http.mkResponse 200 full_session_body)
           [("accessJwt", json.Str "jwt-1"); ("did", json.Str "did:plc:bot");
            ("handle", json.Str "bot.bsky.social");
            ("refreshJwt", json.Str "jwt-2")]
           EmptyString);
    by vm_compute.
Defined.

(** X13.  What [makeOpenAIRequest] takes from a 200 answer.  When the body
    starts with a JSON object whose keys are ASCII, whose member
    [choices] is an array and each element of it an object with a member
    [message] that is an object with a string member [content], the
    function returns the content of the first element, whatever other
    members the objects have; when the array is empty it fails with "no
    response choices returned". *)
Theorem makeOpenAIRequest_reads_the_first_choice
    (prompt : string) (w : World) (st : State) (generated : http.Response)
    (members : list (string * json.value)) (rest : string)
    (elems : list json.value) (contents : list string) :
  let apiKey := getenv (env st) "OPENAI_API_KEY" in
  apiKey <> EmptyString ->
  network w (openai_request apiKey prompt) = inr generated ->
  http.StatusCode generated = 200 ->
  json.read (http.RespBody generated) = Some (json.Object members, rest) ->
  keys_ascii (json.Object members) = true ->
  members_named "choices" members = [json.Array elems] ->
  map choice_content elems = map Some contents ->
  fst (makeOpenAIRequest prompt w st)
  = Return match contents with
           | first :: _ => (first, None)
           | [] => (EmptyString, Some "no response choices returned")
           end.
Proof.
  intros apiKey Hk Hnet Hs Hread _ Hm He. rewrite makeOpenAIRequest_eq.
  cbv zeta. fold apiKey. rewrite (eqb_empty_false _ Hk), Hnet, Hs.
  change (200 =? 200) with true. cbv iota.
  rewrite (decode_response_members _ _ _ _ _ Hread Hm He).
  by destruct contents.
Qed.

Lemma makeOpenAIRequest_reads_the_first_choice_witness :
  fst (makeOpenAIRequest (getPost_prompt march_2026) world_2026
         (initial world_2026))
  = Return ("1041 days until the end of the term. Hang in there! #TheFinalTrumpDown", None).
Proof.
  apply (makeOpenAIRequest_reads_the_first_choice _ world_2026
           (initial world_2026) (http.mkResponse 200 completion_body)
           [("choices",
             json.Array
               [json.Object
                  [("message",
                    json.Object
                      [("content",
                        json.Str "1041 days until the end of the term. Hang in there! #TheFinalTrumpDown");
                       ("role", json.Str "assistant")])]])]
           EmptyString
           [json.Object
              [("message",
                json.Object
                  [("content",
                    json.Str "1041 days until the end of the term. Hang in there! #TheFinalTrumpDown");
                   ("role", json.Str "assistant")])]]
           ["1041 days until the end of the term. Hang in there! #TheFinalTrumpDown"]);
    by vm_compute.
Defined.

(** X14.  What is reported of a refusal.  When a service answers with a
    status other than 200 and a body that starts with a JSON object
    whose keys are ASCII, the error [authenticate] and [postMessage]
    return reads "auth error" or "post error", the status in
    parentheses, then the string of the member [error], " - " and the
    string of the member [message]; a missing member gives the empty
    string. *)
Theorem error_members_are_reported
    (w : World) (st : State) (rejected : http.Response)
    (members : list (string * json.value)) (rest error message : string) :
  http.StatusCode rejected <> 200 ->
  json.read (http.RespBody rejected) = Some (json.Object members, rest) ->
  keys_ascii (json.Object members) = true ->
  string_member "error" members = Some error ->
  string_member "message" members = Some message ->
  let report :=
    Str.itoa (http.StatusCode rejected) +:+ "): " +:+ error +:+ " - "
    +:+ message in
  (forall identifier password,
     network w (auth_request identifier password) = inr rejected ->
     fst (authenticate identifier password w st)
     = Return (None, Some ("auth error (" +:+ report))) /\
  (forall accessToken did text,
     network w
       (post_request accessToken did text
          (time.Format (time.UTC (clock w (ticks st))) time.RFC3339))
     = inr rejected ->
     fst (postMessage accessToken did text w st)
     = Return (Some ("post error (" +:+ report))).
Proof.
  intros Hs Hread _ He Hm report. apply Z.eqb_neq in Hs. split.
  - intros identifier password Hnet. rewrite authenticate_eq. cbv zeta.
    rewrite Hnet, Hs.
    by rewrite (decode_ErrorResponse_members _ _ _ _ _ Hread He Hm).
  - intros accessToken did text Hnet. rewrite postMessage_eq. cbv zeta.
    rewrite Hnet, Hs.
    by rewrite (decode_ErrorResponse_members _ _ _ _ _ Hread He Hm).
Qed.

Lemma error_members_are_reported_witness :
  fst (postMessage "jwt-1" "did:plc:bot" "hello" world_post_rejected
         (initial world_post_rejected))
  = Return (Some "post error (400): InvalidRequest - Record/text must not be longer than 300 graphemes").
Proof.
  refine (proj2 (error_members_are_reported world_post_rejected
                   (initial world_post_rejected)
                   (http.mkResponse 400
                      (json.encode
                         (json.GoMap
                            [("error", json.GoString "InvalidRequest");
                             ("message",
                              json.GoString "Record/text must not be longer than 300 graphemes")])))
                   [("error", json.Str "InvalidRequest");
                    ("message",
                     json.Str "Record/text must not be longer than 300 graphemes")]
                   EmptyString "InvalidRequest"
                   "Record/text must not be longer than 300 graphemes"
                   _ _ _ _ _) "jwt-1" "did:plc:bot" "hello" _);
    by vm_compute.
Defined.
